(** * SCP-Tools: the SCP-ECG reader, anonymizer and verifier

    A shallow embedding of [src/scp_anonymizer.py], [src/scp_reader.py] and
    the section walks of [src/anonymization_verifier.py].

    Conventions of the embedding:
    - a Python [bytes] / [bytearray] is a [list byte]; offsets and lengths
      are Python integers, here [Z];
    - [struct.unpack] of a slice of the wrong length raises, an index out
      of range raises: both are [None] in the primitives below;
    - a [while] loop is run by [while_loop] with a fuel and gives [None]
      when the fuel is used up. *)

From Stdlib Require Import ZArith Lia List Bool String.
From Stdlib Require Import Strings.Byte.
From stdpp Require Import base tactics option list gmap strings.

Local Open Scope Z_scope.

(** ** Bytes *)

Definition byte_to_Z (b : byte) : Z := Z.of_N (Byte.to_N b).

Definition byte_of_Z (z : Z) : byte :=
  match Byte.of_N (Z.to_N (z mod 256)) with
  | Some b => b
  | None => x00
  end.

Definition byte_eqb (a b : byte) : bool := Byte.eqb a b.

#[global] Instance byte_eq_decision : EqDecision byte := Byte.byte_eq_dec.

(** [len(data)] *)
Definition len (d : list byte) : Z := Z.of_nat (length d).

(** ** Python slices and indexing, for non-negative bounds

    Every slice bound and index in the modelled code is a sum of a pointer
    that starts at 0 or 6 and of unsigned quantities, so Python's wrap of
    negative indices never applies. *)

(** [d[a:b]] *)
Definition slice (d : list byte) (a b : Z) : list byte :=
  take (Z.to_nat b - Z.to_nat a)%nat (drop (Z.to_nat a) d).

(** [d[a:]] *)
Definition slice_from (d : list byte) (a : Z) : list byte :=
  drop (Z.to_nat a) d.

(** [d[a:b] = v] on a bytearray: both bounds are clamped to the length, an
    empty or inverted range inserts at [a]; the length changes whenever
    [len(v)] is not the width of the clamped range. *)
Definition slice_assign (d : list byte) (a b : Z) (v : list byte) : list byte :=
  take (Z.to_nat a) d ++ v ++ drop (Z.to_nat (Z.max a b)) d.

(** [d[i]], raising IndexError out of range *)
Definition index (d : list byte) (i : Z) : option byte :=
  if (0 <=? i) && (i <? len d) then d !! Z.to_nat i else None.

(** [d[i] = v], raising IndexError out of range *)
Definition index_assign (d : list byte) (i : Z) (v : byte) : option (list byte) :=
  if (0 <=? i) && (i <? len d) then Some (<[Z.to_nat i := v]> d) else None.

(** [bytearray.find(sub, start)]: the lowest index at or after [start]
    where [sub] occurs, [-1] when there is none. *)
Fixpoint starts_with (d sub : list byte) : bool :=
  match sub, d with
  | [], _ => true
  | _ :: _, [] => false
  | x :: sub', y :: d' => byte_eqb x y && starts_with d' sub'
  end.

Fixpoint find_in (d sub : list byte) (pos : Z) : Z :=
  if starts_with d sub then pos
  else match d with
       | [] => -1
       | _ :: d' => find_in d' sub (pos + 1)
       end.

Definition find (d sub : list byte) (start : Z) : Z :=
  if len d <? start then -1 else find_in (slice_from d start) sub start.

(** [b'\x00' * n] and the like: a non-positive count gives the empty
    bytes. *)
Definition bytes_repeat (unit : list byte) (n : Z) : list byte :=
  concat (replicate (Z.to_nat n) unit).

(** ** struct.pack / struct.unpack *)

(** ['<H'] *)
Definition unpack_le_H (bs : list byte) : option Z :=
  match bs with
  | [b0; b1] => Some (byte_to_Z b0 + 256 * byte_to_Z b1)
  | _ => None
  end.

(** ['>H'] *)
Definition unpack_be_H (bs : list byte) : option Z :=
  match bs with
  | [b0; b1] => Some (256 * byte_to_Z b0 + byte_to_Z b1)
  | _ => None
  end.

(** ['<I'] *)
Definition unpack_le_I (bs : list byte) : option Z :=
  match bs with
  | [b0; b1; b2; b3] =>
      Some (byte_to_Z b0 + 256 * byte_to_Z b1
            + 65536 * byte_to_Z b2 + 16777216 * byte_to_Z b3)
  | _ => None
  end.

(** ['<h'], two's complement *)
Definition unpack_le_h (bs : list byte) : option Z :=
  match unpack_le_H bs with
  | Some u => Some (if u <? 32768 then u else u - 65536)
  | None => None
  end.

(** ['b'], two's complement *)
Definition unpack_b (bs : list byte) : option Z :=
  match bs with
  | [b0] => let u := byte_to_Z b0 in Some (if u <? 128 then u else u - 256)
  | _ => None
  end.

(** ['<I'], raising struct.error outside [0, 2^32) *)
Definition pack_le_I (n : Z) : option (list byte) :=
  if (0 <=? n) && (n <? 4294967296) then
    Some [byte_of_Z n; byte_of_Z (n / 256);
          byte_of_Z (n / 65536); byte_of_Z (n / 16777216)]
  else None.

(** ['<H'], raising struct.error outside [0, 2^16) *)
Definition pack_le_H (n : Z) : option (list byte) :=
  if (0 <=? n) && (n <? 65536) then Some [byte_of_Z n; byte_of_Z (n / 256)]
  else None.

(** ['>H'] of a constant in range *)
Definition pack_be_H (n : Z) : list byte := [byte_of_Z (n / 256); byte_of_Z n].

(** ** Loops

    [while cond: body]: the body either breaks out of the loop or goes on
    to the next test of the condition; a body that runs a loop of its own
    gives [None] when that loop has no fuel left. *)

Inductive ctl (S : Type) : Type :=
| Break (s : S)
| Next (s : S).
Arguments Break {S} s.
Arguments Next {S} s.

Section While.
Context {S : Type}.
Variable cond : S -> bool.
Variable body : S -> option (ctl S).

Fixpoint while_loop (fuel : nat) (s : S) : option S :=
  match fuel with
  | O => None
  | Datatypes.S fuel' =>
      if cond s then
        match body s with
        | Some (Break s') => Some s'
        | Some (Next s') => while_loop fuel' s'
        | None => None
        end
      else Some s
  end.

(** The states in which the body is entered, in order. *)
Fixpoint while_trace (fuel : nat) (s : S) : list S :=
  match fuel with
  | O => []
  | Datatypes.S fuel' =>
      if cond s then
        s :: match body s with
             | Some (Next s') => while_trace fuel' s'
             | _ => []
             end
      else []
  end.
End While.

(** ** CRC-CCITT ([SCPAnonymizer.calculate_crc_ccitt]) *)

Definition crc_round (crc : Z) : Z :=
  Z.land
    (if Z.land crc 0x8000 =? 0 then Z.shiftl crc 1
     else Z.lxor (Z.shiftl crc 1) 0x1021)
    0xFFFF.

Definition crc_byte (crc : Z) (b : byte) : Z :=
  Nat.iter 8 crc_round (Z.lxor crc (Z.shiftl (byte_to_Z b) 8)).

Definition calculate_crc_ccitt (data : list byte) : Z :=
  fold_left crc_byte data 0xFFFF.

(** ** The anonymizer ([src/scp_anonymizer.py])

    Functions that can raise or run a loop return an [option]; [None]
    stands for a call that does not return normally. *)

Module SCPAnonymizer.

(** A Python [str] whose code points are below 256; [encode('ascii')]
    raises on a code point above 127, [encode('utf-16le')] writes each
    code point as two bytes, low byte first. *)
Definition encode_ascii (s : string) : option (list byte) :=
  let bs := list_byte_of_string s in
  if forallb (fun b => byte_to_Z b <? 128) bs then Some bs else None.

Definition encode_utf16le (s : string) : list byte :=
  flat_map (fun b => [b; x00]) (list_byte_of_string s).

(** The messages appended to [changes_made]. *)
Inductive change : Type :=
| ReplacedId (count : Z) (original_id : string)
| ReplacedIdUtf16 (count : Z) (original_id : string)
| ReplacedTest (count : Z)
| AnonymizedField (name : string)
| UpdatedCrc (crc : Z).

Record anonymizer : Type := mkAnonymizer {
  data : list byte;
  anonymous_id : string;
  changes_made : list change
}.

(** [__init__]: [anonymous_id or "ANON000000"] *)
Definition init (anonymous_id : option string) : anonymizer :=
  {| data := [];
     anonymous_id := match anonymous_id with
                     | None | Some EmptyString => "ANON000000"
                     | Some s => s
                     end;
     changes_made := [] |}.

Definition set_data (self : anonymizer) (d : list byte) : anonymizer :=
  {| data := d; anonymous_id := anonymous_id self;
     changes_made := changes_made self |}.

Definition log_change (self : anonymizer) (c : change) : anonymizer :=
  {| data := data self; anonymous_id := anonymous_id self;
     changes_made := changes_made self ++ [c] |}.

(** [read_file] *)
Definition read_file (self : anonymizer) (file : list byte) : anonymizer :=
  set_data self file.

(** [update_file_size] *)
Definition update_file_size (self : anonymizer) : option anonymizer :=
  let file_size := len (data self) in
  packed ← pack_le_I file_size;
  Some (set_data self (slice_assign (data self) 2 6 packed)).

(** [update_crc] *)
Definition update_crc (self : anonymizer) : option anonymizer :=
  let new_crc := calculate_crc_ccitt (slice_from (data self) 2) in
  packed ← pack_le_H new_crc;
  Some (log_change (set_data self (slice_assign (data self) 0 2 packed))
          (UpdatedCrc new_crc)).

(** [find_and_replace_text] *)
Record far_state : Type := mkFar {
  far_data : list byte;
  far_count : Z;
  far_index : Z
}.

Definition far_body (search_bytes replace_bytes : list byte)
    (s : far_state) : option (ctl far_state) :=
  let index := find (far_data s) search_bytes (far_index s) in
  if index =? -1 then
    Some (Break (mkFar (far_data s) (far_count s) index))
  else
    let replace_padded := slice replace_bytes 0 (len search_bytes) in
    let replace_padded :=
      if len replace_padded <? len search_bytes then
        replace_padded
        ++ bytes_repeat [x00] (len search_bytes - len replace_padded)
      else replace_padded in
    Some (Next (mkFar
      (slice_assign (far_data s) index (index + len search_bytes)
         replace_padded)
      (far_count s + 1)
      (index + len search_bytes))).

Definition find_and_replace_text (self : anonymizer)
    (search_bytes replace_bytes : list byte) : option (anonymizer * Z) :=
  s ← while_loop (fun _ => true) (far_body search_bytes replace_bytes)
        (S (length (data self))) (mkFar (data self) 0 0);
  Some (set_data self (far_data s), far_count s).

(** [_anonymize_section_1_tags] *)
Definition sensitive_tags : list (Z * string) :=
  [(2, "Patient ID"); (6, "Last name"); (7, "First name");
   (8, "Last name"); (9, "First name"); (10, "Date of birth")]%string.

Definition sensitive_name (tag : Z) : option string :=
  snd <$> List.find (fun kv => fst kv =? tag) sensitive_tags.

Record tag_state : Type := mkTags {
  tag_self : anonymizer;
  tag_pointer : Z
}.

(** The [except Exception] handler: the buffer stays as the raising
    statement left it, the pointer moves by one byte. *)
Definition tag_except (self : anonymizer) (pointer : Z) : ctl tag_state :=
  Next (mkTags self (pointer + 1)).

(** The replacement of a patient-ID value *)
Definition anon_bytes (anon_ascii : list byte) (tag_length : Z) : list byte :=
  let anon := slice anon_ascii 0 tag_length in
  anon ++ bytes_repeat [x00] (tag_length - len anon).

(** The replacement of a name value: [b'REMOVED\x00'] repeated *)
Definition removed_unit : list byte :=
  list_byte_of_string "REMOVED" ++ [x00].

Definition removed_bytes (tag_length : Z) : list byte :=
  slice (bytes_repeat removed_unit (tag_length / 8 + 1)) 0 tag_length.

Definition tags_body (s : tag_state) : ctl tag_state :=
  let self := tag_self s in
  let pointer := tag_pointer s in
  match index (data self) pointer with
  | None => tag_except self pointer
  | Some tag =>
      let tag := byte_to_Z tag in
      if tag =? 255 then Break s
      else
        match unpack_le_H (slice (data self) (pointer + 1) (pointer + 3)) with
        | None => tag_except self pointer
        | Some tag_length =>
            let advance self' := Next (mkTags self' (pointer + (3 + tag_length))) in
            match sensitive_name tag with
            | None => advance self
            | Some name =>
                let value_start := pointer + 3 in
                let value_end :=
                  Z.min (value_start + tag_length) (len (data self)) in
                if tag =? 2 then
                  match encode_ascii (anonymous_id self) with
                  | None => tag_except self pointer
                  | Some anon_ascii =>
                      advance (log_change
                        (set_data self
                           (slice_assign (data self) value_start value_end
                              (anon_bytes anon_ascii tag_length)))
                        (AnonymizedField name))
                  end
                else if existsb (Z.eqb tag) [6; 7; 8; 9] then
                  advance (log_change
                    (set_data self
                       (slice_assign (data self) value_start value_end
                          (removed_bytes tag_length)))
                    (AnonymizedField name))
                else if tag =? 10 then
                  if 4 <=? tag_length then
                    let d1 := slice_assign (data self) value_start
                                (value_start + 2) (pack_be_H 1900) in
                    match index_assign d1 (value_start + 2) x01 with
                    | None => tag_except (set_data self d1) pointer
                    | Some d2 =>
                        match index_assign d2 (value_start + 3) x01 with
                        | None => tag_except (set_data self d2) pointer
                        | Some d3 =>
                            advance (log_change (set_data self d3)
                                       (AnonymizedField name))
                        end
                    end
                  else advance self
                else advance self
            end
        end
  end.

Definition tags_cond (end_ : Z) (s : tag_state) : bool :=
  tag_pointer s <? end_ - 3.

Definition _anonymize_section_1_tags (self : anonymizer)
    (start_offset length : Z) : option anonymizer :=
  let pointer := start_offset in
  let end_ := Z.min (start_offset + length) (len (data self)) in
  s ← while_loop (tags_cond end_) (fun s => Some (tags_body s))
        (S (List.length (data self))) (mkTags self pointer);
  Some (tag_self s).

(** [_anonymize_section_1] *)
Definition section_1_cond (s : tag_state) : bool :=
  tag_pointer s <? len (data (tag_self s)) - 10.

Definition section_1_body (s : tag_state) : option (ctl tag_state) :=
  let self := tag_self s in
  let pointer := tag_pointer s in
  match unpack_le_H (slice (data self) pointer (pointer + 2)),
        unpack_le_I (slice (data self) (pointer + 2) (pointer + 6)) with
  | Some section_id, Some section_size =>
      if (section_id =? 1) && (section_size <? len (data self)) then
        self' ← _anonymize_section_1_tags self (pointer + 8) (section_size - 8);
        Some (Break (mkTags self' pointer))
      else if (0 <? section_size) && (section_size <? len (data self)) then
        Some (Next (mkTags self (pointer + section_size)))
      else Some (Next (mkTags self (pointer + 1)))
  | _, _ => Some (Next (mkTags self (pointer + 1)))
  end.

Definition _anonymize_section_1 (self : anonymizer) : option anonymizer :=
  let pointer := 6 in
  s ← while_loop section_1_cond section_1_body
        (S (List.length (data self))) (mkTags self pointer);
  Some (tag_self s).

(** [anonymize_patient_data] *)
Definition original_ids : list string :=
  ["197001138994"; "191010101010"; "123456789";
   "1970011389"; "1910101010"; "12345678"]%string.

Definition replace_id (self : option anonymizer) (original_id : string)
    : option anonymizer :=
  self ← self;
  search ← encode_ascii original_id;
  replace ← encode_ascii (anonymous_id self);
  '(self, count) ← find_and_replace_text self search replace;
  let self :=
    if 0 <? count then log_change self (ReplacedId count original_id)
    else self in
  '(self, count) ← find_and_replace_text self (encode_utf16le original_id)
                     (encode_utf16le (anonymous_id self));
  Some (if 0 <? count then log_change self (ReplacedIdUtf16 count original_id)
        else self).

Definition anonymize_patient_data (self : anonymizer) : option anonymizer :=
  self ← fold_left replace_id original_ids (Some self);
  '(self, count) ← find_and_replace_text self
                     (list_byte_of_string "test") (list_byte_of_string "ANON");
  let self := if 0 <? count then log_change self (ReplacedTest count) else self in
  _anonymize_section_1 self.

(** [save_anonymized]: the buffer written to the output file *)
Definition save_anonymized (self : anonymizer) : option anonymizer :=
  self ← update_file_size self;
  update_crc self.

(** [anonymize]: the anonymizer after [read_file], [anonymize_patient_data]
    and [save_anonymized]; its [data] is the content of the output file.
    [None]: the call does not return normally. *)
Definition anonymize (anonymous_id : option string) (file : list byte)
    : option anonymizer :=
  let self := read_file (init anonymous_id) file in
  self ← anonymize_patient_data self;
  save_anonymized self.

End SCPAnonymizer.

(** ** The reader ([src/scp_reader.py])

    [patient_info] and [device_info] are left out of the [reader] record:
    [_parse_patient_data] writes nothing else and swallows every exception
    it raises; it is modelled on its own at the end of the module. The
    content of the synthetic waveform of [_generate_sample_data] is random;
    only its shape is kept. *)

Inductive outcome (A : Type) : Type :=
| Returns (a : A)
| Raises
| OutOfFuel.
Arguments Returns {A} a.
Arguments Raises {A}.
Arguments OutOfFuel {A}.

(** [for _ in range(n): body], where an exception in the body leaves the
    loop *)
Definition for_range {S : Type} (n : Z) (body : S -> option S) (s : S)
    : option S :=
  Nat.iter (Z.to_nat n) (fun acc => acc ≫= body) (Some s).

Module SCPReader.

Record section : Type := mkSection {
  size : Z;
  version : byte;
  protocol : byte;
  data_start : Z;
  section_data : list byte
}.

Inductive ecg : Type :=
| Matrix (rows : list (list Z))
| SampleData (num_leads samples : Z).

Record reader : Type := mkReader {
  data : list byte;
  sections : gmap Z section;
  ecg_data : option ecg;
  leads : list string;
  sampling_rate : Z
}.

(** [__init__] *)
Definition init : reader :=
  {| data := []; sections := ∅; ecg_data := None; leads := [];
     sampling_rate := 500 |}.

Definition lead_names : list string :=
  ["I"; "II"; "III"; "aVR"; "aVL"; "aVF";
   "V1"; "V2"; "V3"; "V4"; "V5"; "V6"]%string.

(** [f'Lead {i+1}' for i in range(n)], [n] at most 12 *)
Definition numbered_leads (n : Z) : list string :=
  take (Z.to_nat n)
    ["Lead 1"; "Lead 2"; "Lead 3"; "Lead 4"; "Lead 5"; "Lead 6"; "Lead 7";
     "Lead 8"; "Lead 9"; "Lead 10"; "Lead 11"; "Lead 12"]%string.

Definition set_leads (self : reader) (l : list string) : reader :=
  {| data := data self; sections := sections self;
     ecg_data := ecg_data self; leads := l;
     sampling_rate := sampling_rate self |}.

Definition set_ecg_data (self : reader) (e : ecg) : reader :=
  {| data := data self; sections := sections self;
     ecg_data := Some e; leads := leads self;
     sampling_rate := sampling_rate self |}.

Definition set_sampling_rate (self : reader) (r : Z) : reader :=
  {| data := data self; sections := sections self;
     ecg_data := ecg_data self; leads := leads self;
     sampling_rate := r |}.

(** [_generate_sample_data] *)
Definition _generate_sample_data (self : reader) : reader :=
  let num_leads := 12 in
  let duration := 10 in
  let samples := duration * sampling_rate self in
  let self := set_ecg_data self (SampleData num_leads samples) in
  if bool_decide (leads self = []) then set_leads self lead_names else self.

(** [_parse_lead_info] *)
Definition _parse_lead_info (self : reader) (data : list byte) : reader :=
  match index data 0 with
  | None => set_leads self lead_names
  | Some num_leads =>
      let num_leads := byte_to_Z num_leads in
      let pointer := 1 in
      let lead_spec_start := pointer + num_leads * 2 in
      let appended :=
        flat_map
          (fun i : nat =>
             if lead_spec_start + Z.of_nat i <? len data then
               match lead_names !! i with
               | Some name => [name]
               | None => []
               end
             else [])
          (seq 0 (Z.to_nat (Z.min num_leads 12))) in
      let self := set_leads self (leads self ++ appended) in
      if bool_decide (leads self = []) then
        set_leads self (numbered_leads (Z.min num_leads 12))
      else self
  end.

(** [_parse_rhythm_data]: the loops over the samples of one lead. The
    state is [(pointer, lead_samples)]. *)
Definition raw_sample_body (data : list byte) (s : Z * list Z)
    : option (Z * list Z) :=
  let '(pointer, lead_samples) := s in
  if pointer + 2 <=? len data then
    sample ← unpack_le_h (slice data pointer (pointer + 2));
    Some (pointer + 2, lead_samples ++ [sample])
  else Some s.

Definition delta_body (data : list byte) (s : Z * list Z)
    : option (Z * list Z) :=
  let '(pointer, lead_samples) := s in
  if pointer <? len data then
    diff ← unpack_b (slice data pointer (pointer + 1));
    let pointer := pointer + 1 in
    match last lead_samples with
    | Some prev => Some (pointer, lead_samples ++ [prev + diff])
    | None => Some (pointer, lead_samples)
    end
  else Some s.

(** One round of [for i in range(num_leads)]; the state is
    [(pointer, lead_data)]. *)
Definition lead_body (data : list byte) (compression : Z)
    (s : Z * list (list Z)) : option (Z * list (list Z)) :=
  let '(pointer, lead_data) := s in
  '(num_samples, pointer) ←
    (if pointer + 4 <=? len data then
       num_samples ← unpack_le_I (slice data pointer (pointer + 4));
       Some (num_samples, pointer + 4)
     else Some (5000, pointer));
  '(pointer, lead_samples) ←
    (if compression =? 0 then
       for_range (Z.min num_samples ((len data - pointer) / 2))
         (raw_sample_body data) (pointer, [])
     else
       '(pointer, lead_samples) ←
         (if pointer + 2 <=? len data then
            reference ← unpack_le_h (slice data pointer (pointer + 2));
            Some (pointer + 2, [reference])
          else Some (pointer, []));
       for_range (Z.min (num_samples - 1) (len data - pointer))
         (delta_body data) (pointer, lead_samples));
  Some (pointer,
        if bool_decide (lead_samples = []) then lead_data
        else lead_data ++ [lead_samples]).

(** [np.zeros((num_leads, max_length))] with row [i] overwritten by the
    [i]-th decoded lead *)
Definition ecg_matrix (num_leads : Z) (lead_data : list (list Z))
    : list (list Z) :=
  let max_length := foldr (fun ld m => Nat.max (length ld) m) O lead_data in
  map (fun ld => ld ++ replicate (max_length - length ld) 0) lead_data
  ++ replicate (Z.to_nat num_leads - length lead_data)
       (replicate max_length 0).

Definition _parse_rhythm_data (self : reader) (data : list byte) : reader :=
  match unpack_le_H (slice data 0 2), unpack_le_H (slice data 2 4) with
  | Some amplitude_value, Some sample_interval =>
      let self :=
        if 0 <? sample_interval then
          set_sampling_rate self (1000000 / sample_interval)
        else self in
      match index data 4, index data 5, unpack_le_H (slice data 6 8) with
      | Some encoding, Some compression, Some num_leads =>
          let compression := byte_to_Z compression in
          let num_leads :=
            if (num_leads =? 0) || (12 <? num_leads) then 12 else num_leads in
          match (if 8 + 2 <=? len data then unpack_le_H (slice data 8 10)
                 else Some 2) with
          | Some bytes_per_sample =>
              match for_range num_leads (lead_body data compression)
                      (10, []) with
              | Some (_, lead_data) =>
                  if bool_decide (lead_data = []) then self
                  else set_ecg_data self (Matrix (ecg_matrix num_leads lead_data))
              | None => _generate_sample_data self
              end
          | None => _generate_sample_data self
          end
      | _, _, _ => _generate_sample_data self
      end
  | _, _ => _generate_sample_data self
  end.

(** [_parse_sections] *)
Record walk : Type := mkWalk {
  walk_self : reader;
  walk_pointer : Z
}.

Definition sections_cond (s : walk) : bool :=
  walk_pointer s <? len (data (walk_self s)) - 10.

Definition sections_body (s : walk) : option (ctl walk) :=
  let self := walk_self s in
  let pointer := walk_pointer s in
  match unpack_le_H (slice (data self) pointer (pointer + 2)),
        unpack_le_I (slice (data self) (pointer + 2) (pointer + 6)),
        index (data self) (pointer + 6), index (data self) (pointer + 7) with
  | Some section_id, Some section_size,
    Some section_version, Some protocol_version =>
      if section_id =? 0 then Some (Break s)
      else
        let entry :=
          {| size := section_size; version := section_version;
             protocol := protocol_version; data_start := pointer + 8;
             section_data :=
               slice (data self) (pointer + 8) (pointer + section_size) |} in
        let self :=
          {| data := data self;
             sections := <[section_id := entry]> (sections self);
             ecg_data := ecg_data self; leads := leads self;
             sampling_rate := sampling_rate self |} in
        let self :=
          if section_id =? 1 then self
          else if section_id =? 3 then _parse_lead_info self (section_data entry)
          else if section_id =? 6 then _parse_rhythm_data self (section_data entry)
          else self in
        Some (Next (mkWalk self (pointer + section_size)))
  | _, _, _, _ => Some (Break s)
  end.

Definition _parse_sections (fuel : nat) (self : reader) : option reader :=
  walk_self <$> while_loop sections_cond sections_body fuel (mkWalk self 6).

(** [_extract_ecg_data] *)
Definition _extract_ecg_data (self : reader) : reader :=
  match ecg_data self with
  | None | Some (Matrix []) | Some (Matrix ([] :: _)) =>
      _generate_sample_data self
  | Some _ => self
  end.

(** [read_file], from the bytes of the file on; [_parse_header] raises on
    a file shorter than its six bytes. *)
Definition read_file (fuel : nat) (file : list byte) : outcome reader :=
  let self :=
    {| data := file; sections := sections init; ecg_data := ecg_data init;
       leads := leads init; sampling_rate := sampling_rate init |} in
  match unpack_le_H (slice file 0 2), unpack_le_I (slice file 2 6) with
  | Some crc, Some file_size =>
      match _parse_sections fuel self with
      | Some self => Returns (_extract_ecg_data self)
      | None => OutOfFuel
      end
  | _, _ => Raises
  end.

(** [_parse_patient_data], which [_parse_sections] calls on the data of
    Section 1. It writes [patient_info] and [device_info] only; the two
    dicts are kept here beside the [reader]. A [str] decoded from latin-1
    is kept as its code points, a formatted date or time as the numbers
    that are formatted. *)
Inductive info : Type :=
| Text (code_points : list byte)
| Date (year month day : Z)
| Time (hour minute second : Z)
| Number (n : Z).

Record infos : Type := mkInfos {
  patient_info : gmap string info;
  device_info : gmap string info
}.

Definition set_patient (self : infos) (key : string) (v : info) : infos :=
  {| patient_info := <[key := v]> (patient_info self);
     device_info := device_info self |}.

Definition set_device (self : infos) (key : string) (v : info) : infos :=
  {| patient_info := patient_info self;
     device_info := <[key := v]> (device_info self) |}.

(** [str.isspace] on the code points below 256 *)
Definition is_space (b : byte) : bool :=
  let c := byte_to_Z b in
  ((9 <=? c) && (c <=? 13)) || ((28 <=? c) && (c <=? 32))
  || (c =? 133) || (c =? 160).

Fixpoint lstrip (s : list byte) : list byte :=
  match s with
  | b :: rest => if is_space b then lstrip rest else s
  | [] => []
  end.

Definition rstrip (s : list byte) : list byte :=
  foldr (fun b rest =>
           if is_space b && bool_decide (rest = []) then [] else b :: rest)
    [] s.

(** [value.decode('latin-1', errors='ignore').strip()] *)
Definition strip (value : list byte) : list byte := rstrip (lstrip value).

(** One round of the loop, [None] when it raises. Every write of a round
    comes after the last read that can raise. *)
Definition patient_round (data : list byte) (s : infos * Z)
    : option (infos * Z) :=
  let '(self, pointer) := s in
  tag ← index data pointer;
  let tag := byte_to_Z tag in
  length_ ← unpack_le_H (slice data (pointer + 1) (pointer + 3));
  let value := slice data (pointer + 3) (pointer + 3 + length_) in
  self ←
    (if tag =? 2 then Some (set_patient self "id" (Text (strip value)))
     else if tag =? 8 then
       Some (set_patient self "last_name" (Text (strip value)))
     else if tag =? 9 then
       Some (set_patient self "first_name" (Text (strip value)))
     else if tag =? 10 then
       birth_date ← unpack_be_H (slice value 0 2);
       birth_month ← index value 2;
       birth_day ← index value 3;
       Some (if 0 <? birth_date then
               set_patient self "birth_date"
                 (Date birth_date (byte_to_Z birth_month)
                    (byte_to_Z birth_day))
             else self)
     else if tag =? 14 then
       device_id ← unpack_le_H (slice value 0 2);
       device_type ← index value 2;
       Some (set_device (set_device self "id" (Number device_id))
               "type" (Number (byte_to_Z device_type)))
     else if tag =? 25 then
       date ← unpack_be_H (slice value 0 2);
       month ← index value 2;
       day ← index value 3;
       Some (if 0 <? date then
               set_device self "acquisition_date"
                 (Date date (byte_to_Z month) (byte_to_Z day))
             else self)
     else if tag =? 26 then
       hour ← index value 0;
       minute ← index value 1;
       second ← index value 2;
       Some (set_device self "acquisition_time"
               (Time (byte_to_Z hour) (byte_to_Z minute) (byte_to_Z second)))
     else Some self);
  Some (self, pointer + (3 + length_)).

Definition patient_cond (data : list byte) (s : infos * Z) : bool :=
  snd s <? len data - 5.

(** The [try] around the loop: an exception ends the walk and keeps what
    the rounds before have written. *)
Definition patient_body (data : list byte) (s : infos * Z)
    : option (ctl (infos * Z)) :=
  match patient_round data s with
  | Some s' => Some (Next s')
  | None => Some (Break s)
  end.

Definition _parse_patient_data (data : list byte) (self : infos)
    : option infos :=
  fst <$> while_loop (patient_cond data) (patient_body data)
            (S (length data)) (self, 0).

End SCPReader.

(** ** The verifier ([src/anonymization_verifier.py]): the section walks
    and the policy of [_verify_tag] *)

Module AnonymizationVerifier.

(** The header fields as the verifier's three walks read them *)
Definition read_header (data : list byte) (pointer : Z) : option (Z * Z) :=
  sid ← unpack_le_H (slice data (pointer + 2) (pointer + 4));
  size ← unpack_le_I (slice data (pointer + 4) (pointer + 8));
  Some (sid, size).

(** [_find_section]; the state is the pointer, the result of the loop is
    kept beside it. *)
Definition find_cond (data : list byte) (s : Z * option (list byte)) : bool :=
  fst s <? len data - 16.

Definition find_body (data : list byte) (section_id : Z)
    (s : Z * option (list byte)) : option (ctl (Z * option (list byte))) :=
  let pointer := fst s in
  match read_header data pointer with
  | Some (sid, size) =>
      if (sid =? section_id) && (size <? len data) then
        Some (Break (pointer, Some (slice data pointer (pointer + size))))
      else if 0 <? size then Some (Next (pointer + size, None))
      else Some (Break (pointer, None))
  | None => None
  end.

Definition _find_section (data : list byte) (section_id : Z)
    : option (option (list byte)) :=
  snd <$> while_loop (find_cond data) (find_body data section_id)
            (S (length data)) (6, None).

(** [check_file_structure]: the count of sections *)
Definition count_body (data : list byte) (s : Z * Z) : option (ctl (Z * Z)) :=
  let '(pointer, section_count) := s in
  match read_header data pointer with
  | Some (section_id, section_size) =>
      if (section_size =? 0) || (len data - pointer <? section_size) then
        Some (Break s)
      else Some (Next (pointer + section_size, section_count + 1))
  | None => None
  end.

Definition count_sections (data : list byte) : option Z :=
  snd <$> while_loop (fun s => fst s <? len data - 16) (count_body data)
            (S (length data)) (6, 0).

(** [_verify_tag]: what the call adds to [issues] or [warnings] *)
Inductive verdict : Type :=
| Clean
| Issue
| Warning.

(** [value.decode('ascii', errors='ignore').rstrip('\x00')] *)
Definition rstrip_nul (bs : list byte) : list byte :=
  foldr (fun b rest =>
           if bool_decide (b = x00) && bool_decide (rest = []) then []
           else b :: rest) [] bs.

Definition decode_ascii_ignore (value : list byte) : list byte :=
  rstrip_nul (List.filter (fun b => byte_to_Z b <? 128) value).

Definition is_alpha (b : byte) : bool :=
  let c := byte_to_Z b in
  ((65 <=? c) && (c <=? 90)) || ((97 <=? c) && (c <=? 122)).

Definition all_zero (value : list byte) : bool :=
  forallb (fun b => byte_to_Z b =? 0) value.

Definition date_of (value : list byte) : option (Z * Z * Z) :=
  year ← unpack_be_H (slice value 0 2);
  month ← index value 2;
  day ← index value 3;
  Some (year, byte_to_Z month, byte_to_Z day).

Definition _verify_tag (current_year : Z) (tag : Z) (value : list byte)
    : verdict :=
  let text := decode_ascii_ignore value in
  if tag =? 2 then
    if starts_with text (list_byte_of_string "ANON")
       || bool_decide (text = [])
    then Clean else Issue
  else if existsb (Z.eqb tag) [0; 1; 6; 7; 8; 9] then
    if negb (find_in text (list_byte_of_string "REMOVED") 0 =? -1)
       || bool_decide (text = [])
    then Clean
    else if (2 <? len text) && forallb is_alpha text then Issue else Warning
  else if existsb (Z.eqb tag) [5; 10] then
    if 4 <=? len value then
      match date_of value with
      | Some (year, month, day) =>
          if (year =? 1900) && (month =? 1) && (day =? 1) then Clean
          else if (1900 <=? year) && (year <=? current_year) then Issue
          else Clean
      | None => Clean
      end
    else Clean
  else if tag =? 25 then
    if 4 <=? len value then
      match date_of value with
      | Some (year, month, day) =>
          if (year =? 2000) && (month =? 1) && (day =? 1) then Clean
          else Warning
      | None => Clean
      end
    else Clean
  else if tag =? 26 then
    if 3 <=? len value then
      match value with
      | hour :: minute :: second :: _ =>
          if all_zero [hour; minute; second] then Clean else Warning
      | _ => Clean
      end
    else Clean
  else if existsb (Z.eqb tag) [21; 22] then
    if all_zero value then Clean
    else if 0 <? len text then Issue else Clean
  else if existsb (Z.eqb tag) [30; 31] then
    if all_zero value then Clean
    else if 0 <? len text then Warning else Clean
  else Clean.

(** [check_section_1_tags]: whether Section 1 was found, and the verdict
    on each of its tags. [None]: the walk raises (it reads without a
    [try]) or has no fuel left. *)
Record tag_walk : Type := mkTagWalk {
  tag_pointer : Z;
  verdicts : list (Z * verdict)
}.

Definition check_tags_body (current_year : Z) (data : list byte)
    (s : tag_walk) : option (ctl tag_walk) :=
  let tag_pointer := tag_pointer s in
  tag ← index data tag_pointer;
  let tag := byte_to_Z tag in
  if tag =? 255 then Some (Break s)
  else
    tag_length ← unpack_le_H (slice data (tag_pointer + 1) (tag_pointer + 3));
    let value := slice data (tag_pointer + 3) (tag_pointer + 3 + tag_length) in
    Some (Next (mkTagWalk (tag_pointer + (3 + tag_length))
                  (verdicts s ++ [(tag, _verify_tag current_year tag value)]))).

Definition check_section_body (current_year : Z) (data : list byte)
    (s : Z * option (list (Z * verdict)))
    : option (ctl (Z * option (list (Z * verdict)))) :=
  let pointer := fst s in
  '(section_id, section_size) ← read_header data pointer;
  if (section_id =? 1) && (section_size <? len data) then
    let end_ := pointer + section_size in
    tags ← while_loop (fun t => tag_pointer t <? end_ - 3)
             (check_tags_body current_year data)
             (S (length data)) (mkTagWalk (pointer + 16) []);
    Some (Break (pointer, Some (verdicts tags)))
  else if 0 <? section_size then Some (Next (pointer + section_size, None))
  else Some (Break s).

Definition check_section_1_tags (current_year : Z) (data : list byte)
    : option (option (list (Z * verdict))) :=
  snd <$> while_loop (fun s => fst s <? len data - 16)
            (check_section_body current_year data)
            (S (length data)) (6, None).

End AnonymizationVerifier.

(** ** Definitions used to state the properties *)

(** The state a round of a loop body leaves *)
Definition ctl_state {S : Type} (c : ctl S) : S :=
  match c with Break s | Next s => s end.

(** A replacement brought to the width of the text it replaces:
    truncated when longer, padded with NUL when shorter. *)
Definition same_width (search_bytes replace_bytes : list byte) : list byte :=
  take (length search_bytes)
    (replace_bytes ++ replicate (length search_bytes) x00).

(** Overwriting, from left to right, every occurrence of [search] that
    does not overlap an occurrence already overwritten; [skip] counts the
    bytes of the current occurrence still to pass. *)
Fixpoint replace_all (search padded : list byte) (skip : nat)
    (d : list byte) : list byte :=
  match d with
  | [] => []
  | b :: d' =>
      match skip with
      | S k => replace_all search padded k d'
      | O =>
          if starts_with d search then
            padded ++ replace_all search padded (length search - 1) d'
          else b :: replace_all search padded 0 d'
      end
  end.

Definition replace_text (search_bytes replace_bytes d : list byte)
    : list byte :=
  replace_all search_bytes (same_width search_bytes replace_bytes) 0 d.

(** The file-wide replacements of [anonymize_patient_data]: each fixed
    identifier as ASCII and then as UTF-16LE, then the text [test]. *)
Definition replace_fixed_ids (anonymous_id : string) (d : list byte)
    : list byte :=
  replace_text (list_byte_of_string "test") (list_byte_of_string "ANON")
    (fold_left
       (fun d original_id =>
          replace_text (SCPAnonymizer.encode_utf16le original_id)
            (SCPAnonymizer.encode_utf16le anonymous_id)
            (replace_text (list_byte_of_string original_id)
               (list_byte_of_string anonymous_id) d))
       SCPAnonymizer.original_ids d).

(** The loop of [_anonymize_section_1_tags], and what every round of it
    keeps: the fixed [end] stays within the buffer, the identifier stays. *)
Definition tags_loop (end_ : Z) (fuel : nat) (s : SCPAnonymizer.tag_state)
    : option SCPAnonymizer.tag_state :=
  while_loop (SCPAnonymizer.tags_cond end_)
    (fun s => Some (SCPAnonymizer.tags_body s)) fuel s.

Definition tags_inv (end_ : Z) (aid : string) (s : SCPAnonymizer.tag_state)
    : Prop :=
  end_ <= len (SCPAnonymizer.data (SCPAnonymizer.tag_self s)) /\
  SCPAnonymizer.anonymous_id (SCPAnonymizer.tag_self s) = aid.

(** The rounds of the loop of [_anonymize_section_1_tags]: the states in
    which its body is entered. *)
Definition tags_trace (self : SCPAnonymizer.anonymizer)
    (start_offset length : Z) : list SCPAnonymizer.tag_state :=
  while_trace
    (SCPAnonymizer.tags_cond
       (Z.min (start_offset + length) (len (SCPAnonymizer.data self))))
    (fun s => Some (SCPAnonymizer.tags_body s))
    (S (List.length (SCPAnonymizer.data self)))
    (SCPAnonymizer.mkTags self start_offset).

(** The tag id and the declared length that a round reads at its
    pointer *)
Definition tag_header (s : SCPAnonymizer.tag_state) : option (Z * Z) :=
  let d := SCPAnonymizer.data (SCPAnonymizer.tag_self s) in
  let p := SCPAnonymizer.tag_pointer s in
  tag ← index d p;
  tag_length ← unpack_le_H (slice d (p + 1) (p + 3));
  Some (byte_to_Z tag, tag_length).

(** A round at a redacted tag whose declared value range
    [[pointer+3, pointer+3+length)] lies within the buffer; true for every
    other round *)
Definition redacted_value_in_range (s : SCPAnonymizer.tag_state) : bool :=
  let d := SCPAnonymizer.data (SCPAnonymizer.tag_self s) in
  let p := SCPAnonymizer.tag_pointer s in
  match tag_header s with
  | Some (tag, tag_length) =>
      if tag =? 255 then true
      else match SCPAnonymizer.sensitive_name tag with
           | Some _ => p + 3 + tag_length <=? len d
           | None => true
           end
  | None => true
  end.

Definition is_name_tag (tag : Z) : bool := existsb (Z.eqb tag) [6; 7; 8; 9].

(** The replacement that a round builds for a patient-ID tag or a name
    tag of the given declared length *)
Definition replacement_of (anonymous_id : string) (tag tag_length : Z)
    : option (list byte) :=
  if tag =? 2 then
    (fun anon_ascii => SCPAnonymizer.anon_bytes anon_ascii tag_length)
    <$> SCPAnonymizer.encode_ascii anonymous_id
  else if is_name_tag tag then Some (SCPAnonymizer.removed_bytes tag_length)
  else None.

(** The marker text [REMOVED] repeated and cut to a length *)
Definition removed_repeated (tag_length : Z) : list byte :=
  slice (bytes_repeat (list_byte_of_string "REMOVED") (tag_length + 1))
    0 tag_length.

(** Little-endian fields spelled out on their bytes *)
Definition le16 (b0 b1 : byte) : Z := byte_to_Z b0 + 256 * byte_to_Z b1.

Definition le32 (b0 b1 b2 b3 : byte) : Z :=
  byte_to_Z b0 + 256 * byte_to_Z b1
  + 65536 * byte_to_Z b2 + 16777216 * byte_to_Z b3.

(** Two's complement readings of one and of two bytes *)
Definition signed8 (b : byte) : Z :=
  if byte_to_Z b <? 128 then byte_to_Z b else byte_to_Z b - 256.

Definition signed16 (b0 b1 : byte) : Z :=
  if le16 b0 b1 <? 32768 then le16 b0 b1 else le16 b0 b1 - 65536.

(** First-order predictive decoding: each delta is added to the running
    value, which starts at the reference sample. *)
Fixpoint cumulative (running : Z) (deltas : list Z) : list Z :=
  match deltas with
  | [] => []
  | delta :: deltas' => (running + delta) :: cumulative (running + delta) deltas'
  end.

Definition delta_decode (reference : Z) (deltas : list Z) : list Z :=
  reference :: cumulative reference deltas.

(** Consecutive little-endian signed 16-bit samples; a last odd byte is
    left out. *)
Fixpoint samples16 (bs : list byte) : list Z :=
  match bs with
  | b0 :: b1 :: rest => signed16 b0 b1 :: samples16 rest
  | _ => []
  end.

(** The waveforms the reader can hold once a file is read: the
    placeholder of [_generate_sample_data], of which only the shape is
    kept, or a rectangular matrix of decoded samples. *)
Definition well_formed_ecg (e : SCPReader.ecg) : Prop :=
  match e with
  | SCPReader.SampleData num_leads samples =>
      num_leads = 12 /\ 150 <= samples <= 10000000
  | SCPReader.Matrix rows =>
      exists width : nat,
        (1 <= length rows <= 12)%nat /\ (1 <= width)%nat /\
        Forall (fun row => length row = width) rows
  end.

(** The invariant of the reader's walk over the sections of [file] *)
Definition reader_inv (file : list byte) (r : SCPReader.reader) : Prop :=
  SCPReader.data r = file /\
  (SCPReader.sampling_rate r = 500 \/
   15 <= SCPReader.sampling_rate r <= 1000000) /\
  (SCPReader.ecg_data r = None \/
   exists e, SCPReader.ecg_data r = Some e /\ well_formed_ecg e).

(** The bytes [_parse_patient_data] reads from the value of a tag: the
    four of a date (tags 10 and 25), the three of a device (tag 14) or of
    a time (tag 26); the text of the other tags is taken as it is. *)
Definition bytes_read (tag : Z) : Z :=
  if (tag =? 10) || (tag =? 25) then 4
  else if (tag =? 14) || (tag =? 26) then 3
  else 0.

(** ** Sample files *)

Definition bytes_of (l : list Z) : list byte := map byte_of_Z l.

(** The scenario of the specification: a Section 1 with patient ID
    [123456789], last name [Smith], first name [John] and date of birth
    1970-05-20; the section starts at offset 6 and is 44 bytes long. *)
Definition scenario_file : list byte :=
  bytes_of [0; 0; 51; 0; 0; 0]
  ++ bytes_of [1; 0; 44; 0; 0; 0; 1; 1]
  ++ bytes_of [2; 9; 0] ++ list_byte_of_string "123456789"
  ++ bytes_of [8; 5; 0] ++ list_byte_of_string "Smith"
  ++ bytes_of [9; 4; 0] ++ list_byte_of_string "John"
  ++ bytes_of [10; 4; 0; 7; 178; 5; 20]
  ++ bytes_of [255; 0; 0].

(** A file shorter than its own header *)
Definition short_file : list byte := bytes_of [0; 0; 0; 0; 0].

(** A Section 1 whose last-name tag declares 40 bytes, three of which
    are in the file *)
Definition truncated_name_file : list byte :=
  bytes_of [0; 0; 20; 0; 0; 0]
  ++ bytes_of [1; 0; 16; 0; 0; 0; 1; 1]
  ++ bytes_of [8; 40; 0] ++ list_byte_of_string "Smi".

(** A Section 1 whose date-of-birth tag declares 40 bytes, five of which
    are in the file *)
Definition truncated_dob_file : list byte :=
  bytes_of [0; 0; 22; 0; 0; 0]
  ++ bytes_of [1; 0; 16; 0; 0; 0; 1; 1]
  ++ bytes_of [10; 40; 0; 7; 178; 5; 20; 0].

(** A Section 1 with a last name of nine bytes *)
Definition long_name_file : list byte :=
  bytes_of [0; 0; 29; 0; 0; 0]
  ++ bytes_of [1; 0; 23; 0; 0; 0; 1; 1]
  ++ bytes_of [8; 9; 0] ++ list_byte_of_string "Smithsons"
  ++ bytes_of [255; 0; 0].


(** A file with a Section 1, a Section 3 for one lead and a Section 6
    that holds one lead of two raw samples, 0x6574 and 0x7473 (the bytes
    of the text [test]), at 500 Hz; Section 6 is the 26 bytes from offset
    44 on. *)
Definition signal_file : list byte :=
  bytes_of [0; 0; 70; 0; 0; 0]
  ++ bytes_of [1; 0; 26; 0; 0; 0; 1; 1]
  ++ bytes_of [2; 4; 0] ++ list_byte_of_string "P001"
  ++ bytes_of [8; 5; 0] ++ list_byte_of_string "Smith"
  ++ bytes_of [255; 0; 0]
  ++ bytes_of [3; 0; 12; 0; 0; 0; 1; 1] ++ bytes_of [1; 0; 0; 1]
  ++ bytes_of [6; 0; 26; 0; 0; 0; 1; 1]
  ++ bytes_of [1; 0; 208; 7; 0; 0; 1; 0; 2; 0]
  ++ bytes_of [2; 0; 0; 0] ++ list_byte_of_string "test".

(** A file of 17 bytes whose first section header has id 2 and
    declared size 0 *)
Definition stuck_file : list byte :=
  bytes_of [0; 0; 17; 0; 0; 0]
  ++ bytes_of [2; 0; 0; 0; 0; 0; 1; 1]
  ++ bytes_of [0; 0; 0].

(** The payload of a Section 6 in delta mode: one lead of three samples,
    the reference 100 and the deltas 5 and -10 *)
Definition delta_payload : list byte :=
  bytes_of [1; 0; 208; 7; 0; 1; 1; 0; 2; 0]
  ++ bytes_of [3; 0; 0; 0] ++ bytes_of [100; 0] ++ bytes_of [5; 246].

Definition delta_file : list byte :=
  bytes_of [0; 0; 32; 0; 0; 0]
  ++ bytes_of [6; 0; 26; 0; 0; 0; 1; 1] ++ delta_payload.

(** A Section 1 with the acquisition date 2023-05-17 (tag 25) and the
    acquisition time 14:30:15 (tag 26) *)
Definition datetime_file : list byte :=
  bytes_of [0; 0; 30; 0; 0; 0]
  ++ bytes_of [1; 0; 24; 0; 0; 0; 1; 1]
  ++ bytes_of [25; 4; 0; 7; 231; 5; 17]
  ++ bytes_of [26; 3; 0; 14; 30; 15]
  ++ bytes_of [255; 0; 0].

(** A Section 1 with a physician (tag 21) and a technician (tag 22) *)
Definition physician_file : list byte :=
  bytes_of [0; 0; 33; 0; 0; 0]
  ++ bytes_of [1; 0; 27; 0; 0; 0; 1; 1]
  ++ bytes_of [21; 5; 0] ++ list_byte_of_string "House"
  ++ bytes_of [22; 5; 0] ++ list_byte_of_string "Chase"
  ++ bytes_of [255; 0; 0].

(** The data of a Section 1 with a patient ID, a date of birth of two
    bytes and an acquisition date *)
Definition short_dob_section : list byte :=
  bytes_of [2; 1; 0; 65]
  ++ bytes_of [10; 2; 0; 7; 178]
  ++ bytes_of [25; 4; 0; 7; 231; 5; 17].

(** * Properties *)

(** ** Bytes and [struct] *)

Lemma byte_to_Z_range (b : byte) : 0 <= byte_to_Z b < 256.
Proof.
  unfold byte_to_Z. pose proof (Byte.to_N_bounded b). lia.
Qed.

Lemma byte_to_of_Z (z : Z) : byte_to_Z (byte_of_Z z) = z mod 256.
Proof.
  unfold byte_to_Z, byte_of_Z.
  pose proof (Z.mod_pos_bound z 256 eq_refl) as Hm.
  destruct (Byte.of_N (Z.to_N (z mod 256))) as [b|] eqn:E.
  - apply Byte.to_of_N in E. rewrite E. lia.
  - apply Byte.of_N_None_iff in E. lia.
Qed.

Lemma unpack_le_H_range bs v : unpack_le_H bs = Some v -> 0 <= v < 65536.
Proof.
  destruct bs as [|b0 [|b1 [|? ?]]]; simpl; try discriminate.
  intros [= <-].
  pose proof (byte_to_Z_range b0). pose proof (byte_to_Z_range b1). lia.
Qed.

Lemma unpack_le_I_range bs v : unpack_le_I bs = Some v -> 0 <= v < 4294967296.
Proof.
  destruct bs as [|b0 [|b1 [|b2 [|b3 [|? ?]]]]]; simpl; try discriminate.
  intros [= <-].
  pose proof (byte_to_Z_range b0). pose proof (byte_to_Z_range b1).
  pose proof (byte_to_Z_range b2). pose proof (byte_to_Z_range b3). lia.
Qed.

Lemma pack_le_I_length n bs : pack_le_I n = Some bs -> length bs = 4%nat.
Proof.
  unfold pack_le_I. case_match; [|discriminate]. by intros [= <-].
Qed.

Lemma pack_le_H_length n bs : pack_le_H n = Some bs -> length bs = 2%nat.
Proof.
  unfold pack_le_H. case_match; [|discriminate]. by intros [= <-].
Qed.

Lemma unpack_pack_le_I n bs : pack_le_I n = Some bs -> unpack_le_I bs = Some n.
Proof.
  unfold pack_le_I. case_match eqn:E; [|discriminate]. intros [= <-].
  apply andb_true_iff in E as [?%Z.leb_le ?%Z.ltb_lt].
  simpl. rewrite !byte_to_of_Z. f_equal.
  Z.div_mod_to_equations. lia.
Qed.

Lemma unpack_pack_le_H n bs : pack_le_H n = Some bs -> unpack_le_H bs = Some n.
Proof.
  unfold pack_le_H. case_match eqn:E; [|discriminate]. intros [= <-].
  apply andb_true_iff in E as [?%Z.leb_le ?%Z.ltb_lt].
  simpl. rewrite !byte_to_of_Z. f_equal.
  Z.div_mod_to_equations. lia.
Qed.

(** ** Slices *)

Lemma len_nonneg d : 0 <= len d.
Proof. unfold len. lia. Qed.

Lemma len_app d1 d2 : len (d1 ++ d2) = len d1 + len d2.
Proof. unfold len. rewrite length_app. lia. Qed.

Lemma len_slice d a b :
  0 <= a -> a <= b -> b <= len d -> len (slice d a b) = b - a.
Proof.
  unfold len, slice. intros. rewrite length_take, length_drop. lia.
Qed.

Lemma len_slice_assign d a b v :
  0 <= a -> a <= b -> b <= len d ->
  len (slice_assign d a b v) = len d - (b - a) + len v.
Proof.
  unfold len, slice_assign. intros.
  rewrite !length_app, length_take, length_drop. lia.
Qed.

Lemma len_slice_assign_ge d a b v :
  0 <= a -> b - a <= len v -> len d <= len (slice_assign d a b v).
Proof.
  unfold len, slice_assign. intros.
  rewrite !length_app, length_take, length_drop. lia.
Qed.

Lemma slice_slice_assign_same d a b v :
  0 <= a -> a <= b -> b <= len d -> len v = b - a ->
  slice (slice_assign d a b v) a b = v.
Proof.
  unfold len, slice, slice_assign. intros.
  rewrite drop_app_length'; [|rewrite length_take; lia].
  rewrite take_app_length'; [done|lia].
Qed.

Lemma slice_from_slice_assign_before d a b v c :
  0 <= a -> a <= b -> b <= c -> b <= len d -> len v = b - a ->
  slice_from (slice_assign d a b v) c = slice_from d c.
Proof.
  unfold len, slice_from, slice_assign. intros.
  rewrite app_assoc, drop_app_ge; rewrite ?length_app, ?length_take; [|lia].
  rewrite drop_drop. f_equal. lia.
Qed.

Lemma slice_of_slice_from d a b : 0 <= a -> slice d a b = take (Z.to_nat b - Z.to_nat a) (slice_from d a).
Proof. done. Qed.

Lemma len_index_assign d i v d' : index_assign d i v = Some d' -> len d' = len d.
Proof.
  unfold index_assign, len. case_match; [|discriminate].
  intros [= <-]. by rewrite length_insert.
Qed.

(** ** Loops: invariants, termination, traces *)

Section WhileFacts.
Context {S : Type}.
Variable cond : S -> bool.
Variable body : S -> option (ctl S).

(** An invariant kept by the body holds when the loop is left. *)
Lemma while_loop_inv (P : S -> Prop) fuel s s' :
  (forall s c, P s -> cond s = true -> body s = Some c -> P (ctl_state c)) ->
  P s -> while_loop cond body fuel s = Some s' -> P s'.
Proof.
  intros Hstep. revert s. induction fuel as [|fuel IH]; intros s Hs; simpl.
  - discriminate.
  - destruct (cond s) eqn:Hc; [|by intros [= <-]].
    destruct (body s) as [[s1|s1]|] eqn:Hb; [| |discriminate].
    + intros [= <-]. apply (Hstep _ _ Hs Hc Hb).
    + apply IH. apply (Hstep _ _ Hs Hc Hb).
Qed.

(** The same, for a body that keeps the invariant only in the states
    of the trace that satisfy [Q]. *)
Lemma while_loop_inv_trace (P Q : S -> Prop) fuel s s' :
  (forall s c, P s -> Q s -> cond s = true -> body s = Some c ->
               P (ctl_state c)) ->
  Forall Q (while_trace cond body fuel s) ->
  P s -> while_loop cond body fuel s = Some s' -> P s'.
Proof.
  intros Hstep. revert s. induction fuel as [|fuel IH]; intros s HQ Hs; simpl.
  - discriminate.
  - simpl in HQ. destruct (cond s) eqn:Hc; [|by intros [= <-]].
    apply Forall_cons in HQ as [HQs HQ].
    destruct (body s) as [[s1|s1]|] eqn:Hb; [| |discriminate].
    + intros [= <-]. apply (Hstep _ _ Hs HQs Hc Hb).
    + apply IH; [done|]. apply (Hstep _ _ Hs HQs Hc Hb).
Qed.

(** A loop whose body lowers a measure on each round, and never fails
    under the invariant, returns once the fuel exceeds the measure. *)
Lemma while_loop_terminates (P : S -> Prop) (measure : S -> nat) fuel s :
  (forall s c, P s -> cond s = true -> body s = Some c -> P (ctl_state c)) ->
  (forall s, P s -> cond s = true -> is_Some (body s)) ->
  (forall s s', P s -> cond s = true -> body s = Some (Next s') ->
                (measure s' < measure s)%nat) ->
  P s -> (measure s < fuel)%nat -> is_Some (while_loop cond body fuel s).
Proof.
  intros Hinv Hsome Hdec. revert s.
  induction fuel as [|fuel IH]; intros s Hs Hm; [lia|]. simpl.
  destruct (cond s) eqn:Hc; [|done].
  destruct (Hsome _ Hs Hc) as [[s1|s1] Hb]; rewrite Hb; [done|].
  apply IH.
  - apply (Hinv _ _ Hs Hc Hb).
  - specialize (Hdec _ _ Hs Hc Hb). lia.
Qed.

(** More fuel does not change a result. *)
Lemma while_loop_fuel_mono fuel fuel' s s' :
  (fuel <= fuel')%nat ->
  while_loop cond body fuel s = Some s' ->
  while_loop cond body fuel' s = Some s'.
Proof.
  revert fuel' s. induction fuel as [|fuel IH]; intros fuel' s Hle; simpl.
  - discriminate.
  - destruct fuel' as [|fuel']; [lia|]. simpl.
    destruct (cond s); [|done].
    destruct (body s) as [[s1|s1]|]; [done| |done].
    apply IH. lia.
Qed.

(** The loop resumed in a state of its trace ends as the whole loop. *)
Lemma while_trace_resume fuel s t s' :
  t ∈ while_trace cond body fuel s ->
  while_loop cond body fuel s = Some s' ->
  while_loop cond body fuel t = Some s'.
Proof.
  revert s. induction fuel as [|fuel IH]; intros s Hin Hrun; simpl in Hin.
  - by apply elem_of_nil in Hin.
  - destruct (cond s) eqn:Hc; [|by apply elem_of_nil in Hin].
    apply elem_of_cons in Hin as [->|Hin]; [done|].
    simpl in Hrun. rewrite Hc in Hrun.
    destruct (body s) as [[s1|s1]|]; try by apply elem_of_nil in Hin.
    apply (while_loop_fuel_mono fuel); [lia|].
    by apply (IH s1).
Qed.

(** Each state of the trace satisfies the condition and an invariant
    of the body. *)
Lemma while_trace_inv (P : S -> Prop) fuel s t :
  (forall s c, P s -> cond s = true -> body s = Some c -> P (ctl_state c)) ->
  P s -> t ∈ while_trace cond body fuel s -> P t /\ cond t = true.
Proof.
  intros Hstep. revert s. induction fuel as [|fuel IH]; intros s Hs; simpl.
  - by intros ?%elem_of_nil.
  - destruct (cond s) eqn:Hc; [|by intros ?%elem_of_nil].
    intros [->|Hin]%elem_of_cons; [done|].
    destruct (body s) as [[s1|s1]|] eqn:Hb; try by apply elem_of_nil in Hin.
    apply (IH s1); [|done]. apply (Hstep _ _ Hs Hc Hb).
Qed.
End WhileFacts.

(** ** [find] and [find_and_replace_text] *)

Lemma starts_with_length d sub :
  starts_with d sub = true -> (length sub <= length d)%nat.
Proof.
  revert d. induction sub as [|x sub IH]; intros [|y d]; simpl; try lia.
  intros [_ H]%andb_true_iff. apply IH in H. lia.
Qed.

Lemma find_in_cases sub R pos :
  0 <= pos ->
  (find_in R sub pos = -1 /\
   forall j : nat, (j <= length R)%nat -> starts_with (drop j R) sub = false) \/
  exists k : nat,
    (k <= length R)%nat /\ find_in R sub pos = pos + Z.of_nat k /\
    starts_with (drop k R) sub = true /\
    forall j : nat, (j < k)%nat -> starts_with (drop j R) sub = false.
Proof.
  revert pos. induction R as [|b R IH]; intros pos Hpos; cbn [find_in].
  - destruct (starts_with [] sub) eqn:E.
    + right. exists O. rewrite drop_0. split_and!; [simpl; lia|lia|done|lia].
    + left. split; [done|]. intros j _. by rewrite drop_nil.
  - destruct (starts_with (b :: R) sub) eqn:E.
    + right. exists O. rewrite drop_0. split_and!; [simpl; lia|lia|done|lia].
    + destruct (IH (pos + 1)) as [[H Hn]|(k & Hk & Hf & Hs & Hn)]; [lia| |].
      * left. split; [done|]. intros [|j] Hj; [done|].
        apply Hn. simpl in Hj. lia.
      * right. exists (S k). split_and!; [simpl; lia|lia|done|].
        intros [|j] Hj; [done|]. apply Hn. lia.
Qed.

Lemma replace_all_skip search padded (k : nat) d :
  (k <= length d)%nat ->
  replace_all search padded k d = replace_all search padded 0 (drop k d).
Proof.
  revert k. induction d as [|b d IH]; intros [|k]; simpl; try done; try lia.
  intros. apply IH. lia.
Qed.

Lemma replace_all_unmatched search padded (k : nat) R :
  (k <= length R)%nat ->
  (forall j : nat, (j < k)%nat -> starts_with (drop j R) search = false) ->
  replace_all search padded 0 R
  = take k R ++ replace_all search padded 0 (drop k R).
Proof.
  revert R. induction k as [|k IH]; intros R Hk Hn; [done|].
  destruct R as [|b R]; simpl in Hk; [lia|].
  pose proof (Hn O ltac:(lia)) as H0. rewrite drop_0 in H0.
  cbn [replace_all take drop app]. rewrite H0. f_equal.
  apply IH; [lia|]. intros j Hj. apply (Hn (S j)). lia.
Qed.

Lemma replace_all_matched search padded R :
  search <> [] -> starts_with R search = true ->
  replace_all search padded 0 R
  = padded ++ replace_all search padded 0 (drop (length search) R).
Proof.
  intros Hne Hs. pose proof (starts_with_length _ _ Hs) as Hl.
  destruct R as [|b R].
  - destruct search; [done|simpl in Hl; lia].
  - cbn [replace_all]. rewrite Hs. f_equal.
    destruct search as [|x search]; [done|]. simpl in *.
    rewrite Nat.sub_0_r. apply replace_all_skip. lia.
Qed.

Lemma length_replace_all search padded (k : nat) d :
  length padded = length search -> search <> [] -> (k <= length d)%nat ->
  length (replace_all search padded k d) = (length d - k)%nat.
Proof.
  intros Hp Hne. revert k.
  induction d as [|b d IH]; intros k Hk; [done|].
  destruct k as [|k]; cbn [replace_all].
  - destruct (starts_with (b :: d) search) eqn:Hs.
    + apply starts_with_length in Hs. simpl in Hs.
      destruct search as [|x search]; [done|]. simpl in *.
      rewrite length_app, IH; simpl; lia.
    + simpl. rewrite IH; lia.
  - simpl in Hk. rewrite IH; simpl; lia.
Qed.

Lemma bytes_repeat_single b n : bytes_repeat [b] n = replicate (Z.to_nat n) b.
Proof.
  unfold bytes_repeat. induction (Z.to_nat n) as [|k IH]; simpl; [done|].
  by rewrite IH.
Qed.

Lemma length_same_width search replace :
  length (same_width search replace) = length search.
Proof.
  unfold same_width. rewrite length_take, length_app, length_replicate. lia.
Qed.

Lemma far_body_eq search replace s :
  SCPAnonymizer.far_body search replace s
  = let index := find (SCPAnonymizer.far_data s) search
                   (SCPAnonymizer.far_index s) in
    if index =? -1 then
      Some (Break (SCPAnonymizer.mkFar (SCPAnonymizer.far_data s)
                     (SCPAnonymizer.far_count s) index))
    else
      Some (Next (SCPAnonymizer.mkFar
        (slice_assign (SCPAnonymizer.far_data s) index (index + len search)
           (same_width search replace))
        (SCPAnonymizer.far_count s + 1) (index + len search))).
Proof.
  unfold SCPAnonymizer.far_body. cbv zeta. case_match; [done|].
  do 3 f_equal. f_equal.
  unfold slice, same_width, len. rewrite drop_0, length_take.
  change (Z.to_nat 0) with O. rewrite Nat.sub_0_r, Nat2Z.id.
  case_match eqn:E.
  - apply Z.ltb_lt in E.
    rewrite bytes_repeat_single, take_ge by lia.
    rewrite take_app_ge, take_replicate by lia. do 2 f_equal. lia.
  - apply Z.ltb_ge in E. rewrite take_app_le by lia. done.
Qed.

Lemma far_loop_refines search replace (n : nat) :
  search <> [] ->
  forall (R A : list byte) (c : Z) (fuel : nat),
    (length R <= n)%nat -> (n < fuel)%nat ->
    exists c' i',
      while_loop (fun _ => true) (SCPAnonymizer.far_body search replace) fuel
        (SCPAnonymizer.mkFar (A ++ R) c (len A))
      = Some (SCPAnonymizer.mkFar
                (A ++ replace_all search (same_width search replace) 0 R)
                c' i').
Proof.
  intros Hne. induction n as [n IH] using lt_wf_ind.
  intros R A c fuel HR Hfuel.
  destruct fuel as [|fuel]; [lia|]. cbn [while_loop].
  rewrite far_body_eq. cbn [SCPAnonymizer.far_data SCPAnonymizer.far_index
    SCPAnonymizer.far_count]. cbv zeta.
  assert (find (A ++ R) search (len A) = find_in R search (len A)) as ->.
  { unfold find, slice_from. rewrite len_app.
    pose proof (len_nonneg R).
    destruct (Z.ltb_spec (len A + len R) (len A)); [lia|].
    unfold len. by rewrite Nat2Z.id, drop_app_length. }
  pose proof (len_nonneg A) as HA.
  destruct (find_in_cases search R (len A) HA)
    as [[Hf Hn]|(k & Hk & Hf & Hs & Hn)].
  - rewrite Hf. simpl. eexists _, _. do 3 f_equal.
    rewrite (replace_all_unmatched _ _ (length R)); [|lia|].
    + by rewrite take_ge, drop_ge, app_nil_r by lia.
    + intros j Hj. apply Hn. lia.
  - rewrite Hf. destruct (Z.eqb_spec (len A + Z.of_nat k) (-1)); [lia|].
    pose proof (starts_with_length _ _ Hs) as Hl.
    rewrite length_drop in Hl.
    assert (0 < length search)%nat by (destruct search; [done|simpl; lia]).
    set (padded := same_width search replace).
    assert (slice_assign (A ++ R) (len A + Z.of_nat k)
              (len A + Z.of_nat k + len search) padded
            = (A ++ take k R ++ padded) ++ drop (length search) (drop k R))
      as ->.
    { unfold slice_assign, len.
      rewrite Z.max_r by lia.
      replace (Z.to_nat (Z.of_nat (length A) + Z.of_nat k))
        with (length A + k)%nat by lia.
      replace (Z.to_nat (Z.of_nat (length A) + Z.of_nat k
                         + Z.of_nat (length search)))
        with (length A + (k + length search))%nat by lia.
      rewrite take_app_add', drop_app_add' by done.
      rewrite drop_drop, <- !app_assoc. repeat f_equal. all: lia. }
    assert (len A + Z.of_nat k + len search = len (A ++ take k R ++ padded))
      as ->.
    { rewrite !len_app. unfold len, padded.
      rewrite length_take, length_same_width. lia. }
    destruct (IH (length (drop (length search) (drop k R)))) with
      (R := drop (length search) (drop k R)) (A := A ++ take k R ++ padded)
      (c := c + 1) (fuel := fuel) as (c' & i' & Hrun).
    + rewrite !length_drop. lia.
    + lia.
    + rewrite !length_drop. lia.
    + rewrite Hrun. eexists _, _. do 2 f_equal.
      rewrite (replace_all_unmatched _ _ k R Hk Hn).
      rewrite (replace_all_matched _ _ (drop k R) Hne Hs).
      by rewrite <- !app_assoc.
Qed.

Lemma find_and_replace_text_refines self search replace :
  search <> [] ->
  exists count,
    SCPAnonymizer.find_and_replace_text self search replace
    = Some (SCPAnonymizer.set_data self
              (replace_all search (same_width search replace) 0
                 (SCPAnonymizer.data self)), count).
Proof.
  intros Hne. unfold SCPAnonymizer.find_and_replace_text.
  destruct (far_loop_refines search replace (length (SCPAnonymizer.data self))
              Hne (SCPAnonymizer.data self) [] 0
              (S (length (SCPAnonymizer.data self))))
    as (c' & i' & Hrun); [lia|lia|].
  rewrite !app_nil_l in Hrun. change (len []) with 0 in Hrun.
  rewrite Hrun. simpl. by eexists.
Qed.

Lemma encode_ascii_Some s bs :
  SCPAnonymizer.encode_ascii s = Some bs -> bs = list_byte_of_string s.
Proof.
  unfold SCPAnonymizer.encode_ascii. cbv zeta. case_match; [|done].
  by intros [= <-].
Qed.

Lemma find_and_replace_text_data self search replace :
  search <> [] ->
  exists self' count,
    SCPAnonymizer.find_and_replace_text self search replace
    = Some (self', count) /\
    SCPAnonymizer.data self'
    = replace_text search replace (SCPAnonymizer.data self) /\
    SCPAnonymizer.anonymous_id self' = SCPAnonymizer.anonymous_id self.
Proof.
  intros Hne.
  destruct (find_and_replace_text_refines self search replace Hne) as [c ->].
  by eexists _, _.
Qed.

Lemma replace_id_data self original_id a :
  SCPAnonymizer.encode_ascii (SCPAnonymizer.anonymous_id self) = Some a ->
  is_Some (SCPAnonymizer.encode_ascii original_id) ->
  original_id <> EmptyString ->
  exists self',
    SCPAnonymizer.replace_id (Some self) original_id = Some self' /\
    SCPAnonymizer.data self'
    = replace_text (SCPAnonymizer.encode_utf16le original_id)
        (SCPAnonymizer.encode_utf16le (SCPAnonymizer.anonymous_id self))
        (replace_text (list_byte_of_string original_id)
           (list_byte_of_string (SCPAnonymizer.anonymous_id self))
           (SCPAnonymizer.data self)) /\
    SCPAnonymizer.anonymous_id self' = SCPAnonymizer.anonymous_id self.
Proof.
  intros Ha [ia Hia] Hne.
  pose proof (encode_ascii_Some _ _ Ha) as ->.
  pose proof (encode_ascii_Some _ _ Hia) as ->.
  assert (list_byte_of_string original_id <> []) as Hne1.
  { destruct original_id; [done|]. unfold list_byte_of_string. simpl. done. }
  assert (SCPAnonymizer.encode_utf16le original_id <> []) as Hne2.
  { unfold SCPAnonymizer.encode_utf16le.
    destruct (list_byte_of_string original_id); [done|]. simpl. done. }
  unfold SCPAnonymizer.replace_id. simpl. rewrite Hia, Ha. simpl.
  destruct (find_and_replace_text_data self _
              (list_byte_of_string (SCPAnonymizer.anonymous_id self)) Hne1)
    as (s1 & c1 & -> & Hd1 & Hi1).
  simpl.
  set (s1' := if 0 <? c1 then _ else s1).
  assert (SCPAnonymizer.data s1' = SCPAnonymizer.data s1 /\
          SCPAnonymizer.anonymous_id s1' = SCPAnonymizer.anonymous_id s1)
    as [Hd1' Hi1'] by (unfold s1'; by case_match).
  destruct (find_and_replace_text_data s1' _
              (SCPAnonymizer.encode_utf16le (SCPAnonymizer.anonymous_id s1'))
              Hne2)
    as (s2 & c2 & -> & Hd2 & Hi2).
  simpl. eexists. split; [done|].
  rewrite Hi1', Hi1, Hd1', Hd1 in *.
  split; case_match; simpl; congruence.
Qed.

Lemma fold_replace_id_data ids self a :
  SCPAnonymizer.encode_ascii (SCPAnonymizer.anonymous_id self) = Some a ->
  Forall (fun original_id =>
            is_Some (SCPAnonymizer.encode_ascii original_id) /\
            original_id <> EmptyString) ids ->
  exists self',
    fold_left SCPAnonymizer.replace_id ids (Some self) = Some self' /\
    SCPAnonymizer.data self'
    = fold_left
        (fun d original_id =>
           replace_text (SCPAnonymizer.encode_utf16le original_id)
             (SCPAnonymizer.encode_utf16le (SCPAnonymizer.anonymous_id self))
             (replace_text (list_byte_of_string original_id)
                (list_byte_of_string (SCPAnonymizer.anonymous_id self)) d))
        ids (SCPAnonymizer.data self) /\
    SCPAnonymizer.anonymous_id self' = SCPAnonymizer.anonymous_id self.
Proof.
  intros Ha Hids. revert self Ha.
  induction Hids as [|original_id ids [Hasc Hne] _ IH]; intros self Ha.
  - by exists self.
  - cbn [fold_left].
    destruct (replace_id_data self original_id a Ha Hasc Hne)
      as (s1 & -> & Hd & Hi).
    destruct (IH s1) as (s2 & Hrun & Hd2 & Hi2); [by rewrite Hi|].
    exists s2. rewrite Hrun, Hd2, Hi2, Hi, Hd. done.
Qed.

Lemma original_ids_ascii :
  Forall (fun original_id =>
            is_Some (SCPAnonymizer.encode_ascii original_id) /\
            original_id <> EmptyString) SCPAnonymizer.original_ids.
Proof.
  repeat (constructor; [split; [by eexists|done]|]). constructor.
Qed.

(** The file-wide phase of [anonymize_patient_data]. *)
Lemma anonymize_patient_data_file_wide self a :
  SCPAnonymizer.encode_ascii (SCPAnonymizer.anonymous_id self) = Some a ->
  exists self1,
    SCPAnonymizer.anonymize_patient_data self
    = SCPAnonymizer._anonymize_section_1 self1 /\
    SCPAnonymizer.data self1
    = replace_fixed_ids (SCPAnonymizer.anonymous_id self)
        (SCPAnonymizer.data self) /\
    SCPAnonymizer.anonymous_id self1 = SCPAnonymizer.anonymous_id self.
Proof.
  intros Ha. unfold SCPAnonymizer.anonymize_patient_data.
  destruct (fold_replace_id_data _ self a Ha original_ids_ascii)
    as (s1 & -> & Hd & Hi).
  simpl.
  destruct (find_and_replace_text_data s1 (list_byte_of_string "test")
              (list_byte_of_string "ANON")) as (s2 & c & -> & Hd2 & Hi2);
    [done|].
  simpl. eexists. split; [done|].
  unfold replace_fixed_ids. rewrite <- Hd, <- Hd2, <- Hi, <- Hi2.
  split; by case_match.
Qed.

Lemma anonymize_patient_data_raises self :
  SCPAnonymizer.encode_ascii (SCPAnonymizer.anonymous_id self) = None ->
  SCPAnonymizer.anonymize_patient_data self = None.
Proof.
  intros Ha. unfold SCPAnonymizer.anonymize_patient_data.
  unfold SCPAnonymizer.original_ids. cbn [fold_left].
  assert (forall original_id,
            SCPAnonymizer.replace_id (Some self) original_id = None) as ->.
  { intros original_id. unfold SCPAnonymizer.replace_id. simpl.
    rewrite Ha. by destruct (SCPAnonymizer.encode_ascii original_id). }
  done.
Qed.

(** ** The tag walk of the anonymizer *)

Lemma len_bytes_repeat unit n :
  0 <= n -> len (bytes_repeat unit n) = n * len unit.
Proof.
  intros Hn. unfold bytes_repeat, len.
  rewrite <- (Z2Nat.id n) at 2 by done.
  induction (Z.to_nat n) as [|k IH]; simpl; [lia|].
  rewrite length_app. lia.
Qed.

Lemma len_anon_bytes a tag_length :
  0 <= tag_length -> len (SCPAnonymizer.anon_bytes a tag_length) = tag_length.
Proof.
  intros. unfold SCPAnonymizer.anon_bytes. cbv zeta.
  rewrite len_app, bytes_repeat_single.
  unfold len, slice. rewrite length_replicate, length_take, length_drop. lia.
Qed.

Lemma len_removed_bytes tag_length :
  0 <= tag_length -> len (SCPAnonymizer.removed_bytes tag_length) = tag_length.
Proof.
  intros. unfold SCPAnonymizer.removed_bytes.
  assert (0 <= tag_length / 8 + 1) by (Z.div_mod_to_equations; lia).
  pose proof (len_bytes_repeat SCPAnonymizer.removed_unit _ H0) as Hl.
  change (len SCPAnonymizer.removed_unit) with 8 in Hl.
  unfold len, slice in *. rewrite length_take, length_drop.
  Z.div_mod_to_equations. lia.
Qed.

Lemma index_Some d i b : index d i = Some b -> 0 <= i < len d.
Proof.
  unfold index. case_match eqn:E; [|done]. intros _.
  apply andb_true_iff in E as [?%Z.leb_le ?%Z.ltb_lt]. lia.
Qed.

Lemma take_slice_assign d a b v (n : nat) :
  0 <= a -> a <= len d -> (n <= Z.to_nat a)%nat ->
  take n (slice_assign d a b v) = take n d.
Proof.
  unfold slice_assign, len. intros.
  rewrite take_app_le by (rewrite length_take; lia).
  rewrite take_take. f_equal. lia.
Qed.

Lemma take_index_assign d i v d' (n : nat) :
  index_assign d i v = Some d' -> (n <= Z.to_nat i)%nat ->
  take n d' = take n d.
Proof.
  unfold index_assign. case_match; [|done]. intros [= <-] ?.
  by rewrite take_insert_ge.
Qed.

Lemma tags_body_facts s :
  let d := SCPAnonymizer.data (SCPAnonymizer.tag_self s) in
  let p := SCPAnonymizer.tag_pointer s in
  let c := SCPAnonymizer.tags_body s in
  let s' := ctl_state c in
  let d' := SCPAnonymizer.data (SCPAnonymizer.tag_self s') in
  SCPAnonymizer.anonymous_id (SCPAnonymizer.tag_self s')
  = SCPAnonymizer.anonymous_id (SCPAnonymizer.tag_self s) /\
  len d <= len d' /\
  (forall s1, c = Next s1 -> p < SCPAnonymizer.tag_pointer s1) /\
  (forall s1, c = Break s1 -> s1 = s) /\
  (p + 3 <= len d -> forall n : nat,
     (n <= Z.to_nat (p + 3))%nat -> take n d' = take n d).
Proof.
  destruct s as [[d aid ch] p]. cbv zeta. unfold SCPAnonymizer.tags_body.
  cbn [SCPAnonymizer.tag_self SCPAnonymizer.tag_pointer SCPAnonymizer.data
       SCPAnonymizer.anonymous_id].
  unfold SCPAnonymizer.tag_except.
  destruct (index d p) as [tag|] eqn:Hi;
    [|simpl; split_and!; [done|lia|intros ? [= <-]; simpl; lia|done|done]].
  pose proof (index_Some _ _ _ Hi) as Hp.
  cbv zeta.
  destruct (byte_to_Z tag =? 255);
    [simpl; split_and!; [done|lia|done|by intros ? [= <-]|done]|].
  destruct (unpack_le_H _) as [tl|] eqn:Hu;
    [|simpl; split_and!; [done|lia|intros ? [= <-]; simpl; lia|done|done]].
  pose proof (unpack_le_H_range _ _ Hu) as Htl.
  destruct (SCPAnonymizer.sensitive_name _) as [name|];
    [|simpl; split_and!; [done|lia|intros ? [= <-]; simpl; lia|done|done]].
  assert (forall v, len v = tl ->
            len d <= len (slice_assign d (p + 3)
                            (Z.min (p + 3 + tl) (len d)) v)) as Hgrow.
  { intros v Hv. apply len_slice_assign_ge; lia. }
  assert (forall v (n : nat), p + 3 <= len d -> (n <= Z.to_nat (p + 3))%nat ->
            take n (slice_assign d (p + 3)
                      (Z.min (p + 3 + tl) (len d)) v) = take n d) as Hfr.
  { intros v n ? ?. apply take_slice_assign; lia. }
  destruct (byte_to_Z tag =? 2).
  { destruct (SCPAnonymizer.encode_ascii _) as [a|];
      [|simpl; split_and!; [done|lia|intros ? [= <-]; simpl; lia|done|done]].
    simpl. split_and!; [done| |intros ? [= <-]; simpl; lia|done|].
    - apply Hgrow, len_anon_bytes. lia.
    - intros. by apply Hfr. }
  destruct (existsb _ _).
  { simpl. split_and!; [done| |intros ? [= <-]; simpl; lia|done|].
    - apply Hgrow, len_removed_bytes. lia.
    - intros. by apply Hfr. }
  destruct (byte_to_Z tag =? 10);
    [|simpl; split_and!; [done|lia|intros ? [= <-]; simpl; lia|done|done]].
  destruct (4 <=? tl);
    [|simpl; split_and!; [done|lia|intros ? [= <-]; simpl; lia|done|done]].
  set (d1 := slice_assign d (p + 3) (p + 3 + 2) (pack_be_H 1900)).
  assert (len d <= len d1) as H1.
  { apply len_slice_assign_ge; [lia|]. simpl. unfold len. simpl. lia. }
  assert (forall n : nat, p + 3 <= len d -> (n <= Z.to_nat (p + 3))%nat ->
            take n d1 = take n d) as Hfr1.
  { intros n ? ?. apply take_slice_assign; lia. }
  destruct (index_assign d1 _ _) as [d2|] eqn:H2;
    [|simpl; split_and!;
      [done|lia|intros ? [= <-]; simpl; lia|done|intros; by apply Hfr1]].
  pose proof (len_index_assign _ _ _ _ H2) as Hl2.
  assert (forall n : nat, (n <= Z.to_nat (p + 3))%nat -> take n d2 = take n d1)
    as Hfr2.
  { intros n ?. apply (take_index_assign _ _ _ _ _ H2). lia. }
  destruct (index_assign d2 _ _) as [d3|] eqn:H3.
  - pose proof (len_index_assign _ _ _ _ H3) as Hl3.
    simpl. split_and!; [done|lia|intros ? [= <-]; simpl; lia|done|].
    intros ? n ?. rewrite (take_index_assign _ _ _ _ _ H3) by lia.
    rewrite Hfr2 by done. by apply Hfr1.
  - simpl. split_and!; [done|lia|intros ? [= <-]; simpl; lia|done|].
    intros ? n ?. rewrite Hfr2 by done. by apply Hfr1.
Qed.

Lemma tags_inv_step end_ aid s c :
  tags_inv end_ aid s -> SCPAnonymizer.tags_cond end_ s = true ->
  Some (SCPAnonymizer.tags_body s) = Some c -> tags_inv end_ aid (ctl_state c).
Proof.
  intros [Hl Ha] _ [= <-].
  destruct (tags_body_facts s) as (Ha' & Hl' & _). split; [lia|congruence].
Qed.

Lemma tags_loop_terminates end_ aid fuel s :
  tags_inv end_ aid s ->
  (Z.to_nat (end_ - 3 - SCPAnonymizer.tag_pointer s) < fuel)%nat ->
  is_Some (tags_loop end_ fuel s).
Proof.
  intros Hinv Hfuel.
  apply (while_loop_terminates _ _ (tags_inv end_ aid)
           (fun s => Z.to_nat (end_ - 3 - SCPAnonymizer.tag_pointer s)));
    [apply tags_inv_step|done| |done|done].
  intros s0 s1 _ Hc [= Hb].
  destruct (tags_body_facts s0) as (_ & _ & Hp & _).
  specialize (Hp _ Hb). unfold SCPAnonymizer.tags_cond in Hc.
  apply Z.ltb_lt in Hc. lia.
Qed.

Lemma _anonymize_section_1_tags_total self start_offset length :
  0 <= start_offset ->
  is_Some (SCPAnonymizer._anonymize_section_1_tags self start_offset length).
Proof.
  intros Hs. unfold SCPAnonymizer._anonymize_section_1_tags. cbv zeta.
  destruct (tags_loop_terminates
              (Z.min (start_offset + length) (len (SCPAnonymizer.data self)))
              (SCPAnonymizer.anonymous_id self)
              (S (List.length (SCPAnonymizer.data self)))
              (SCPAnonymizer.mkTags self start_offset)) as [s Hrun].
  - split; simpl; [lia|done].
  - simpl. unfold len. lia.
  - unfold tags_loop in Hrun. rewrite Hrun. by eexists.
Qed.

Lemma _anonymize_section_1_tags_grows self start_offset length out :
  SCPAnonymizer._anonymize_section_1_tags self start_offset length = Some out ->
  len (SCPAnonymizer.data self) <= len (SCPAnonymizer.data out) /\
  SCPAnonymizer.anonymous_id out = SCPAnonymizer.anonymous_id self.
Proof.
  unfold SCPAnonymizer._anonymize_section_1_tags. cbv zeta.
  destruct (while_loop _ _ _ _) as [s|] eqn:Hrun; [|done]. intros [= <-].
  revert Hrun.
  apply (while_loop_inv _ _
           (fun s => len (SCPAnonymizer.data self)
                     <= len (SCPAnonymizer.data (SCPAnonymizer.tag_self s)) /\
                     SCPAnonymizer.anonymous_id (SCPAnonymizer.tag_self s)
                     = SCPAnonymizer.anonymous_id self)); [|by simpl].
  intros s0 c [Hl Ha] _ [= <-].
  destruct (tags_body_facts s0) as (Ha' & Hl' & _). split; [lia|congruence].
Qed.

(** ** The section walk of the anonymizer *)

Lemma section_1_body_facts s :
  6 <= SCPAnonymizer.tag_pointer s ->
  exists c,
    SCPAnonymizer.section_1_body s = Some c /\
    len (SCPAnonymizer.data (SCPAnonymizer.tag_self s))
    <= len (SCPAnonymizer.data (SCPAnonymizer.tag_self (ctl_state c))) /\
    SCPAnonymizer.anonymous_id (SCPAnonymizer.tag_self (ctl_state c))
    = SCPAnonymizer.anonymous_id (SCPAnonymizer.tag_self s) /\
    SCPAnonymizer.tag_pointer s <= SCPAnonymizer.tag_pointer (ctl_state c) /\
    (forall s1, c = Next s1 ->
       SCPAnonymizer.tag_self s1 = SCPAnonymizer.tag_self s /\
       SCPAnonymizer.tag_pointer s < SCPAnonymizer.tag_pointer s1).
Proof.
  destruct s as [self p]. simpl. intros Hp.
  unfold SCPAnonymizer.section_1_body. simpl.
  destruct (unpack_le_H _) as [section_id|];
    [|eexists; split; [done|]; simpl; split_and!;
      [lia|done|lia|intros ? [= <-]; simpl; split; [done|lia]]].
  destruct (unpack_le_I _) as [section_size|];
    [|eexists; split; [done|]; simpl; split_and!;
      [lia|done|lia|intros ? [= <-]; simpl; split; [done|lia]]].
  destruct (_ && _).
  - destruct (_anonymize_section_1_tags_total self (p + 8) (section_size - 8))
      as [out Hout]; [lia|].
    rewrite Hout. simpl. eexists; split; [done|]. simpl.
    apply _anonymize_section_1_tags_grows in Hout as [? ?].
    split_and!; [done|done|lia|done].
  - destruct (_ && _) eqn:E.
    + apply andb_true_iff in E as [?%Z.ltb_lt _].
      eexists; split; [done|]; simpl; split_and!;
        [lia|done|lia|intros ? [= <-]; simpl; split; [done|lia]].
    + eexists; split; [done|]; simpl; split_and!;
        [lia|done|lia|intros ? [= <-]; simpl; split; [done|lia]].
Qed.

Lemma _anonymize_section_1_total self :
  is_Some (SCPAnonymizer._anonymize_section_1 self).
Proof.
  unfold SCPAnonymizer._anonymize_section_1. cbv zeta.
  destruct (while_loop_terminates SCPAnonymizer.section_1_cond
              SCPAnonymizer.section_1_body
              (fun s => 6 <= SCPAnonymizer.tag_pointer s)
              (fun s => Z.to_nat
                 (len (SCPAnonymizer.data (SCPAnonymizer.tag_self s)) - 10
                  - SCPAnonymizer.tag_pointer s))
              (S (List.length (SCPAnonymizer.data self)))
              (SCPAnonymizer.mkTags self 6)) as [s Hrun].
  - intros s c Hp _ Hb.
    destruct (section_1_body_facts s Hp) as (c' & Hb' & _ & _ & Hle & _).
    rewrite Hb in Hb'. injection Hb' as ->. lia.
  - intros s Hp _.
    destruct (section_1_body_facts s Hp) as (c' & Hb' & _). by eexists.
  - intros s s' Hp Hc Hb.
    destruct (section_1_body_facts s Hp) as (c' & Hb' & _ & _ & _ & Hn).
    rewrite Hb in Hb'. injection Hb' as <-.
    destruct (Hn _ eq_refl) as [-> ?].
    unfold SCPAnonymizer.section_1_cond in Hc. apply Z.ltb_lt in Hc. lia.
  - simpl. lia.
  - simpl. unfold len. lia.
  - rewrite Hrun. by eexists.
Qed.

Lemma _anonymize_section_1_grows self out :
  SCPAnonymizer._anonymize_section_1 self = Some out ->
  len (SCPAnonymizer.data self) <= len (SCPAnonymizer.data out) /\
  SCPAnonymizer.anonymous_id out = SCPAnonymizer.anonymous_id self.
Proof.
  unfold SCPAnonymizer._anonymize_section_1. cbv zeta.
  destruct (while_loop _ _ _ _) as [s|] eqn:Hrun; [|done]. intros [= <-].
  revert Hrun.
  apply (while_loop_inv _ _
           (fun s => (len (SCPAnonymizer.data self)
                      <= len (SCPAnonymizer.data (SCPAnonymizer.tag_self s)) /\
                      SCPAnonymizer.anonymous_id (SCPAnonymizer.tag_self s)
                      = SCPAnonymizer.anonymous_id self) /\
                     6 <= SCPAnonymizer.tag_pointer s)); [|by simpl].
  intros s0 c [[Hl Ha] Hp] _ Hb.
  destruct (section_1_body_facts s0 Hp) as (c' & Hb' & Hl' & Ha' & Hp' & _).
  rewrite Hb in Hb'. injection Hb' as <-.
  split_and!; [lia|congruence|lia].
Qed.

(** ** [anonymize]: when it returns, and the finalization *)

Lemma len_replace_text search replace d :
  search <> [] -> len (replace_text search replace d) = len d.
Proof.
  intros. unfold replace_text, len.
  rewrite length_replace_all; [f_equal; lia| |done|lia].
  apply length_same_width.
Qed.

Lemma len_replace_fixed_ids aid d : len (replace_fixed_ids aid d) = len d.
Proof.
  unfold replace_fixed_ids. rewrite len_replace_text by done.
  unfold SCPAnonymizer.original_ids. cbn [fold_left].
  repeat (rewrite len_replace_text by done). done.
Qed.

Lemma anonymize_patient_data_grows self out :
  SCPAnonymizer.anonymize_patient_data self = Some out ->
  len (SCPAnonymizer.data self) <= len (SCPAnonymizer.data out) /\
  SCPAnonymizer.anonymous_id out = SCPAnonymizer.anonymous_id self.
Proof.
  destruct (SCPAnonymizer.encode_ascii (SCPAnonymizer.anonymous_id self))
    as [a|] eqn:Ha.
  - destruct (anonymize_patient_data_file_wide self a Ha)
      as (self1 & -> & Hd & Hi).
    intros H. apply _anonymize_section_1_grows in H as [Hl Hi'].
    rewrite Hd, len_replace_fixed_ids in Hl. split; congruence.
  - by rewrite anonymize_patient_data_raises.
Qed.

Lemma anonymize_patient_data_total self :
  is_Some (SCPAnonymizer.anonymize_patient_data self) <->
  is_Some (SCPAnonymizer.encode_ascii (SCPAnonymizer.anonymous_id self)).
Proof.
  destruct (SCPAnonymizer.encode_ascii (SCPAnonymizer.anonymous_id self))
    as [a|] eqn:Ha.
  - destruct (anonymize_patient_data_file_wide self a Ha) as (self1 & -> & _).
    split; [by eexists|]. intros _. apply _anonymize_section_1_total.
  - rewrite anonymize_patient_data_raises by done. split; by intros [? ?].
Qed.

Lemma crc_round_range crc : 0 <= crc_round crc < 65536.
Proof.
  unfold crc_round. change 0xFFFF with (Z.ones 16).
  rewrite Z.land_ones by lia. apply Z.mod_pos_bound. lia.
Qed.

Lemma calculate_crc_ccitt_range d : 0 <= calculate_crc_ccitt d < 65536.
Proof.
  unfold calculate_crc_ccitt.
  assert (0 <= 0xFFFF < 65536) as H by lia. revert H.
  generalize 0xFFFF. induction d as [|b d IH]; intros crc Hc; [done|].
  simpl. apply IH. apply crc_round_range.
Qed.

Lemma update_crc_total self : is_Some (SCPAnonymizer.update_crc self).
Proof.
  unfold SCPAnonymizer.update_crc, pack_le_H. cbv zeta.
  pose proof (calculate_crc_ccitt_range
                (slice_from (SCPAnonymizer.data self) 2)) as [H1 H2].
  apply Z.leb_le in H1. apply Z.ltb_lt in H2. rewrite H1, H2. by eexists.
Qed.

(** [anonymize] returns exactly when the identifier is ASCII and the
    redacted buffer is shorter than 2^32 bytes. *)
Lemma anonymize_returns anonymous_id file :
  is_Some (SCPAnonymizer.anonymize anonymous_id file) <->
  exists redacted,
    SCPAnonymizer.anonymize_patient_data
      (SCPAnonymizer.read_file (SCPAnonymizer.init anonymous_id) file)
    = Some redacted /\
    len (SCPAnonymizer.data redacted) < 4294967296.
Proof.
  unfold SCPAnonymizer.anonymize, SCPAnonymizer.save_anonymized. cbv zeta.
  destruct (SCPAnonymizer.anonymize_patient_data _) as [redacted|]; simpl.
  - unfold SCPAnonymizer.update_file_size, pack_le_I. cbv zeta.
    pose proof (len_nonneg (SCPAnonymizer.data redacted)) as H0.
    apply Z.leb_le in H0. rewrite H0. simpl.
    destruct (Z.ltb_spec (len (SCPAnonymizer.data redacted)) 4294967296); simpl.
    + split; [by eexists|]. intros _. apply update_crc_total.
    + split; [by intros [? ?]|]. intros (? & [= <-] & ?). lia.
  - split; [by intros [? ?]|]. by intros (? & ? & ?).
Qed.

(** X27: for every [anonymize] call on a file of at least six bytes that
    returns, the length of the output is the little-endian u32 at bytes
    [2,6) of the output and the CRC of the output from byte 2 on is the
    little-endian u16 at bytes [0,2); the output is the redacted buffer
    after the write of the file size into [2,6) and then the write of the
    CRC into [0,2), and nothing after them. *)
Theorem anonymize_finalized anonymous_id file out :
  SCPAnonymizer.anonymize anonymous_id file = Some out ->
  6 <= len file ->
  unpack_le_I (slice (SCPAnonymizer.data out) 2 6)
  = Some (len (SCPAnonymizer.data out)) /\
  unpack_le_H (slice (SCPAnonymizer.data out) 0 2)
  = Some (calculate_crc_ccitt (slice_from (SCPAnonymizer.data out) 2)) /\
  exists redacted size_bytes crc_bytes,
    SCPAnonymizer.anonymize_patient_data
      (SCPAnonymizer.read_file (SCPAnonymizer.init anonymous_id) file)
    = Some redacted /\
    pack_le_I (len (SCPAnonymizer.data redacted)) = Some size_bytes /\
    pack_le_H
      (calculate_crc_ccitt
         (slice_from (slice_assign (SCPAnonymizer.data redacted) 2 6 size_bytes)
            2))
    = Some crc_bytes /\
    SCPAnonymizer.data out
    = slice_assign (slice_assign (SCPAnonymizer.data redacted) 2 6 size_bytes)
        0 2 crc_bytes.
Proof.
  unfold SCPAnonymizer.anonymize, SCPAnonymizer.save_anonymized. cbv zeta.
  destruct (SCPAnonymizer.anonymize_patient_data _) as [redacted|] eqn:Hred;
    [|done].
  simpl. intros Hout Hlen.
  apply anonymize_patient_data_grows in Hred as Hgrow.
  destruct Hgrow as [Hgrow _]. simpl in Hgrow.
  unfold SCPAnonymizer.update_file_size in Hout. cbv zeta in Hout.
  destruct (pack_le_I _) as [size_bytes|] eqn:Hsize; [|done].
  simpl in Hout.
  unfold SCPAnonymizer.update_crc in Hout. cbv zeta in Hout.
  simpl in Hout.
  destruct (pack_le_H _) as [crc_bytes|] eqn:Hcrc; [|done].
  simpl in Hout. injection Hout as <-. simpl.
  pose proof (pack_le_I_length _ _ Hsize) as Hl4.
  pose proof (pack_le_H_length _ _ Hcrc) as Hl2.
  set (d := SCPAnonymizer.data redacted) in *.
  set (d1 := slice_assign d 2 6 size_bytes) in *.
  assert (len size_bytes = 4) as Hz4 by (unfold len; lia).
  assert (len crc_bytes = 2) as Hz2 by (unfold len; lia).
  assert (len d1 = len d) as Hd1.
  { unfold d1. rewrite len_slice_assign by lia. lia. }
  assert (len (slice_assign d1 0 2 crc_bytes) = len d) as Hd2.
  { rewrite len_slice_assign by lia. lia. }
  split_and!.
  - rewrite Hd2.
    assert (slice (slice_assign d1 0 2 crc_bytes) 2 6 = size_bytes) as ->.
    { rewrite slice_of_slice_from by lia.
      rewrite (slice_from_slice_assign_before d1 0 2) by lia.
      rewrite <- slice_of_slice_from by lia.
      apply slice_slice_assign_same; lia. }
    by apply unpack_pack_le_I.
  - rewrite slice_slice_assign_same by lia.
    rewrite (slice_from_slice_assign_before d1 0 2) by lia.
    by apply unpack_pack_le_H.
  - by exists redacted, size_bytes, crc_bytes.
Qed.

Lemma anonymize_finalized_witness :
  exists out,
    SCPAnonymizer.anonymize (Some "ANON000001"%string) scenario_file = Some out /\
    6 <= len scenario_file /\
    unpack_le_I (slice (SCPAnonymizer.data out) 2 6)
    = Some (len (SCPAnonymizer.data out)).
Proof.
  destruct (SCPAnonymizer.anonymize (Some "ANON000001"%string) scenario_file)
    as [out|] eqn:E; [|vm_compute in E; discriminate].
  assert (6 <= len scenario_file) as Hlen by (vm_compute; discriminate).
  exists out. split; [reflexivity|]. split; [exact Hlen|].
  exact (proj1 (anonymize_finalized _ _ _ E Hlen)).
Defined.

(** On the file of five bytes [short_file] the file-size field of the
    output holds 5 and the output is 6 bytes long. *)
Lemma anonymize_short_file_size_mismatch :
  exists out,
    SCPAnonymizer.anonymize None short_file = Some out /\
    unpack_le_I (slice (SCPAnonymizer.data out) 2 6) = Some 5 /\
    len (SCPAnonymizer.data out) = 6 /\
    unpack_le_I (slice (SCPAnonymizer.data out) 2 6)
    <> Some (len (SCPAnonymizer.data out)).
Proof.
  eexists. split; [vm_compute; reflexivity|].
  split; [vm_compute; reflexivity|].
  split; [vm_compute; reflexivity|]. vm_compute. discriminate.
Qed.

Lemma _anonymize_section_1_small self :
  len (SCPAnonymizer.data self) <= 16 ->
  SCPAnonymizer._anonymize_section_1 self = Some self.
Proof.
  intros Hl. unfold SCPAnonymizer._anonymize_section_1. cbv zeta.
  cbn [while_loop]. unfold SCPAnonymizer.section_1_cond at 1.
  cbn [SCPAnonymizer.tag_pointer SCPAnonymizer.tag_self].
  destruct (Z.ltb_spec 6 (len (SCPAnonymizer.data self) - 10)); [lia|].
  reflexivity.
Qed.

(** C2: on a file shorter than the six bytes of the header, [anonymize]
    with an ASCII identifier returns, and its output does not satisfy the
    invariant: [update_file_size] takes the length before its slice
    assignment to [2,6) lengthens the buffer, so the output has
    [4 + min (len file) 2] bytes while the size field, where the output
    has one, holds [len file]. *)
Theorem anonymize_short_input_size_field anonymous_id file :
  is_Some (SCPAnonymizer.encode_ascii
             (SCPAnonymizer.anonymous_id (SCPAnonymizer.init anonymous_id))) ->
  len file < 6 ->
  exists out,
    SCPAnonymizer.anonymize anonymous_id file = Some out /\
    len (SCPAnonymizer.data out) = 4 + Z.min (len file) 2 /\
    unpack_le_I (slice (SCPAnonymizer.data out) 2 6)
    <> Some (len (SCPAnonymizer.data out)) /\
    (2 <= len file ->
     unpack_le_I (slice (SCPAnonymizer.data out) 2 6) = Some (len file)).
Proof.
  intros [a Ha] Hlen.
  unfold SCPAnonymizer.anonymize. cbv zeta.
  destruct (anonymize_patient_data_file_wide
              (SCPAnonymizer.read_file (SCPAnonymizer.init anonymous_id) file)
              a Ha) as (self1 & -> & Hd & _).
  simpl in Hd.
  assert (len (SCPAnonymizer.data self1) = len file) as Hl1
    by (by rewrite Hd, len_replace_fixed_ids).
  rewrite _anonymize_section_1_small by lia. cbn [mbind option_bind].
  unfold SCPAnonymizer.save_anonymized, SCPAnonymizer.update_file_size.
  cbv zeta. rewrite Hl1.
  destruct (pack_le_I (len file)) as [size_bytes|] eqn:Hsize.
  2:{ unfold pack_le_I in Hsize. pose proof (len_nonneg file).
      destruct (Z.leb_spec 0 (len file)); [|lia].
      destruct (Z.ltb_spec (len file) 4294967296); [done|lia]. }
  cbn [mbind option_bind].
  destruct (update_crc_total
              (SCPAnonymizer.set_data self1
                 (slice_assign (SCPAnonymizer.data self1) 2 6 size_bytes)))
    as [out Hout].
  rewrite Hout. exists out. split; [done|].
  unfold SCPAnonymizer.update_crc in Hout. cbv zeta in Hout.
  destruct (pack_le_H _) as [crc_bytes|] eqn:Hcrc; [|done].
  simpl in Hout. injection Hout as <-. simpl.
  pose proof (unpack_pack_le_I _ _ Hsize) as Hun.
  apply pack_le_I_length in Hsize. apply pack_le_H_length in Hcrc.
  destruct size_bytes as [|s0 [|s1 [|s2 [|s3 [|? ?]]]]]; try done.
  destruct crc_bytes as [|c0 [|c1 [|? ?]]]; try done.
  clear Hd Hsize Hcrc. rewrite <- Hl1 in *.
  destruct (SCPAnonymizer.data self1) as [|d0 [|d1 [|d2 [|d3 [|d4 [|d5 d]]]]]].
  - split_and!; [done|done|]. unfold len. simpl. lia.
  - split_and!; [done|done|]. unfold len. simpl. lia.
  - change (slice _ 2 6) with [s0; s1; s2; s3]. rewrite Hun.
    split_and!; [done| |done]. by intros [=].
  - change (slice _ 2 6) with [s0; s1; s2; s3]. rewrite Hun.
    split_and!; [done| |done]. by intros [=].
  - change (slice _ 2 6) with [s0; s1; s2; s3]. rewrite Hun.
    split_and!; [done| |done]. by intros [=].
  - change (slice _ 2 6) with [s0; s1; s2; s3]. rewrite Hun.
    split_and!; [done| |done]. by intros [=].
  - unfold len in Hlen. simpl in Hlen. lia.
Qed.

Lemma anonymize_short_input_size_field_witness :
  exists out,
    SCPAnonymizer.anonymize None short_file = Some out /\
    len (SCPAnonymizer.data out) = 4 + Z.min (len short_file) 2 /\
    unpack_le_I (slice (SCPAnonymizer.data out) 2 6)
    <> Some (len (SCPAnonymizer.data out)) /\
    (2 <= len short_file ->
     unpack_le_I (slice (SCPAnonymizer.data out) 2 6)
     = Some (len short_file)).
Proof.
  apply (anonymize_short_input_size_field None short_file).
  - vm_compute. by eexists.
  - vm_compute. reflexivity.
Defined.

(** ** The overwrites of the tag walk *)

Lemma while_trace_next {S : Type} (cond : S -> bool)
    (body : S -> option (ctl S)) fuel s t t' s' :
  t ∈ while_trace cond body fuel s ->
  while_loop cond body fuel s = Some s' ->
  body t = Some (Next t') ->
  exists fuel', while_loop cond body fuel' t' = Some s'.
Proof.
  intros Hin Hrun Hb.
  pose proof (while_trace_resume _ _ _ _ _ _ Hin Hrun) as Ht.
  destruct (while_trace_inv cond body (fun _ => True) fuel s t) as [_ Hc];
    [done..|].
  destruct fuel as [|fuel]; [done|].
  simpl in Ht. rewrite Hc, Hb in Ht. by exists fuel.
Qed.

Lemma tag_header_Some s tag tag_length :
  tag_header s = Some (tag, tag_length) ->
  exists b,
    index (SCPAnonymizer.data (SCPAnonymizer.tag_self s))
      (SCPAnonymizer.tag_pointer s) = Some b /\
    byte_to_Z b = tag /\
    unpack_le_H (slice (SCPAnonymizer.data (SCPAnonymizer.tag_self s))
                   (SCPAnonymizer.tag_pointer s + 1)
                   (SCPAnonymizer.tag_pointer s + 3)) = Some tag_length /\
    0 <= tag_length < 65536.
Proof.
  unfold tag_header. cbv zeta.
  destruct (index _ _) as [b|]; [|done]. simpl.
  destruct (unpack_le_H _) as [tl|] eqn:Hu; [|done]. simpl.
  intros [= <- <-]. exists b. split_and!; try done.
  all: apply (unpack_le_H_range _ _ Hu).
Qed.

Lemma is_name_tag_facts tag :
  is_name_tag tag = true ->
  (tag =? 255) = false /\ (tag =? 2) = false /\
  exists name, SCPAnonymizer.sensitive_name tag = Some name.
Proof.
  unfold is_name_tag. simpl. rewrite !orb_true_iff, !Z.eqb_eq.
  intros [->|[->|[->|[->|?]]]]; [..|done]; split_and!; try done; by eexists.
Qed.

(** A round at a redacted tag whose value lies within the buffer keeps
    the length of the buffer. *)
Lemma tags_body_in_range s :
  redacted_value_in_range s = true ->
  len (SCPAnonymizer.data
         (SCPAnonymizer.tag_self (ctl_state (SCPAnonymizer.tags_body s))))
  = len (SCPAnonymizer.data (SCPAnonymizer.tag_self s)).
Proof.
  destruct s as [[d aid ch] p].
  unfold redacted_value_in_range, tag_header, SCPAnonymizer.tags_body.
  cbn [SCPAnonymizer.tag_self SCPAnonymizer.tag_pointer SCPAnonymizer.data
       SCPAnonymizer.anonymous_id].
  unfold SCPAnonymizer.tag_except. cbv zeta.
  destruct (index d p) as [tag|] eqn:Hi; [|done]. cbn [mbind option_bind].
  pose proof (index_Some _ _ _ Hi) as Hp.
  destruct (unpack_le_H _) as [tl|] eqn:Hu; cbn [mbind option_bind];
    [|by destruct (byte_to_Z tag =? 255)].
  pose proof (unpack_le_H_range _ _ Hu) as Htl.
  destruct (byte_to_Z tag =? 255); [done|].
  destruct (SCPAnonymizer.sensitive_name _) as [name|]; [|done].
  intros Hr%Z.leb_le. rewrite Z.min_l by lia.
  destruct (byte_to_Z tag =? 2).
  { destruct (SCPAnonymizer.encode_ascii _) as [a|]; [|done]. simpl.
    rewrite len_slice_assign, len_anon_bytes by lia. lia. }
  destruct (existsb _ _).
  { simpl. rewrite len_slice_assign, len_removed_bytes by lia. lia. }
  destruct (byte_to_Z tag =? 10); [|done].
  destruct (4 <=? tl) eqn:H4; [|done]. apply Z.leb_le in H4.
  set (d1 := slice_assign d (p + 3) (p + 3 + 2) (pack_be_H 1900)).
  assert (len d1 = len d) as H1.
  { unfold d1. rewrite len_slice_assign by lia. unfold len at 2. simpl. lia. }
  destruct (index_assign d1 _ _) as [d2|] eqn:H2; [|done].
  pose proof (len_index_assign _ _ _ _ H2) as Hl2.
  destruct (index_assign d2 _ _) as [d3|] eqn:H3; [|simpl; lia].
  pose proof (len_index_assign _ _ _ _ H3) as Hl3. simpl. lia.
Qed.


(** A round at a patient-ID or name tag assigns the whole replacement to
    the value range clamped to the end of the buffer. *)
Lemma tags_body_replacement s tag tag_length replacement :
  tag_header s = Some (tag, tag_length) ->
  replacement_of (SCPAnonymizer.anonymous_id (SCPAnonymizer.tag_self s))
    tag tag_length = Some replacement ->
  exists self',
    SCPAnonymizer.tags_body s
    = Next (SCPAnonymizer.mkTags self'
              (SCPAnonymizer.tag_pointer s + (3 + tag_length))) /\
    SCPAnonymizer.data self'
    = slice_assign (SCPAnonymizer.data (SCPAnonymizer.tag_self s))
        (SCPAnonymizer.tag_pointer s + 3)
        (Z.min (SCPAnonymizer.tag_pointer s + 3 + tag_length)
           (len (SCPAnonymizer.data (SCPAnonymizer.tag_self s))))
        replacement.
Proof.
  intros (b & Hi & Hb & Hu & Htl)%tag_header_Some Hrep.
  unfold SCPAnonymizer.tags_body. cbv zeta. rewrite Hi, Hb, Hu.
  unfold replacement_of in Hrep.
  destruct (Z.eqb_spec tag 2) as [->|Hne2].
  - change (2 =? 255) with false. cbv iota.
    change (SCPAnonymizer.sensitive_name 2) with (Some "Patient ID"%string).
    cbv iota. change (2 =? 2) with true. cbv iota.
    destruct (SCPAnonymizer.encode_ascii _) as [a|]; [|done].
    injection Hrep as <-. by eexists.
  - destruct (is_name_tag tag) eqn:Hn; [|done]. injection Hrep as <-.
    destruct (is_name_tag_facts _ Hn) as (-> & _ & name & ->).
    fold (is_name_tag tag). rewrite Hn. by eexists.
Qed.

Lemma len_replacement_of aid tag tag_length replacement :
  0 <= tag_length ->
  replacement_of aid tag tag_length = Some replacement ->
  len replacement = tag_length.
Proof.
  intros Htl. unfold replacement_of. destruct (tag =? 2).
  - destruct (SCPAnonymizer.encode_ascii aid) as [a|]; [|done].
    intros [= <-]. by apply len_anon_bytes.
  - destruct (is_name_tag tag); [|done]. intros [= <-].
    by apply len_removed_bytes.
Qed.

Lemma tags_trace_inv self start_offset length s :
  s ∈ tags_trace self start_offset length ->
  tags_inv (Z.min (start_offset + length) (len (SCPAnonymizer.data self)))
    (SCPAnonymizer.anonymous_id self) s /\
  SCPAnonymizer.tags_cond
    (Z.min (start_offset + length) (len (SCPAnonymizer.data self))) s = true.
Proof.
  unfold tags_trace. apply while_trace_inv.
  - apply tags_inv_step.
  - split; simpl; [lia|done].
Qed.

(** The rounds that follow a round leave the bytes below its next pointer
    where they are. *)
Lemma tags_loop_frame end_ fuel s out (q : nat) :
  end_ <= len (SCPAnonymizer.data (SCPAnonymizer.tag_self s)) ->
  (q <= Z.to_nat (SCPAnonymizer.tag_pointer s + 3))%nat ->
  tags_loop end_ fuel s = Some out ->
  take q (SCPAnonymizer.data (SCPAnonymizer.tag_self out))
  = take q (SCPAnonymizer.data (SCPAnonymizer.tag_self s)).
Proof.
  intros Hend Hq Hrun.
  enough (end_ <= len (SCPAnonymizer.data (SCPAnonymizer.tag_self out)) /\
          (q <= Z.to_nat (SCPAnonymizer.tag_pointer out + 3))%nat /\
          take q (SCPAnonymizer.data (SCPAnonymizer.tag_self out))
          = take q (SCPAnonymizer.data (SCPAnonymizer.tag_self s)))
    by tauto.
  revert Hrun. unfold tags_loop.
  apply (while_loop_inv _ _
    (fun t => end_ <= len (SCPAnonymizer.data (SCPAnonymizer.tag_self t)) /\
              (q <= Z.to_nat (SCPAnonymizer.tag_pointer t + 3))%nat /\
              take q (SCPAnonymizer.data (SCPAnonymizer.tag_self t))
              = take q (SCPAnonymizer.data (SCPAnonymizer.tag_self s))));
    [|done].
  intros t c (Hl & Hqt & Ht) Hc [= <-].
  unfold SCPAnonymizer.tags_cond in Hc. apply Z.ltb_lt in Hc.
  destruct (tags_body_facts t) as (_ & Hl' & Hn & Hb & Hfr).
  split_and!.
  - lia.
  - destruct (SCPAnonymizer.tags_body t) as [s1|s1] eqn:E; simpl.
    + by rewrite (Hb _ eq_refl).
    + specialize (Hn _ eq_refl). lia.
  - rewrite Hfr by lia. done.
Qed.

Lemma slice_take d a b (q : nat) :
  0 <= a -> a <= b -> b <= Z.of_nat q -> slice (take q d) a b = slice d a b.
Proof.
  intros. unfold slice. rewrite !take_drop_commute, take_take.
  do 2 f_equal. lia.
Qed.

Section TagWalk.
Variable self : SCPAnonymizer.anonymizer.
Variables start_offset length : Z.
Hypothesis start_nonneg : 0 <= start_offset.

Let end_ := Z.min (start_offset + length) (len (SCPAnonymizer.data self)).

Variable s : SCPAnonymizer.tag_state.
Hypothesis s_round : s ∈ tags_trace self start_offset length.

Variables tag tag_length : Z.
Variable replacement : list byte.
Hypothesis s_header : tag_header s = Some (tag, tag_length).
Hypothesis s_replacement :
  replacement_of (SCPAnonymizer.anonymous_id self) tag tag_length
  = Some replacement.

Let d := SCPAnonymizer.data (SCPAnonymizer.tag_self s).
Let p := SCPAnonymizer.tag_pointer s.

Lemma tag_walk_round :
  exists out sfin s1 fuel,
    SCPAnonymizer._anonymize_section_1_tags self start_offset length
    = Some out /\
    out = SCPAnonymizer.tag_self sfin /\
    tags_loop end_ fuel s1 = Some sfin /\
    SCPAnonymizer.tag_pointer s1 = p + (3 + tag_length) /\
    SCPAnonymizer.data (SCPAnonymizer.tag_self s1)
    = slice_assign d (p + 3) (Z.min (p + 3 + tag_length) (len d))
        replacement /\
    end_ <= len d /\ p + 3 < end_ /\ 0 <= tag_length /\
    len replacement = tag_length.
Proof.
  destruct (_anonymize_section_1_tags_total self start_offset length
              start_nonneg) as [out Hout].
  pose proof Hout as Hout'.
  unfold SCPAnonymizer._anonymize_section_1_tags in Hout'.
  cbv zeta in Hout'. fold end_ in Hout'.
  destruct (while_loop _ _ _ _) as [sfin|] eqn:Hrun; [|done].
  injection Hout' as <-.
  destruct (tags_trace_inv _ _ _ _ s_round) as [[Hend Haid] Hc].
  fold end_ in Hend, Hc.
  unfold SCPAnonymizer.tags_cond in Hc. apply Z.ltb_lt in Hc.
  pose proof s_replacement as Hrep. rewrite <- Haid in Hrep.
  destruct (tags_body_replacement _ _ _ _ s_header Hrep)
    as (self' & Hb & Hd).
  assert ((fun s => Some (SCPAnonymizer.tags_body s)) s
          = Some (Next (SCPAnonymizer.mkTags self'
                          (SCPAnonymizer.tag_pointer s + (3 + tag_length)))))
    as Hb' by (simpl; by rewrite Hb).
  destruct (while_trace_next _ _ _ _ _ _ _ s_round Hrun Hb')
    as [fuel Hnext].
  destruct (tag_header_Some _ _ _ s_header) as (_ & _ & _ & _ & Htl & _).
  exists (SCPAnonymizer.tag_self sfin), sfin,
    (SCPAnonymizer.mkTags self'
       (SCPAnonymizer.tag_pointer s + (3 + tag_length))), fuel.
  split_and!; try done.
  - fold p. lia.
  - eapply len_replacement_of; [|done]. lia.
Qed.

(** The value of a patient-ID or name tag that lies within the buffer
    is the replacement when the walk returns. *)
Lemma tag_walk_in_range :
  p + 3 + tag_length <= len d ->
  exists out,
    SCPAnonymizer._anonymize_section_1_tags self start_offset length
    = Some out /\
    slice (SCPAnonymizer.data out) (p + 3) (p + 3 + tag_length)
    = replacement.
Proof.
  intros Hin.
  destruct tag_walk_round
    as (out & sfin & s1 & fuel & Hout & -> & Hrun & Hp1 & Hd1 & Hend
        & Hc & Htl & Hlr).
  destruct (tags_trace_inv _ _ _ _ s_round) as [[_ _] Hcond].
  pose proof (index_Some d p) as Hp0.
  destruct (tag_header_Some _ _ _ s_header) as (b & Hi & _).
  specialize (Hp0 _ Hi).
  exists (SCPAnonymizer.tag_self sfin). split; [done|].
  rewrite Z.min_l in Hd1 by lia.
  assert (len (SCPAnonymizer.data (SCPAnonymizer.tag_self s1)) = len d)
    as Hl1 by (rewrite Hd1, len_slice_assign by lia; lia).
  rewrite <- (slice_take _ _ _ (Z.to_nat (p + 3 + tag_length))) by lia.
  rewrite (tags_loop_frame end_ fuel s1 sfin); [|lia|lia|done].
  rewrite slice_take by lia. rewrite Hd1.
  apply slice_slice_assign_same; lia.
Qed.

(** The value of a patient-ID or name tag whose declared length runs
    past the end of the buffer: the walk ends with a buffer that is the
    bytes up to the value followed by the whole replacement. *)
Lemma tag_walk_past_end :
  len d < p + 3 + tag_length ->
  exists out,
    SCPAnonymizer._anonymize_section_1_tags self start_offset length
    = Some out /\
    SCPAnonymizer.data out = take (Z.to_nat (p + 3)) d ++ replacement /\
    len (SCPAnonymizer.data out) = p + 3 + tag_length.
Proof.
  intros Hout_of_range.
  destruct tag_walk_round
    as (out & sfin & s1 & fuel & Hout & -> & Hrun & Hp1 & Hd1 & Hend
        & Hc & Htl & Hlr).
  pose proof (index_Some d p) as Hp0.
  destruct (tag_header_Some _ _ _ s_header) as (b & Hi & _).
  specialize (Hp0 _ Hi).
  assert (sfin = s1) as ->.
  { unfold tags_loop in Hrun. destruct fuel as [|fuel]; [done|].
    simpl in Hrun. unfold SCPAnonymizer.tags_cond in Hrun at 1.
    destruct (Z.ltb_spec (SCPAnonymizer.tag_pointer s1) (end_ - 3));
      [lia|]. by injection Hrun. }
  exists (SCPAnonymizer.tag_self s1). split; [done|].
  rewrite Z.min_r in Hd1 by lia.
  assert (SCPAnonymizer.data (SCPAnonymizer.tag_self s1)
          = take (Z.to_nat (p + 3)) d ++ replacement) as ->.
  { rewrite Hd1. unfold slice_assign. rewrite Z.max_r by lia.
    unfold len. rewrite Nat2Z.id, drop_all, app_nil_r. done. }
  split; [done|].
  rewrite len_app. unfold len at 1. rewrite length_take.
  unfold len in *. lia.
Qed.
End TagWalk.

(** C10, as amended: when every redacted tag that the tag walk meets has
    its declared value range [[pointer+3, pointer+3+length)] within the
    buffer, the walk returns a buffer of the length it was given; when the
    declared length of a patient-ID or name tag (2, 6, 7, 8, 9) runs past
    the end of the buffer, the whole replacement of the declared length is
    assigned to the range clamped to the end of the buffer, so that the
    walk returns the bytes before the value followed by the replacement,
    [pointer+3+length] bytes in all. *)
Theorem tag_overwrites_and_length self start_offset length :
  0 <= start_offset ->
  (Forall (fun s => redacted_value_in_range s = true)
     (tags_trace self start_offset length) ->
   exists out,
     SCPAnonymizer._anonymize_section_1_tags self start_offset length
     = Some out /\
     len (SCPAnonymizer.data out) = len (SCPAnonymizer.data self)) /\
  (forall s tag tag_length replacement,
     s ∈ tags_trace self start_offset length ->
     tag_header s = Some (tag, tag_length) ->
     replacement_of (SCPAnonymizer.anonymous_id self) tag tag_length
     = Some replacement ->
     len (SCPAnonymizer.data (SCPAnonymizer.tag_self s))
     < SCPAnonymizer.tag_pointer s + 3 + tag_length ->
     exists out,
       SCPAnonymizer._anonymize_section_1_tags self start_offset length
       = Some out /\
       SCPAnonymizer.data out
       = take (Z.to_nat (SCPAnonymizer.tag_pointer s + 3))
           (SCPAnonymizer.data (SCPAnonymizer.tag_self s)) ++ replacement /\
       len (SCPAnonymizer.data out)
       = SCPAnonymizer.tag_pointer s + 3 + tag_length).
Proof.
  intros Hstart. split.
  - intros Hall.
    destruct (_anonymize_section_1_tags_total self start_offset length Hstart)
      as [out Hout].
    exists out. split; [done|].
    unfold SCPAnonymizer._anonymize_section_1_tags in Hout. cbv zeta in Hout.
    destruct (while_loop _ _ _ _) as [sfin|] eqn:Hrun; [|done].
    injection Hout as <-. revert Hrun.
    apply (while_loop_inv_trace _ _
             (fun s => len (SCPAnonymizer.data (SCPAnonymizer.tag_self s))
                       = len (SCPAnonymizer.data self))
             (fun s => redacted_value_in_range s = true)); [|done|done].
    intros s c Hl Hr _ [= <-]. by rewrite tags_body_in_range.
  - intros s tag tag_length replacement Hs Hh Hr Hpast.
    by apply (tag_walk_past_end self start_offset length Hstart s Hs
                tag tag_length replacement).
Qed.

Lemma tag_overwrites_and_length_witness :
  (exists out,
     SCPAnonymizer._anonymize_section_1_tags
       (SCPAnonymizer.read_file (SCPAnonymizer.init None) scenario_file) 14 36
     = Some out /\
     len (SCPAnonymizer.data out) = len scenario_file) /\
  (exists out,
     SCPAnonymizer._anonymize_section_1_tags
       (SCPAnonymizer.read_file (SCPAnonymizer.init None) truncated_name_file)
       14 8
     = Some out /\
     len truncated_name_file = 20 /\
     len (SCPAnonymizer.data out) = 14 + 3 + 40).
Proof.
  split.
  - apply (tag_overwrites_and_length
             (SCPAnonymizer.read_file (SCPAnonymizer.init None) scenario_file)
             14 36); [lia|].
    vm_compute. repeat constructor.
  - set (self := SCPAnonymizer.read_file (SCPAnonymizer.init None)
                   truncated_name_file).
    destruct (proj2 (tag_overwrites_and_length self 14 8 ltac:(lia))
                (SCPAnonymizer.mkTags self 14) 8 40
                (SCPAnonymizer.removed_bytes 40))
      as (out & Hout & _ & Hlen).
    + apply list_elem_of_In. vm_compute. left. reflexivity.
    + vm_compute. reflexivity.
    + vm_compute. reflexivity.
    + vm_compute. reflexivity.
    + exists out. split; [exact Hout|]. split; [reflexivity|exact Hlen].
Defined.

(** C10, as stated, fails on a date-of-birth tag whose declared length
    (40) runs past the end of the buffer: the walk writes the four bytes
    of the date and the buffer keeps its length. *)
Lemma dob_past_end_keeps_length :
  exists s out,
    s ∈ tags_trace
          (SCPAnonymizer.read_file (SCPAnonymizer.init None)
             truncated_dob_file) 14 8 /\
    tag_header s = Some (10, 40) /\
    len (SCPAnonymizer.data (SCPAnonymizer.tag_self s))
    < SCPAnonymizer.tag_pointer s + 3 + 40 /\
    SCPAnonymizer._anonymize_section_1_tags
      (SCPAnonymizer.read_file (SCPAnonymizer.init None) truncated_dob_file)
      14 8 = Some out /\
    len (SCPAnonymizer.data out) = len truncated_dob_file /\
    exists saved,
      SCPAnonymizer.anonymize None truncated_dob_file = Some saved /\
      len (SCPAnonymizer.data saved) = len truncated_dob_file.
Proof.
  exists (SCPAnonymizer.mkTags
            (SCPAnonymizer.read_file (SCPAnonymizer.init None)
               truncated_dob_file) 14).
  eexists. split_and!.
  - apply list_elem_of_In. vm_compute. left. reflexivity.
  - vm_compute. reflexivity.
  - vm_compute. reflexivity.
  - vm_compute. reflexivity.
  - vm_compute. reflexivity.
  - eexists. split; vm_compute; reflexivity.
Qed.

(** C5, as amended: for every name tag with id in {6, 7, 8, 9} that the
    tag walk of Section 1 meets, of declared length L and with its L value
    bytes within the buffer, the walk returns a buffer whose L value bytes
    are the eight bytes [REMOVED] and NUL, repeated and cut to exactly L
    bytes; a length of 5 gives [REMOV] and a length of 4 gives [REMO], and
    on the scenario file [anonymize] turns the last name [Smith] into
    [REMOV] and the first name [John] into [REMO]. *)
Theorem name_tags_removed self start_offset length s tag tag_length :
  0 <= start_offset ->
  s ∈ tags_trace self start_offset length ->
  tag_header s = Some (tag, tag_length) ->
  is_name_tag tag = true ->
  SCPAnonymizer.tag_pointer s + 3 + tag_length
  <= len (SCPAnonymizer.data (SCPAnonymizer.tag_self s)) ->
  (exists out,
     SCPAnonymizer._anonymize_section_1_tags self start_offset length
     = Some out /\
     slice (SCPAnonymizer.data out) (SCPAnonymizer.tag_pointer s + 3)
       (SCPAnonymizer.tag_pointer s + 3 + tag_length)
     = slice (bytes_repeat (list_byte_of_string "REMOVED" ++ [x00])
                (tag_length / 8 + 1)) 0 tag_length) /\
  SCPAnonymizer.removed_bytes 5 = list_byte_of_string "REMOV" /\
  SCPAnonymizer.removed_bytes 4 = list_byte_of_string "REMO" /\
  (exists out,
     SCPAnonymizer.anonymize (Some "ANON000001"%string) scenario_file
     = Some out /\
     slice scenario_file 26 34
     = bytes_of [8; 5; 0] ++ list_byte_of_string "Smith" /\
     slice (SCPAnonymizer.data out) 26 34
     = bytes_of [8; 5; 0] ++ list_byte_of_string "REMOV" /\
     slice scenario_file 34 41
     = bytes_of [9; 4; 0] ++ list_byte_of_string "John" /\
     slice (SCPAnonymizer.data out) 34 41
     = bytes_of [9; 4; 0] ++ list_byte_of_string "REMO").
Proof.
  intros Hstart Hs Hh Hname Hin. split_and!.
  - apply (tag_walk_in_range self start_offset length Hstart s Hs
             tag tag_length); [done| |done].
    unfold replacement_of.
    destruct (is_name_tag_facts _ Hname) as (_ & -> & _). by rewrite Hname.
  - vm_compute. reflexivity.
  - vm_compute. reflexivity.
  - eexists. split_and!; vm_compute; reflexivity.
Qed.

Lemma name_tags_removed_witness :
  exists out,
    SCPAnonymizer._anonymize_section_1_tags
      (SCPAnonymizer.read_file (SCPAnonymizer.init None) scenario_file) 14 36
    = Some out /\
    slice (SCPAnonymizer.data out) 29 34 = list_byte_of_string "REMOV".
Proof.
  set (self := SCPAnonymizer.read_file (SCPAnonymizer.init None)
                 scenario_file).
  set (s := default (SCPAnonymizer.mkTags self 0)
              (tags_trace self 14 36 !! 1%nat)).
  destruct (proj1 (name_tags_removed self 14 36 s 8 5 ltac:(lia)
                     ltac:(apply list_elem_of_In; vm_compute; right; left;
                           reflexivity)
                     ltac:(vm_compute; reflexivity)
                     ltac:(vm_compute; reflexivity)
                     ltac:(vm_compute; discriminate)))
    as (out & Hout & Hv).
  exists out. split; [exact Hout|]. exact Hv.
Defined.

(** C5, as stated, fails on a last name of nine bytes: its value becomes
    [REMOVED], a NUL byte and [R], not [REMOVED] repeated and cut to nine
    bytes. *)
Lemma long_name_not_removed_repeated :
  exists out,
    SCPAnonymizer.anonymize None long_name_file = Some out /\
    slice long_name_file 14 26
    = bytes_of [8; 9; 0] ++ list_byte_of_string "Smithsons" /\
    slice (SCPAnonymizer.data out) 17 26
    = list_byte_of_string "REMOVED" ++ [x00] ++ list_byte_of_string "R" /\
    removed_repeated 9 = list_byte_of_string "REMOVEDRE" /\
    slice (SCPAnonymizer.data out) 17 26 <> removed_repeated 9.
Proof.
  eexists. split_and!; try (vm_compute; reflexivity).
  vm_compute. discriminate.
Qed.

(** ** The file-wide replacement *)






(** ** The section walks *)

Lemma slice_app_after pre rest i j :
  0 <= i -> slice (pre ++ rest) (len pre + i) (len pre + j) = slice rest i j.
Proof.
  intros. unfold slice, len.
  replace (Z.to_nat (Z.of_nat (length pre) + i))
    with (length pre + Z.to_nat i)%nat by lia.
  rewrite drop_app_add' by done. f_equal. lia.
Qed.

Lemma index_app_after pre rest i :
  0 <= i -> index (pre ++ rest) (len pre + i) = index rest i.
Proof.
  intros. unfold index. rewrite len_app. unfold len.
  replace (Z.to_nat (Z.of_nat (length pre) + i))
    with (length pre + Z.to_nat i)%nat by lia.
  rewrite lookup_app_r, Nat.add_comm, Nat.add_sub by lia.
  destruct (Z.leb_spec 0 i); [|lia].
  destruct (Z.leb_spec 0 (Z.of_nat (length pre) + i)); [|lia].
  destruct (Z.ltb_spec i (Z.of_nat (length rest)));
    destruct (Z.ltb_spec (Z.of_nat (length pre) + i)
                (Z.of_nat (length pre) + Z.of_nat (length rest)));
    try lia; done.
Qed.

Lemma _parse_lead_info_keeps self d :
  SCPReader.data (SCPReader._parse_lead_info self d) = SCPReader.data self /\
  SCPReader.sections (SCPReader._parse_lead_info self d)
  = SCPReader.sections self.
Proof.
  unfold SCPReader._parse_lead_info. cbv zeta.
  repeat case_match; done.
Qed.

Lemma _generate_sample_data_keeps self :
  SCPReader.data (SCPReader._generate_sample_data self) = SCPReader.data self /\
  SCPReader.sections (SCPReader._generate_sample_data self)
  = SCPReader.sections self.
Proof.
  unfold SCPReader._generate_sample_data. cbv zeta. by case_match.
Qed.

Lemma _parse_rhythm_data_keeps self d :
  SCPReader.data (SCPReader._parse_rhythm_data self d) = SCPReader.data self /\
  SCPReader.sections (SCPReader._parse_rhythm_data self d)
  = SCPReader.sections self.
Proof.
  unfold SCPReader._parse_rhythm_data. cbv zeta.
  repeat case_match; try done;
    try (destruct (_generate_sample_data_keeps self) as [-> ->]; done).
  all: match goal with
       | |- context [SCPReader._generate_sample_data ?x] =>
           destruct (_generate_sample_data_keeps x) as [-> ->]; done
       end.
Qed.

Lemma slice_app_at pre rest j :
  slice (pre ++ rest) (len pre) (len pre + j) = slice rest 0 j.
Proof.
  rewrite <- (slice_app_after pre rest 0 j) by lia. f_equal. lia.
Qed.

Lemma index_lookup d i b :
  d !! Z.to_nat i = Some b -> 0 <= i -> index d i = Some b.
Proof.
  intros Hl Hi. unfold index, len.
  pose proof (lookup_lt_Some _ _ _ Hl).
  destruct (Z.leb_spec 0 i); [|lia].
  destruct (Z.ltb_spec i (Z.of_nat (length d))); [done|lia].
Qed.

(** One round of the reader's walk at a pointer followed by eight
    bytes. *)
Lemma sections_body_at (pre post : list byte)
    (b0 b1 b2 b3 b4 b5 b6 b7 : byte) (reader : SCPReader.reader) :
  SCPReader.data reader = pre ++ [b0; b1; b2; b3; b4; b5; b6; b7] ++ post ->
  if le16 b0 b1 =? 0 then
    SCPReader.sections_body (SCPReader.mkWalk reader (len pre))
    = Some (Break (SCPReader.mkWalk reader (len pre)))
  else
    exists reader',
      SCPReader.sections_body (SCPReader.mkWalk reader (len pre))
      = Some (Next (SCPReader.mkWalk reader'
                      (len pre + le32 b2 b3 b4 b5))) /\
      SCPReader.data reader' = SCPReader.data reader /\
      SCPReader.sections reader' !! le16 b0 b1
      = Some (SCPReader.mkSection (le32 b2 b3 b4 b5) b6 b7 (len pre + 8)
                (slice (SCPReader.data reader) (len pre + 8)
                   (len pre + le32 b2 b3 b4 b5))).
Proof.
  intros Hd.
  unfold SCPReader.sections_body. cbv zeta.
  cbn [SCPReader.walk_self SCPReader.walk_pointer]. rewrite Hd.
  rewrite slice_app_at, (slice_app_after pre _ 2 6) by lia.
  rewrite !index_app_after by lia.
  rewrite (index_lookup _ 6 b6), (index_lookup _ 7 b7) by (done || lia).
  change (unpack_le_H (slice ([b0; b1; b2; b3; b4; b5; b6; b7] ++ post) 0 2))
    with (Some (le16 b0 b1)).
  change (unpack_le_I (slice ([b0; b1; b2; b3; b4; b5; b6; b7] ++ post) 2 6))
    with (Some (le32 b2 b3 b4 b5)).
  cbv iota beta.
  destruct (le16 b0 b1 =? 0); [done|].
  eexists. split; [done|]. cbn [SCPReader.section_data].
  split.
  - repeat case_match;
      rewrite ?(proj1 (_parse_lead_info_keeps _ _)),
              ?(proj1 (_parse_rhythm_data_keeps _ _)); done.
  - repeat case_match;
      rewrite ?(proj2 (_parse_lead_info_keeps _ _)),
              ?(proj2 (_parse_rhythm_data_keeps _ _));
      cbn [SCPReader.sections]; by rewrite lookup_insert_eq.
Qed.

(** C3: at a section pointer [p] followed by the eight bytes [b0 .. b7],
    the reader's walk and the anonymizer's walk take the section id from
    [b0 b1] (the bytes at [p]) and the size from [b2 .. b5] (the bytes at
    [p+2]); the verifier's walks take the id from [b2 b3] (at [p+2]) and
    the size from [b4 .. b7] (at [p+4]), in [_find_section], in
    [check_section_1_tags] and in [check_file_structure]. The verifier's id is the low half
    of the reader's size field, and on [signal_file] the reader finds the
    Section 6 that the verifier's [_find_section] does not find. *)
Theorem section_header_layouts (pre post : list byte)
    (b0 b1 b2 b3 b4 b5 b6 b7 : byte)
    (secs : gmap Z SCPReader.section) (ecg : option SCPReader.ecg)
    (leads : list string) (rate : Z)
    (aid : string) (changes : list SCPAnonymizer.change)
    (section_id : Z) (found : option (list byte)) (count : Z)
    (current_year : Z)
    (checked : option (list (Z * AnonymizationVerifier.verdict))) :
  let d := pre ++ [b0; b1; b2; b3; b4; b5; b6; b7] ++ post in
  let p := len pre in
  let reader := SCPReader.mkReader d secs ecg leads rate in
  let anonymizer := SCPAnonymizer.mkAnonymizer d aid changes in
  (if le16 b0 b1 =? 0 then
     SCPReader.sections_body (SCPReader.mkWalk reader p)
     = Some (Break (SCPReader.mkWalk reader p))
   else
     exists reader',
       SCPReader.sections_body (SCPReader.mkWalk reader p)
       = Some (Next (SCPReader.mkWalk reader' (p + le32 b2 b3 b4 b5))) /\
       SCPReader.sections reader' !! le16 b0 b1
       = Some (SCPReader.mkSection (le32 b2 b3 b4 b5) b6 b7 (p + 8)
                 (slice d (p + 8) (p + le32 b2 b3 b4 b5)))) /\
  SCPAnonymizer.section_1_body (SCPAnonymizer.mkTags anonymizer p)
  = (if (le16 b0 b1 =? 1) && (le32 b2 b3 b4 b5 <? len d) then
       anonymizer' ← SCPAnonymizer._anonymize_section_1_tags anonymizer
                       (p + 8) (le32 b2 b3 b4 b5 - 8);
       Some (Break (SCPAnonymizer.mkTags anonymizer' p))
     else if (0 <? le32 b2 b3 b4 b5) && (le32 b2 b3 b4 b5 <? len d) then
       Some (Next (SCPAnonymizer.mkTags anonymizer (p + le32 b2 b3 b4 b5)))
     else Some (Next (SCPAnonymizer.mkTags anonymizer (p + 1)))) /\
  AnonymizationVerifier.read_header d p
  = Some (le16 b2 b3, le32 b4 b5 b6 b7) /\
  AnonymizationVerifier.find_body d section_id (p, found)
  = (if (le16 b2 b3 =? section_id) && (le32 b4 b5 b6 b7 <? len d) then
       Some (Break (p, Some (slice d p (p + le32 b4 b5 b6 b7))))
     else if 0 <? le32 b4 b5 b6 b7 then
       Some (Next (p + le32 b4 b5 b6 b7, None))
     else Some (Break (p, None))) /\
  AnonymizationVerifier.check_section_body current_year d (p, checked)
  = (if (le16 b2 b3 =? 1) && (le32 b4 b5 b6 b7 <? len d) then
       tags ← while_loop
                (fun t => AnonymizationVerifier.tag_pointer t
                          <? p + le32 b4 b5 b6 b7 - 3)
                (AnonymizationVerifier.check_tags_body current_year d)
                (S (length d)) (AnonymizationVerifier.mkTagWalk (p + 16) []);
       Some (Break (p, Some (AnonymizationVerifier.verdicts tags)))
     else if 0 <? le32 b4 b5 b6 b7 then
       Some (Next (p + le32 b4 b5 b6 b7, None))
     else Some (Break (p, checked))) /\
  AnonymizationVerifier.count_body d (p, count)
  = (if (le32 b4 b5 b6 b7 =? 0) || (len d - p <? le32 b4 b5 b6 b7) then
       Some (Break (p, count))
     else Some (Next (p + le32 b4 b5 b6 b7, count + 1))) /\
  le16 b2 b3 = le32 b2 b3 b4 b5 mod 65536 /\
  exists r,
    SCPReader.read_file 100 signal_file = Returns r /\
    SCPReader.size <$> (SCPReader.sections r !! 6) = Some 26 /\
    SCPReader.data_start <$> (SCPReader.sections r !! 6) = Some 52 /\
    AnonymizationVerifier._find_section signal_file 6 = Some None.
Proof.
  intros d p reader anonymizer.
  assert (unpack_le_H (slice d p (p + 2)) = Some (le16 b0 b1)) as H01
    by (unfold d, p; rewrite slice_app_at; reflexivity).
  assert (unpack_le_I (slice d (p + 2) (p + 6)) = Some (le32 b2 b3 b4 b5))
    as H25 by (unfold d, p; rewrite slice_app_after by lia; reflexivity).
  assert (unpack_le_H (slice d (p + 2) (p + 4)) = Some (le16 b2 b3)) as H23
    by (unfold d, p; rewrite slice_app_after by lia; reflexivity).
  assert (unpack_le_I (slice d (p + 4) (p + 8)) = Some (le32 b4 b5 b6 b7))
    as H47 by (unfold d, p; rewrite slice_app_after by lia; reflexivity).
  assert (AnonymizationVerifier.read_header d p
          = Some (le16 b2 b3, le32 b4 b5 b6 b7)) as Hv
    by (unfold AnonymizationVerifier.read_header; by rewrite H23, H47).
  split_and!.
  - pose proof (sections_body_at pre post b0 b1 b2 b3 b4 b5 b6 b7 reader
                  eq_refl) as Hr.
    destruct (le16 b0 b1 =? 0); [done|].
    destruct Hr as (reader' & Hb & _ & Hs). by exists reader'.
  - unfold SCPAnonymizer.section_1_body. cbv zeta.
    cbn [SCPAnonymizer.tag_self SCPAnonymizer.tag_pointer SCPAnonymizer.data
         anonymizer].
    by rewrite H01, H25.
  - done.
  - unfold AnonymizationVerifier.find_body. cbn [fst]. by rewrite Hv.
  - unfold AnonymizationVerifier.check_section_body. cbn [fst].
    by rewrite Hv.
  - unfold AnonymizationVerifier.count_body. by rewrite Hv.
  - unfold le16, le32.
    pose proof (byte_to_Z_range b2). pose proof (byte_to_Z_range b3).
    Z.div_mod_to_equations. lia.
  - eexists. split_and!; vm_compute; reflexivity.
Qed.

Lemma sections_loop_stuck (hdr rest : list byte) (i0 i1 v pr : byte) :
  length hdr = 6%nat -> le16 i0 i1 <> 0 -> (3 <= length rest)%nat ->
  forall fuel reader,
    SCPReader.data reader
    = hdr ++ [i0; i1; x00; x00; x00; x00; v; pr] ++ rest ->
    while_loop SCPReader.sections_cond SCPReader.sections_body fuel
      (SCPReader.mkWalk reader 6) = None.
Proof.
  intros Hhdr Hid Hrest.
  induction fuel as [|fuel IH]; intros reader Hd; [done|].
  cbn [while_loop].
  assert (SCPReader.sections_cond (SCPReader.mkWalk reader 6) = true) as ->.
  { unfold SCPReader.sections_cond. simpl. rewrite Hd, !len_app.
    apply Z.ltb_lt. unfold len. simpl. lia. }
  pose proof (sections_body_at hdr rest i0 i1 x00 x00 x00 x00 v pr reader Hd)
    as Hb.
  replace (len hdr) with 6 in Hb by (unfold len; lia).
  destruct (Z.eqb_spec (le16 i0 i1) 0); [done|].
  destruct Hb as (reader' & -> & Hd' & _).
  change (6 + le32 x00 x00 x00 x00) with 6.
  apply IH. congruence.
Qed.

(** C4 fails on the code: when the first section header of a file has a
    nonzero id and the declared size 0, the reader's walk adds 0 to its
    pointer and reads the same header again in every round: no amount of
    fuel lets [read_file] return. *)
Theorem reader_walk_stuck (hdr rest : list byte) (i0 i1 v pr : byte) :
  length hdr = 6%nat -> le16 i0 i1 <> 0 -> (3 <= length rest)%nat ->
  forall fuel,
    SCPReader.read_file fuel
      (hdr ++ [i0; i1; x00; x00; x00; x00; v; pr] ++ rest) = OutOfFuel.
Proof.
  intros Hhdr Hid Hrest fuel.
  unfold SCPReader.read_file, SCPReader._parse_sections. cbv zeta.
  rewrite (sections_loop_stuck hdr rest i0 i1 v pr Hhdr Hid Hrest) by done.
  destruct hdr as [|h0 [|h1 [|h2 [|h3 [|h4 [|h5 [|? ?]]]]]]]; try done.
Qed.

Lemma reader_walk_stuck_witness :
  (forall fuel, SCPReader.read_file fuel stuck_file = OutOfFuel) /\
  AnonymizationVerifier._find_section stuck_file 2 = Some None /\
  AnonymizationVerifier.count_sections stuck_file = Some 0 /\
  is_Some (SCPAnonymizer.anonymize None stuck_file).
Proof.
  split; [|split_and!; vm_compute; try reflexivity; by eexists].
  apply (reader_walk_stuck (bytes_of [0; 0; 17; 0; 0; 0]) (bytes_of [0; 0; 0])
           x02 x00 x01 x01).
  - reflexivity.
  - vm_compute. discriminate.
  - vm_compute. lia.
Defined.

(** ** Delta decoding *)

Lemma cumulative_snoc running deltas delta :
  cumulative running (deltas ++ [delta])
  = cumulative running deltas
    ++ [default running (last (cumulative running deltas)) + delta].
Proof.
  revert running. induction deltas as [|x deltas IH]; intros running; [done|].
  cbn [app cumulative]. rewrite IH. cbn [app]. do 3 f_equal.
  destruct (cumulative (running + x) deltas) as [|y ys] eqn:E; [done|].
  rewrite last_cons_cons.
  by destruct (last (y :: ys)) eqn:E'; [|apply last_None in E'].
Qed.

Lemma last_delta_decode reference deltas :
  last (delta_decode reference deltas)
  = Some (default reference (last (cumulative reference deltas))).
Proof.
  unfold delta_decode.
  destruct (cumulative reference deltas) as [|y ys]; [done|].
  rewrite last_cons_cons. by destruct (last (y :: ys)) eqn:E;
    [|apply last_None in E].
Qed.

Lemma slice_one d i b :
  d !! Z.to_nat i = Some b -> 0 <= i -> slice d i (i + 1) = [b].
Proof.
  intros Hl Hi. unfold slice. rewrite (drop_S _ _ _ Hl).
  replace (Z.to_nat (i + 1) - Z.to_nat i)%nat with 1%nat by lia. done.
Qed.

(** The loop over the deltas of one lead, after [k] rounds *)
Lemma delta_rounds (front deltas post : list byte) (reference : Z) (k : nat) :
  (k <= length deltas)%nat ->
  for_range (Z.of_nat k) (SCPReader.delta_body (front ++ deltas ++ post))
    (len front, [reference])
  = Some (len front + Z.of_nat k,
          delta_decode reference (map signed8 (take k deltas))).
Proof.
  unfold for_range. rewrite Nat2Z.id.
  induction k as [|k IH]; intros Hk.
  - simpl. by rewrite Z.add_0_r.
  - rewrite Nat.iter_succ, IH by lia. cbn [mbind option_bind].
    destruct (lookup_lt_is_Some_2 deltas k ltac:(lia)) as [dk Hdk].
    unfold SCPReader.delta_body.
    assert ((len front + Z.of_nat k <? len (front ++ deltas ++ post)) = true)
      as ->.
    { apply Z.ltb_lt. rewrite !len_app. unfold len. lia. }
    rewrite <- Z.add_assoc, slice_app_after by lia.
    rewrite (slice_one _ _ dk);
      [|by rewrite Nat2Z.id, lookup_app_l, Hdk by lia|lia].
    cbn [unpack_b mbind option_bind]. cbv zeta.
    fold (signed8 dk).
    rewrite last_delta_decode.
    rewrite (take_S_r _ _ _ Hdk), map_app. cbn [map].
    unfold delta_decode. rewrite cumulative_snoc.
    do 2 f_equal. lia.
Qed.




(** ** What the anonymizer leaves and what it should not touch *)

(** A round of the tag walk at a tag that is not in [sensitive_tags]
    moves the pointer and nothing else. *)
Lemma tags_body_not_sensitive s tag tag_length :
  tag_header s = Some (tag, tag_length) ->
  tag <> 255 ->
  SCPAnonymizer.sensitive_name tag = None ->
  SCPAnonymizer.tags_body s
  = Next (SCPAnonymizer.mkTags (SCPAnonymizer.tag_self s)
            (SCPAnonymizer.tag_pointer s + (3 + tag_length))).
Proof.
  intros (b & Hi & Hb & Hu & _)%tag_header_Some Hne Hs.
  unfold SCPAnonymizer.tags_body. cbv zeta. rewrite Hi, Hb, Hu, Hs.
  by destruct (Z.eqb_spec tag 255).
Qed.

(** C1 fails on the code: [signal_file] has a well-formed Section 6, the
    26 bytes from offset 44 on, whose two raw samples are the bytes of the
    text [test]; the file-wide replacement of [test] by [ANON] rewrites
    these four bytes, and the reader recovers the waveform [25972, 29811]
    from the input and [20033, 20047] from the output. *)
Theorem signal_section_rewritten :
  exists out r r',
    SCPAnonymizer.anonymize (Some "ANON000001"%string) signal_file = Some out /\
    SCPReader.read_file 100 signal_file = Returns r /\
    SCPReader.read_file 100 (SCPAnonymizer.data out) = Returns r' /\
    SCPReader.data_start <$> (SCPReader.sections r !! 6) = Some (44 + 8) /\
    SCPReader.size <$> (SCPReader.sections r !! 6) = Some 26 /\
    slice signal_file 66 70 = list_byte_of_string "test" /\
    slice (SCPAnonymizer.data out) 66 70 = list_byte_of_string "ANON" /\
    slice (SCPAnonymizer.data out) 44 70 <> slice signal_file 44 70 /\
    SCPReader.ecg_data r = Some (SCPReader.Matrix [[25972; 29811]]) /\
    SCPReader.ecg_data r' = Some (SCPReader.Matrix [[20033; 20047]]) /\
    SCPReader.leads r = ["I"%string] /\ SCPReader.leads r' = ["I"%string] /\
    SCPReader.sampling_rate r = 500 /\ SCPReader.sampling_rate r' = 500.
Proof.
  eexists _, _, _. split_and!; try (vm_compute; reflexivity).
  vm_compute. discriminate.
Qed.

(** C7 fails on the code: [SCPAnonymizer] takes an anonymous id and no
    other option, and the tag walk passes over the acquisition date (tag
    25) and the acquisition time (tag 26) as over every tag that is not in
    [sensitive_tags]; on [datetime_file] the date 2023-05-17 and the time
    14:30:15 are in the output as they were in the input, where the
    verifier's [_verify_tag] warns about both. *)
Theorem acquisition_datetime_kept :
  (forall s tag tag_length,
     tag_header s = Some (tag, tag_length) ->
     tag = 25 \/ tag = 26 ->
     SCPAnonymizer.tags_body s
     = Next (SCPAnonymizer.mkTags (SCPAnonymizer.tag_self s)
               (SCPAnonymizer.tag_pointer s + (3 + tag_length)))) /\
  exists out,
    SCPAnonymizer.anonymize None datetime_file = Some out /\
    slice datetime_file 14 21 = bytes_of [25; 4; 0; 7; 231; 5; 17] /\
    slice (SCPAnonymizer.data out) 14 21 = bytes_of [25; 4; 0; 7; 231; 5; 17] /\
    slice datetime_file 21 27 = bytes_of [26; 3; 0; 14; 30; 15] /\
    slice (SCPAnonymizer.data out) 21 27 = bytes_of [26; 3; 0; 14; 30; 15] /\
    unpack_be_H (bytes_of [7; 231]) = Some 2023 /\
    AnonymizationVerifier._verify_tag 2026 25 (bytes_of [7; 231; 5; 17])
    = AnonymizationVerifier.Warning /\
    AnonymizationVerifier._verify_tag 2026 26 (bytes_of [14; 30; 15])
    = AnonymizationVerifier.Warning /\
    AnonymizationVerifier._verify_tag 2026 25 (pack_be_H 2000 ++ [x01; x01])
    = AnonymizationVerifier.Clean.
Proof.
  split.
  - intros s tag tag_length Hh [-> | ->];
      (eapply tags_body_not_sensitive; [exact Hh|done|done]).
  - eexists. split_and!; vm_compute; reflexivity.
Qed.

Lemma acquisition_datetime_kept_witness :
  SCPAnonymizer.tags_body
    (SCPAnonymizer.mkTags
       (SCPAnonymizer.read_file (SCPAnonymizer.init None) datetime_file) 14)
  = Next (SCPAnonymizer.mkTags
            (SCPAnonymizer.read_file (SCPAnonymizer.init None) datetime_file)
            (14 + (3 + 4))).
Proof.
  apply (proj1 acquisition_datetime_kept
           (SCPAnonymizer.mkTags
              (SCPAnonymizer.read_file (SCPAnonymizer.init None)
                 datetime_file) 14) 25 4).
  - vm_compute. reflexivity.
  - left. reflexivity.
Defined.

(** C8 fails on the code: the tag walk passes over the physician (tag 21)
    and the technician (tag 22) as over every tag that is not in
    [sensitive_tags]; on [physician_file] both names are in the output as
    they were in the input, where the verifier's [_verify_tag] raises an
    issue for each. *)
Theorem physician_technician_kept :
  (forall s tag tag_length,
     tag_header s = Some (tag, tag_length) ->
     tag = 21 \/ tag = 22 ->
     SCPAnonymizer.tags_body s
     = Next (SCPAnonymizer.mkTags (SCPAnonymizer.tag_self s)
               (SCPAnonymizer.tag_pointer s + (3 + tag_length)))) /\
  exists out,
    SCPAnonymizer.anonymize None physician_file = Some out /\
    slice physician_file 14 22
    = bytes_of [21; 5; 0] ++ list_byte_of_string "House" /\
    slice (SCPAnonymizer.data out) 14 22
    = bytes_of [21; 5; 0] ++ list_byte_of_string "House" /\
    slice physician_file 22 30
    = bytes_of [22; 5; 0] ++ list_byte_of_string "Chase" /\
    slice (SCPAnonymizer.data out) 22 30
    = bytes_of [22; 5; 0] ++ list_byte_of_string "Chase" /\
    AnonymizationVerifier._verify_tag 2026 21 (list_byte_of_string "House")
    = AnonymizationVerifier.Issue /\
    AnonymizationVerifier._verify_tag 2026 22 (list_byte_of_string "Chase")
    = AnonymizationVerifier.Issue /\
    AnonymizationVerifier._verify_tag 2026 21 (bytes_of [0; 0; 0; 0; 0])
    = AnonymizationVerifier.Clean.
Proof.
  split.
  - intros s tag tag_length Hh [-> | ->];
      (eapply tags_body_not_sensitive; [exact Hh|done|done]).
  - eexists. split_and!; vm_compute; reflexivity.
Qed.

Lemma physician_technician_kept_witness :
  SCPAnonymizer.tags_body
    (SCPAnonymizer.mkTags
       (SCPAnonymizer.read_file (SCPAnonymizer.init None) physician_file) 14)
  = Next (SCPAnonymizer.mkTags
            (SCPAnonymizer.read_file (SCPAnonymizer.init None) physician_file)
            (14 + (3 + 5))).
Proof.
  apply (proj1 physician_technician_kept
           (SCPAnonymizer.mkTags
              (SCPAnonymizer.read_file (SCPAnonymizer.init None)
                 physician_file) 14) 21 5).
  - vm_compute. reflexivity.
  - left. reflexivity.
Defined.

(** * Further properties of the anonymizer *)

Lemma slice_assign_front d b v :
  0 <= b -> slice_assign d 0 b v = v ++ drop (Z.to_nat b) d.
Proof.
  intros. unfold slice_assign. by rewrite Z.max_r by lia.
Qed.

(** X1: [update_crc] returns on every buffer, however short, and leaves
    a buffer whose first two bytes are the little-endian CRC of the bytes
    from offset 2 on; these bytes are the ones it found there. *)
Theorem update_crc_establishes_crc self :
  exists out,
    SCPAnonymizer.update_crc self = Some out /\
    slice_from (SCPAnonymizer.data out) 2
    = slice_from (SCPAnonymizer.data self) 2 /\
    unpack_le_H (slice (SCPAnonymizer.data out) 0 2)
    = Some (calculate_crc_ccitt (slice_from (SCPAnonymizer.data out) 2)) /\
    SCPAnonymizer.changes_made out
    = SCPAnonymizer.changes_made self
      ++ [SCPAnonymizer.UpdatedCrc
            (calculate_crc_ccitt (slice_from (SCPAnonymizer.data self) 2))].
Proof.
  destruct (update_crc_total self) as [out Hout]. exists out.
  split; [done|].
  unfold SCPAnonymizer.update_crc in Hout. cbv zeta in Hout.
  destruct (pack_le_H _) as [crc_bytes|] eqn:Hcrc; [|done].
  simpl in Hout. injection Hout as <-. simpl.
  pose proof (pack_le_H_length _ _ Hcrc) as Hl.
  rewrite slice_assign_front by lia.
  assert (slice_from (crc_bytes ++ drop (Z.to_nat 2) (SCPAnonymizer.data self)) 2
          = slice_from (SCPAnonymizer.data self) 2) as Hfrom.
  { unfold slice_from. by rewrite drop_app_length' by lia. }
  split_and!; [done| |done].
  rewrite Hfrom.
  assert (slice (crc_bytes ++ drop (Z.to_nat 2) (SCPAnonymizer.data self)) 0 2
          = crc_bytes) as ->.
  { unfold slice. rewrite drop_0.
    by rewrite take_app_length' by (change (Z.to_nat 0) with O; lia). }
  by apply unpack_pack_le_H.
Qed.

(** X2: [anonymize] never shortens a file: when it returns, the output is
    at least as long as the input. *)
Theorem anonymize_never_shortens anonymous_id file out :
  SCPAnonymizer.anonymize anonymous_id file = Some out ->
  len file <= len (SCPAnonymizer.data out).
Proof.
  unfold SCPAnonymizer.anonymize, SCPAnonymizer.save_anonymized. cbv zeta.
  destruct (SCPAnonymizer.anonymize_patient_data _) as [redacted|] eqn:Hred;
    [|done].
  apply anonymize_patient_data_grows in Hred as [Hgrow _]. simpl in Hgrow.
  simpl. unfold SCPAnonymizer.update_file_size. cbv zeta.
  destruct (pack_le_I _) as [size_bytes|] eqn:Hsize; [|done]. simpl.
  unfold SCPAnonymizer.update_crc. cbv zeta. simpl.
  destruct (pack_le_H _) as [crc_bytes|] eqn:Hcrc; [|done]. simpl.
  intros [= <-]. simpl.
  pose proof (pack_le_I_length _ _ Hsize).
  pose proof (pack_le_H_length _ _ Hcrc).
  etrans; [exact Hgrow|].
  etrans; [|apply len_slice_assign_ge; unfold len; lia].
  apply len_slice_assign_ge; unfold len; lia.
Qed.

Lemma anonymize_never_shortens_witness :
  exists out,
    SCPAnonymizer.anonymize None truncated_name_file = Some out /\
    len truncated_name_file <= len (SCPAnonymizer.data out).
Proof.
  destruct (SCPAnonymizer.anonymize None truncated_name_file) as [out|] eqn:E;
    [|vm_compute in E; discriminate].
  exists out. split; [reflexivity|].
  exact (anonymize_never_shortens _ _ _ E).
Defined.

Lemma slice_assign_same d a b :
  0 <= a -> a <= b -> b <= len d -> slice_assign d a b (slice d a b) = d.
Proof.
  intros. unfold slice_assign, slice, len in *.
  rewrite Z.max_r by lia.
  rewrite <- (take_drop (Z.to_nat a) d) at 4. f_equal.
  rewrite <- (take_drop (Z.to_nat b - Z.to_nat a) (drop (Z.to_nat a) d)) at 2.
  f_equal. rewrite drop_drop. f_equal. lia.
Qed.

Lemma save_anonymized_bytes self out :
  6 <= len (SCPAnonymizer.data self) ->
  SCPAnonymizer.save_anonymized self = Some out ->
  len (SCPAnonymizer.data out) = len (SCPAnonymizer.data self) /\
  pack_le_I (len (SCPAnonymizer.data out))
  = Some (slice (SCPAnonymizer.data out) 2 6) /\
  pack_le_H (calculate_crc_ccitt (slice_from (SCPAnonymizer.data out) 2))
  = Some (slice (SCPAnonymizer.data out) 0 2) /\
  slice_from (SCPAnonymizer.data out) 6 = slice_from (SCPAnonymizer.data self) 6 /\
  SCPAnonymizer.anonymous_id out = SCPAnonymizer.anonymous_id self.
Proof.
  intros Hlen. unfold SCPAnonymizer.save_anonymized,
    SCPAnonymizer.update_file_size. cbv zeta.
  destruct (pack_le_I _) as [size_bytes|] eqn:Hsize; [|done]. simpl.
  unfold SCPAnonymizer.update_crc. cbv zeta. simpl.
  destruct (pack_le_H _) as [crc_bytes|] eqn:Hcrc; [|done]. simpl.
  intros [= <-]. simpl.
  set (d := SCPAnonymizer.data self) in *.
  set (d1 := slice_assign d 2 6 size_bytes) in *.
  assert (len size_bytes = 4) as Hz4
    by (pose proof (pack_le_I_length _ _ Hsize); unfold len; lia).
  assert (len crc_bytes = 2) as Hz2
    by (pose proof (pack_le_H_length _ _ Hcrc); unfold len; lia).
  assert (len d1 = len d) as Hd1
    by (unfold d1; rewrite len_slice_assign by lia; lia).
  assert (len (slice_assign d1 0 2 crc_bytes) = len d) as Hd2
    by (rewrite len_slice_assign by lia; lia).
  split_and!; [done| | | |done].
  - rewrite Hd2, Hsize. f_equal.
    rewrite slice_of_slice_from by lia.
    rewrite (slice_from_slice_assign_before d1 0 2) by lia.
    rewrite <- slice_of_slice_from by lia.
    symmetry. apply slice_slice_assign_same; lia.
  - rewrite slice_slice_assign_same by lia.
    by rewrite (slice_from_slice_assign_before d1 0 2) by lia.
  - rewrite (slice_from_slice_assign_before d1 0 2) by lia.
    unfold d1. by rewrite (slice_from_slice_assign_before d 2 6) by lia.
Qed.

(** X3: on a buffer of at least six bytes [save_anonymized] keeps the
    length and every byte from offset 6 on, and saving the saved buffer
    again changes no byte. *)
Theorem save_anonymized_idempotent self out :
  6 <= len (SCPAnonymizer.data self) ->
  SCPAnonymizer.save_anonymized self = Some out ->
  len (SCPAnonymizer.data out) = len (SCPAnonymizer.data self) /\
  slice_from (SCPAnonymizer.data out) 6
  = slice_from (SCPAnonymizer.data self) 6 /\
  exists again,
    SCPAnonymizer.save_anonymized out = Some again /\
    SCPAnonymizer.data again = SCPAnonymizer.data out.
Proof.
  intros Hlen Hsave.
  destruct (save_anonymized_bytes _ _ Hlen Hsave)
    as (Hl & Hsize & Hcrc & Hrest & _).
  split_and!; [done|done|].
  unfold SCPAnonymizer.save_anonymized, SCPAnonymizer.update_file_size.
  cbv zeta. rewrite Hsize. simpl.
  rewrite slice_assign_same by lia.
  unfold SCPAnonymizer.update_crc. cbv zeta. simpl. rewrite Hcrc. simpl.
  eexists. split; [done|]. simpl. apply slice_assign_same; lia.
Qed.

Lemma save_anonymized_idempotent_witness :
  exists out again,
    SCPAnonymizer.save_anonymized
      (SCPAnonymizer.read_file (SCPAnonymizer.init None) scenario_file)
    = Some out /\
    SCPAnonymizer.save_anonymized out = Some again /\
    SCPAnonymizer.data again = SCPAnonymizer.data out.
Proof.
  destruct (SCPAnonymizer.save_anonymized
              (SCPAnonymizer.read_file (SCPAnonymizer.init None) scenario_file))
    as [out|] eqn:E; [|vm_compute in E; discriminate].
  assert (6 <= len (SCPAnonymizer.data
                      (SCPAnonymizer.read_file (SCPAnonymizer.init None)
                         scenario_file))) as Hlen
    by (vm_compute; discriminate).
  destruct (save_anonymized_idempotent _ out Hlen E)
    as (_ & _ & again & Hagain & Hdata).
  exists out, again. split; [reflexivity|]. split; [exact Hagain|exact Hdata].
Defined.

(** A round of the tag walk either keeps the length of the buffer, or
    lengthens it by less than 65536 bytes and leaves its pointer within
    three bytes of the former end. *)
Lemma tags_body_growth s :
  let d := SCPAnonymizer.data (SCPAnonymizer.tag_self s) in
  let s' := ctl_state (SCPAnonymizer.tags_body s) in
  let d' := SCPAnonymizer.data (SCPAnonymizer.tag_self s') in
  SCPAnonymizer.tag_pointer s + 3 < len d ->
  len d' = len d \/
  (len d - 3 <= SCPAnonymizer.tag_pointer s' /\
   len d < len d' /\ len d' < len d + 65535).
Proof.
  destruct s as [[d aid ch] p]. cbv zeta. unfold SCPAnonymizer.tags_body.
  cbn [SCPAnonymizer.tag_self SCPAnonymizer.tag_pointer SCPAnonymizer.data
       SCPAnonymizer.anonymous_id].
  unfold SCPAnonymizer.tag_except. intros Hp3.
  destruct (index d p) as [tag|] eqn:Hi; [|by left].
  pose proof (index_Some _ _ _ Hi) as Hp.
  cbv zeta.
  destruct (byte_to_Z tag =? 255); [by left|].
  destruct (unpack_le_H _) as [tl|] eqn:Hu; [|by left].
  pose proof (unpack_le_H_range _ _ Hu) as Htl.
  destruct (SCPAnonymizer.sensitive_name _) as [name|]; [|by left].
  assert (forall v, len v = tl ->
            let d' := slice_assign d (p + 3) (Z.min (p + 3 + tl) (len d)) v in
            len d' = len d \/
            (len d - 3 <= p + (3 + tl) /\ len d < len d' /\
             len d' < len d + 65535)) as Hcase.
  { intros v Hv. cbv zeta.
    destruct (Z.le_gt_cases (p + 3 + tl) (len d)).
    - left. rewrite Z.min_l by lia. rewrite len_slice_assign by lia. lia.
    - right. rewrite Z.min_r by lia. rewrite len_slice_assign by lia. lia. }
  destruct (byte_to_Z tag =? 2).
  { destruct (SCPAnonymizer.encode_ascii _) as [a|]; [|by left].
    simpl. apply Hcase, len_anon_bytes. lia. }
  destruct (existsb _ _).
  { simpl. apply Hcase, len_removed_bytes. lia. }
  destruct (byte_to_Z tag =? 10); [|by left].
  destruct (4 <=? tl); [|by left].
  set (d1 := slice_assign d (p + 3) (p + 3 + 2) (pack_be_H 1900)).
  assert (len (pack_be_H 1900) = 2) as Hpk by done.
  destruct (Z.le_gt_cases (p + 3 + 2) (len d)) as [Hin|Hout].
  - assert (len d1 = len d) as H1
      by (unfold d1; rewrite len_slice_assign by lia; lia).
    destruct (index_assign d1 _ _) as [d2|] eqn:H2; [|left; simpl; lia].
    pose proof (len_index_assign _ _ _ _ H2) as Hl2.
    destruct (index_assign d2 _ _) as [d3|] eqn:H3; [|left; simpl; lia].
    pose proof (len_index_assign _ _ _ _ H3) as Hl3. left. simpl. lia.
  - assert (len d1 = len d + 1) as H1.
    { unfold d1, slice_assign, len in *.
      rewrite !length_app, length_take, length_drop. simpl. lia. }
    destruct (index_assign d1 _ _) as [d2|] eqn:H2.
    + exfalso. unfold index_assign in H2.
      destruct (Z.ltb_spec (p + 3 + 2) (len d1)); [lia|].
      by rewrite andb_false_r in H2.
    + right. simpl. lia.
Qed.

Lemma _anonymize_section_1_tags_bound self start_offset length out :
  SCPAnonymizer._anonymize_section_1_tags self start_offset length = Some out ->
  len (SCPAnonymizer.data out) < len (SCPAnonymizer.data self) + 65535.
Proof.
  unfold SCPAnonymizer._anonymize_section_1_tags. cbv zeta.
  set (end_ := Z.min _ _).
  destruct (while_loop _ _ _ _) as [s|] eqn:Hrun; [|done]. intros [= <-].
  enough (len (SCPAnonymizer.data (SCPAnonymizer.tag_self s))
          = len (SCPAnonymizer.data self) \/
          (end_ - 3 <= SCPAnonymizer.tag_pointer s /\
           len (SCPAnonymizer.data (SCPAnonymizer.tag_self s))
           < len (SCPAnonymizer.data self) + 65535)) by lia.
  revert Hrun.
  apply (while_loop_inv _ _
    (fun s => len (SCPAnonymizer.data (SCPAnonymizer.tag_self s))
              = len (SCPAnonymizer.data self) \/
              (end_ - 3 <= SCPAnonymizer.tag_pointer s /\
               len (SCPAnonymizer.data (SCPAnonymizer.tag_self s))
               < len (SCPAnonymizer.data self) + 65535))); [|by left].
  intros s0 c Hinv Hc [= <-].
  unfold SCPAnonymizer.tags_cond in Hc. apply Z.ltb_lt in Hc.
  destruct Hinv as [Hl|[? _]]; [|lia].
  assert (end_ <= len (SCPAnonymizer.data self)) by (unfold end_; lia).
  destruct (tags_body_growth s0) as [Hsame|(Hp & Hlt & Hub)]; [lia| |].
  - left. lia.
  - right. lia.
Qed.

(** A loop invariant for the rounds that go on, and a postcondition for
    the two ways out of the loop. *)
Lemma while_loop_post {S : Type} (cond : S -> bool)
    (body : S -> option (ctl S)) (I Q : S -> Prop) fuel s s' :
  (forall s s1, I s -> cond s = true -> body s = Some (Next s1) -> I s1) ->
  (forall s s1, I s -> cond s = true -> body s = Some (Break s1) -> Q s1) ->
  (forall s, I s -> cond s = false -> Q s) ->
  I s -> while_loop cond body fuel s = Some s' -> Q s'.
Proof.
  intros Hnext Hbreak Hexit. revert s.
  induction fuel as [|fuel IH]; intros s Hs; simpl; [done|].
  destruct (cond s) eqn:Hc; [|intros [= <-]; by apply Hexit].
  destruct (body s) as [[s1|s1]|] eqn:Hb; [| |done].
  - intros [= <-]. by apply (Hbreak s).
  - apply IH. by apply (Hnext s).
Qed.

Lemma section_1_body_break s s1 :
  SCPAnonymizer.section_1_body s = Some (Break s1) ->
  len (SCPAnonymizer.data (SCPAnonymizer.tag_self s1))
  < len (SCPAnonymizer.data (SCPAnonymizer.tag_self s)) + 65535.
Proof.
  destruct s as [self p]. unfold SCPAnonymizer.section_1_body. simpl.
  destruct (unpack_le_H _) as [section_id|]; [|done].
  destruct (unpack_le_I _) as [section_size|]; [|done].
  destruct (_ && _).
  - destruct (SCPAnonymizer._anonymize_section_1_tags _ _ _) as [out|] eqn:E;
      [|done].
    simpl. intros [= <-]. simpl.
    by apply _anonymize_section_1_tags_bound in E.
  - by destruct (_ && _).
Qed.

Lemma _anonymize_section_1_bound self out :
  SCPAnonymizer._anonymize_section_1 self = Some out ->
  len (SCPAnonymizer.data out) < len (SCPAnonymizer.data self) + 65535.
Proof.
  unfold SCPAnonymizer._anonymize_section_1. cbv zeta.
  destruct (while_loop _ _ _ _) as [s|] eqn:Hrun; [|done]. intros [= <-].
  revert Hrun.
  apply (while_loop_post _ _
           (fun s => SCPAnonymizer.tag_self s = self /\
                     6 <= SCPAnonymizer.tag_pointer s)
           (fun s => len (SCPAnonymizer.data (SCPAnonymizer.tag_self s))
                     < len (SCPAnonymizer.data self) + 65535)).
  - intros t s1 [Hself Hp] _ Hb.
    destruct (section_1_body_facts t Hp) as (c & Hb' & _ & _ & _ & Hn).
    rewrite Hb in Hb'. injection Hb' as <-.
    destruct (Hn _ eq_refl) as [-> ?]. split; [done|lia].
  - intros t s1 [Hself Hp] _ Hb.
    apply section_1_body_break in Hb. by rewrite Hself in Hb.
  - intros t [-> _] _. lia.
  - by split.
Qed.

Lemma anonymize_patient_data_bound self out :
  SCPAnonymizer.anonymize_patient_data self = Some out ->
  len (SCPAnonymizer.data out) < len (SCPAnonymizer.data self) + 65535.
Proof.
  destruct (SCPAnonymizer.encode_ascii (SCPAnonymizer.anonymous_id self))
    as [a|] eqn:Ha.
  - destruct (anonymize_patient_data_file_wide self a Ha)
      as (self1 & -> & Hd & _).
    intros H. apply _anonymize_section_1_bound in H.
    by rewrite Hd, len_replace_fixed_ids in H.
  - by rewrite anonymize_patient_data_raises.
Qed.

(** X4: [anonymize] raises when the anonymous id has a character outside
    ASCII; with an ASCII id it returns for every file of at most
    2^32 - 65536 bytes, and its result is less than 65535 bytes longer
    than the file when the file has at least six bytes. *)
Theorem anonymize_returns_for_ascii_id anonymous_id file :
  (SCPAnonymizer.encode_ascii
     (SCPAnonymizer.anonymous_id (SCPAnonymizer.init anonymous_id)) = None ->
   SCPAnonymizer.anonymize anonymous_id file = None) /\
  (is_Some (SCPAnonymizer.encode_ascii
              (SCPAnonymizer.anonymous_id (SCPAnonymizer.init anonymous_id))) ->
   len file <= 4294967296 - 65536 ->
   exists out,
     SCPAnonymizer.anonymize anonymous_id file = Some out /\
     (6 <= len file -> len (SCPAnonymizer.data out) < len file + 65535)).
Proof.
  split.
  - intros Ha. unfold SCPAnonymizer.anonymize. cbv zeta.
    by rewrite anonymize_patient_data_raises.
  - intros Ha Hlen.
    pose proof (proj2 (anonymize_patient_data_total
                         (SCPAnonymizer.read_file
                            (SCPAnonymizer.init anonymous_id) file)) Ha)
      as [redacted Hred].
    pose proof (anonymize_patient_data_bound _ _ Hred) as Hb.
    pose proof (anonymize_patient_data_grows _ _ Hred) as [Hg _].
    simpl in Hb, Hg.
    destruct (proj2 (anonymize_returns anonymous_id file)) as [out Hout].
    { exists redacted. split; [done|lia]. }
    exists out. split; [done|]. intros H6.
    unfold SCPAnonymizer.anonymize in Hout. cbv zeta in Hout.
    rewrite Hred in Hout. simpl in Hout.
    destruct (save_anonymized_bytes redacted out ltac:(lia) Hout) as [-> _].
    done.
Qed.

Lemma anonymize_returns_for_ascii_id_witness :
  SCPAnonymizer.anonymize (Some (String (Ascii.ascii_of_nat 233) EmptyString))
    scenario_file = None /\
  exists out,
    SCPAnonymizer.anonymize (Some "ANON000001"%string) truncated_name_file
    = Some out /\
    len (SCPAnonymizer.data out) < len truncated_name_file + 65535.
Proof.
  split.
  - apply (proj1 (anonymize_returns_for_ascii_id _ _)).
    vm_compute. reflexivity.
  - destruct (proj2 (anonymize_returns_for_ascii_id
                       (Some "ANON000001"%string) truncated_name_file))
      as (out & Hout & Hb).
    + vm_compute. by eexists.
    + vm_compute. discriminate.
    + exists out. split; [exact Hout|]. apply Hb. vm_compute. discriminate.
Defined.

(** X5: for a search text that is not empty, [find_and_replace_text]
    returns; it keeps the length of the buffer, the anonymous id and the
    change log; its count is 0 exactly when the text does not occur in the
    buffer, and then the buffer is as it was. *)
Theorem find_and_replace_text_count self search_bytes replace_bytes :
  search_bytes <> [] ->
  exists out count,
    SCPAnonymizer.find_and_replace_text self search_bytes replace_bytes
    = Some (out, count) /\
    len (SCPAnonymizer.data out) = len (SCPAnonymizer.data self) /\
    SCPAnonymizer.anonymous_id out = SCPAnonymizer.anonymous_id self /\
    SCPAnonymizer.changes_made out = SCPAnonymizer.changes_made self /\
    0 <= count /\
    (count = 0 <-> find (SCPAnonymizer.data self) search_bytes 0 = -1) /\
    (count = 0 -> SCPAnonymizer.data out = SCPAnonymizer.data self).
Proof.
  intros Hne.
  destruct (find_and_replace_text_data self search_bytes replace_bytes Hne)
    as (out & count & Hrun & Hdata & Hid).
  exists out, count. split; [done|].
  split; [by rewrite Hdata, len_replace_text|]. split; [done|].
  unfold SCPAnonymizer.find_and_replace_text in Hrun.
  destruct (while_loop _ _ _ _) as [sfin|] eqn:Hloop; [|done].
  simpl in Hrun. injection Hrun as <- <-. split; [done|].
  set (d := SCPAnonymizer.data self) in *.
  enough ((SCPAnonymizer.far_count sfin = 0 /\ find d search_bytes 0 = -1 /\
           SCPAnonymizer.far_data sfin = d) \/
          (0 < SCPAnonymizer.far_count sfin /\ find d search_bytes 0 <> -1))
    as [(H0 & Hf & Hd)|[Hpos Hf]].
  { rewrite H0. split_and!; [lia|done|done]. }
  { split_and!; [lia|split; [lia|done]|lia]. }
  revert Hloop.
  apply (while_loop_post _ _
    (fun s => (SCPAnonymizer.far_count s = 0 /\ SCPAnonymizer.far_index s = 0 /\
               SCPAnonymizer.far_data s = d) \/
              (0 < SCPAnonymizer.far_count s /\ find d search_bytes 0 <> -1))
    (fun s => (SCPAnonymizer.far_count s = 0 /\ find d search_bytes 0 = -1 /\
               SCPAnonymizer.far_data s = d) \/
              (0 < SCPAnonymizer.far_count s /\ find d search_bytes 0 <> -1))).
  - intros s s1 Hinv _. rewrite far_body_eq. cbv zeta.
    destruct (Z.eqb_spec (find (SCPAnonymizer.far_data s) search_bytes
                            (SCPAnonymizer.far_index s)) (-1)); [done|].
    intros [= <-]. simpl. right.
    destruct Hinv as [(H0 & Hi & Hd)|[Hpos Hf]].
    + rewrite H0. split; [lia|]. by rewrite Hi, Hd in n.
    + split; [lia|done].
  - intros s s1 Hinv _. rewrite far_body_eq. cbv zeta.
    destruct (Z.eqb_spec (find (SCPAnonymizer.far_data s) search_bytes
                            (SCPAnonymizer.far_index s)) (-1)) as [Hm|]; [|done].
    intros [= <-]. simpl.
    destruct Hinv as [(H0 & Hi & Hd)|[Hpos Hf]].
    + left. rewrite Hi, Hd in Hm. done.
    + by right.
  - done.
  - left. by simpl.
Qed.

Lemma find_and_replace_text_count_witness :
  exists out count,
    SCPAnonymizer.find_and_replace_text
      (SCPAnonymizer.read_file (SCPAnonymizer.init None) scenario_file)
      (list_byte_of_string "Smith") (list_byte_of_string "XY")
    = Some (out, count) /\
    len (SCPAnonymizer.data out) = len scenario_file.
Proof.
  destruct (find_and_replace_text_count
              (SCPAnonymizer.read_file (SCPAnonymizer.init None) scenario_file)
              (list_byte_of_string "Smith") (list_byte_of_string "XY"))
    as (out & count & Hrun & Hlen & _).
  - vm_compute. discriminate.
  - exists out, count. split; [exact Hrun|exact Hlen].
Defined.

(** X6: with an empty search text [find_and_replace_text] never returns:
    [find] answers the index it was given, the empty slice there is
    replaced by the empty replacement, and the index does not move. *)
Theorem find_and_replace_text_empty_search (d replace_bytes : list byte)
    (fuel : nat) (count index : Z) :
  0 <= index <= len d ->
  while_loop (fun _ => true) (SCPAnonymizer.far_body [] replace_bytes) fuel
    (SCPAnonymizer.mkFar d count index) = None.
Proof.
  intros Hi. revert count.
  induction fuel as [|fuel IH]; intros count; [done|].
  cbn [while_loop]. rewrite far_body_eq. cbv zeta.
  cbn [SCPAnonymizer.far_data SCPAnonymizer.far_index SCPAnonymizer.far_count].
  assert (find d [] index = index) as ->.
  { unfold find. destruct (Z.ltb_spec (len d) index); [lia|].
    unfold slice_from. by destruct (drop (Z.to_nat index) d). }
  destruct (Z.eqb_spec index (-1)); [lia|].
  change (len []) with 0. rewrite Z.add_0_r.
  assert (slice_assign d index index (same_width [] replace_bytes) = d) as ->.
  { unfold slice_assign, same_width. simpl.
    rewrite Z.max_id. apply take_drop. }
  apply IH.
Qed.

Lemma find_and_replace_text_empty_search_witness :
  SCPAnonymizer.find_and_replace_text
    (SCPAnonymizer.read_file (SCPAnonymizer.init None) scenario_file)
    [] (list_byte_of_string "ANON") = None.
Proof.
  unfold SCPAnonymizer.find_and_replace_text.
  rewrite (find_and_replace_text_empty_search _ _ _ 0 0); [reflexivity|].
  vm_compute. split; discriminate.
Defined.

(** ** More on the tag walk *)

Lemma tags_trace_pointer self start_offset length s :
  s ∈ tags_trace self start_offset length ->
  start_offset <= SCPAnonymizer.tag_pointer s.
Proof.
  intros Hs.
  apply (while_trace_inv _ _
           (fun s => start_offset <= SCPAnonymizer.tag_pointer s)) in Hs;
    [tauto| |simpl; lia].
  intros s0 c Hp _ [= <-].
  destruct (tags_body_facts s0) as (_ & _ & Hn & Hb & _).
  destruct (SCPAnonymizer.tags_body s0) as [s1|s1]; simpl.
  - by rewrite (Hb _ eq_refl).
  - specialize (Hn _ eq_refl). lia.
Qed.

Lemma tag_walk_from_round self start_offset length s :
  0 <= start_offset ->
  s ∈ tags_trace self start_offset length ->
  exists out sfin fuel,
    SCPAnonymizer._anonymize_section_1_tags self start_offset length
    = Some out /\
    out = SCPAnonymizer.tag_self sfin /\
    tags_loop (Z.min (start_offset + length) (len (SCPAnonymizer.data self)))
      fuel s = Some sfin /\
    Z.min (start_offset + length) (len (SCPAnonymizer.data self))
    <= len (SCPAnonymizer.data (SCPAnonymizer.tag_self s)) /\
    SCPAnonymizer.tag_pointer s + 3
    < Z.min (start_offset + length) (len (SCPAnonymizer.data self)).
Proof.
  intros Hstart Hs.
  destruct (_anonymize_section_1_tags_total self start_offset length Hstart)
    as [out Hout].
  pose proof Hout as Hout'.
  unfold SCPAnonymizer._anonymize_section_1_tags in Hout'. cbv zeta in Hout'.
  destruct (while_loop _ _ _ _) as [sfin|] eqn:Hrun; [|done].
  injection Hout' as <-.
  destruct (tags_trace_inv _ _ _ _ Hs) as [[Hend _] Hc].
  unfold SCPAnonymizer.tags_cond in Hc. apply Z.ltb_lt in Hc.
  exists (SCPAnonymizer.tag_self sfin), sfin,
    (S (List.length (SCPAnonymizer.data self))).
  split_and!; [done|done| |done|lia].
  unfold tags_loop. by apply (while_trace_resume _ _ _ _ s _ Hs).
Qed.

Lemma tag_walk_after_round self start_offset length s s1 :
  0 <= start_offset ->
  s ∈ tags_trace self start_offset length ->
  SCPAnonymizer.tags_body s = Next s1 ->
  exists out sfin fuel,
    SCPAnonymizer._anonymize_section_1_tags self start_offset length
    = Some out /\
    out = SCPAnonymizer.tag_self sfin /\
    tags_loop (Z.min (start_offset + length) (len (SCPAnonymizer.data self)))
      fuel s1 = Some sfin /\
    Z.min (start_offset + length) (len (SCPAnonymizer.data self))
    <= len (SCPAnonymizer.data (SCPAnonymizer.tag_self s1)) /\
    SCPAnonymizer.tag_pointer s + 3
    < Z.min (start_offset + length) (len (SCPAnonymizer.data self)).
Proof.
  intros Hstart Hs Hb.
  destruct (tag_walk_from_round self start_offset length s Hstart Hs)
    as (out & sfin & fuel & Hout & -> & Hrun & Hend & Hc).
  exists (SCPAnonymizer.tag_self sfin), sfin, (pred fuel).
  split_and!; [done|done| | |done].
  - unfold tags_loop in *. destruct fuel as [|fuel]; [done|].
    simpl in Hrun. unfold SCPAnonymizer.tags_cond in Hrun at 1.
    destruct (Z.ltb_spec (SCPAnonymizer.tag_pointer s)
                (Z.min (start_offset + length)
                   (len (SCPAnonymizer.data self)) - 3)); [|lia].
    by rewrite Hb in Hrun.
  - destruct (tags_body_facts s) as (_ & Hl & _). rewrite Hb in Hl.
    simpl in Hl. lia.
Qed.

(** X7: the tag walk changes no byte below [start_offset + 3], and once
    a round has read the three header bytes of a tag (its id and its
    declared length) they stay as that round found them. *)
Theorem tag_headers_kept self start_offset length out :
  0 <= start_offset ->
  SCPAnonymizer._anonymize_section_1_tags self start_offset length = Some out ->
  take (Z.to_nat (start_offset + 3)) (SCPAnonymizer.data out)
  = take (Z.to_nat (start_offset + 3)) (SCPAnonymizer.data self) /\
  forall s,
    s ∈ tags_trace self start_offset length ->
    slice (SCPAnonymizer.data out) (SCPAnonymizer.tag_pointer s)
      (SCPAnonymizer.tag_pointer s + 3)
    = slice (SCPAnonymizer.data (SCPAnonymizer.tag_self s))
        (SCPAnonymizer.tag_pointer s) (SCPAnonymizer.tag_pointer s + 3).
Proof.
  intros Hstart Hout. split.
  - unfold SCPAnonymizer._anonymize_section_1_tags in Hout. cbv zeta in Hout.
    destruct (while_loop _ _ _ _) as [sfin|] eqn:Hrun; [|done].
    injection Hout as <-.
    apply (tags_loop_frame
             (Z.min (start_offset + length) (len (SCPAnonymizer.data self)))
             (S (List.length (SCPAnonymizer.data self)))
             (SCPAnonymizer.mkTags self start_offset) sfin
             (Z.to_nat (start_offset + 3))); [simpl; lia|simpl; lia|done].
  - intros s Hs.
    destruct (tag_walk_from_round self start_offset length s Hstart Hs)
      as (out' & sfin & fuel & Hout' & -> & Hrun & Hend & Hc).
    rewrite Hout in Hout'. injection Hout' as ->.
    pose proof (tags_trace_pointer _ _ _ _ Hs) as Hp.
    rewrite <- (slice_take _ _ _
                  (Z.to_nat (SCPAnonymizer.tag_pointer s + 3))) by lia.
    rewrite (tags_loop_frame _ fuel s sfin
               (Z.to_nat (SCPAnonymizer.tag_pointer s + 3)) Hend
               ltac:(lia) Hrun).
    by rewrite slice_take by lia.
Qed.


Lemma tag_headers_kept_witness :
  exists out,
    SCPAnonymizer._anonymize_section_1_tags
      (SCPAnonymizer.read_file (SCPAnonymizer.init None) scenario_file) 14 36
    = Some out /\
    take 17 (SCPAnonymizer.data out) = take 17 scenario_file.
Proof.
  destruct (SCPAnonymizer._anonymize_section_1_tags
              (SCPAnonymizer.read_file (SCPAnonymizer.init None) scenario_file)
              14 36) as [out|] eqn:E; [|vm_compute in E; discriminate].
  exists out. split; [reflexivity|].
  exact (proj1 (tag_headers_kept _ 14 36 out ltac:(lia) E)).
Defined.

Lemma anon_bytes_eq a tag_length :
  0 <= tag_length ->
  SCPAnonymizer.anon_bytes a tag_length
  = take (Z.to_nat tag_length) a
    ++ replicate (Z.to_nat tag_length - length a) x00.
Proof.
  intros. unfold SCPAnonymizer.anon_bytes. cbv zeta.
  rewrite bytes_repeat_single. unfold slice, len.
  rewrite drop_0, length_take. change (Z.to_nat 0) with O.
  rewrite Nat.sub_0_r. do 2 f_equal. lia.
Qed.

(** X8: a patient-ID tag (2) that the tag walk meets with its value within
    the buffer has, when the walk returns, the ASCII anonymous id as its
    value: cut to the declared length when it is longer, followed by NUL
    bytes up to the declared length when it is shorter. *)
Theorem patient_id_overwritten self start_offset length s tag_length
    anon_ascii :
  0 <= start_offset ->
  s ∈ tags_trace self start_offset length ->
  tag_header s = Some (2, tag_length) ->
  SCPAnonymizer.encode_ascii (SCPAnonymizer.anonymous_id self)
  = Some anon_ascii ->
  SCPAnonymizer.tag_pointer s + 3 + tag_length
  <= len (SCPAnonymizer.data (SCPAnonymizer.tag_self s)) ->
  exists out,
    SCPAnonymizer._anonymize_section_1_tags self start_offset length
    = Some out /\
    slice (SCPAnonymizer.data out) (SCPAnonymizer.tag_pointer s + 3)
      (SCPAnonymizer.tag_pointer s + 3 + tag_length)
    = take (Z.to_nat tag_length) anon_ascii
      ++ replicate (Z.to_nat tag_length - List.length anon_ascii) x00.
Proof.
  intros Hstart Hs Hh Ha Hin.
  destruct (tag_header_Some _ _ _ Hh) as (_ & _ & _ & _ & Htl & _).
  rewrite <- anon_bytes_eq by done.
  apply (tag_walk_in_range self start_offset length Hstart s Hs 2 tag_length);
    [done| |done].
  unfold replacement_of. change (2 =? 2) with true. cbv iota.
  by rewrite Ha.
Qed.

Lemma patient_id_overwritten_witness :
  exists out,
    SCPAnonymizer._anonymize_section_1_tags
      (SCPAnonymizer.read_file (SCPAnonymizer.init (Some "ID7"%string))
         scenario_file) 14 36
    = Some out /\
    slice (SCPAnonymizer.data out) 17 26
    = list_byte_of_string "ID7" ++ replicate 6 x00.
Proof.
  set (self := SCPAnonymizer.read_file (SCPAnonymizer.init (Some "ID7"%string))
                 scenario_file).
  destruct (patient_id_overwritten self 14 36 (SCPAnonymizer.mkTags self 14) 9
              (list_byte_of_string "ID7")) as (out & Hout & Hv).
  - lia.
  - apply list_elem_of_In. vm_compute. left. reflexivity.
  - vm_compute. reflexivity.
  - vm_compute. reflexivity.
  - vm_compute. discriminate.
  - exists out. split; [exact Hout|exact Hv].
Defined.

(** X9: a tag that is neither the terminator nor one of the redacted tags
    (2, 6, 7, 8, 9, 10) and lies within the buffer is, when the tag walk
    returns, byte for byte as the round that met it found it: its id, its
    length and its value. *)
Theorem other_tags_kept self start_offset length s tag tag_length :
  0 <= start_offset ->
  s ∈ tags_trace self start_offset length ->
  tag_header s = Some (tag, tag_length) ->
  tag <> 255 ->
  SCPAnonymizer.sensitive_name tag = None ->
  SCPAnonymizer.tag_pointer s + 3 + tag_length
  <= len (SCPAnonymizer.data (SCPAnonymizer.tag_self s)) ->
  exists out,
    SCPAnonymizer._anonymize_section_1_tags self start_offset length
    = Some out /\
    slice (SCPAnonymizer.data out) (SCPAnonymizer.tag_pointer s)
      (SCPAnonymizer.tag_pointer s + 3 + tag_length)
    = slice (SCPAnonymizer.data (SCPAnonymizer.tag_self s))
        (SCPAnonymizer.tag_pointer s)
        (SCPAnonymizer.tag_pointer s + 3 + tag_length).
Proof.
  intros Hstart Hs Hh Hne Hsens Hin.
  pose proof (tags_body_not_sensitive s tag tag_length Hh Hne Hsens) as Hb.
  destruct (tag_walk_after_round self start_offset length s _ Hstart Hs Hb)
    as (out & sfin & fuel & Hout & -> & Hrun & Hend & Hc).
  destruct (tag_header_Some _ _ _ Hh) as (_ & _ & _ & _ & Htl & _).
  pose proof (tags_trace_pointer _ _ _ _ Hs) as Hp.
  exists (SCPAnonymizer.tag_self sfin). split; [done|].
  rewrite <- (slice_take _ _ _
                (Z.to_nat (SCPAnonymizer.tag_pointer s + 3 + tag_length)))
    by lia.
  rewrite (tags_loop_frame _ fuel _ sfin
             (Z.to_nat (SCPAnonymizer.tag_pointer s + 3 + tag_length)) Hend
             ltac:(simpl; lia) Hrun).
  simpl. by rewrite slice_take by lia.
Qed.

Lemma other_tags_kept_witness :
  exists out,
    SCPAnonymizer._anonymize_section_1_tags
      (SCPAnonymizer.read_file (SCPAnonymizer.init None) physician_file) 14 19
    = Some out /\
    slice (SCPAnonymizer.data out) 14 22 = slice physician_file 14 22.
Proof.
  set (self := SCPAnonymizer.read_file (SCPAnonymizer.init None)
                 physician_file).
  destruct (other_tags_kept self 14 19 (SCPAnonymizer.mkTags self 14) 21 5)
    as (out & Hout & Hv).
  - lia.
  - apply list_elem_of_In. vm_compute. left. reflexivity.
  - vm_compute. reflexivity.
  - discriminate.
  - vm_compute. reflexivity.
  - vm_compute. discriminate.
  - exists out. split; [exact Hout|exact Hv].
Defined.

Lemma slice_assign_app A R k v :
  0 <= k ->
  slice_assign (A ++ R) (len A) (len A + k) v = A ++ v ++ drop (Z.to_nat k) R.
Proof.
  intros. unfold slice_assign, len. rewrite Z.max_r by lia.
  rewrite Nat2Z.id, take_app_length. do 2 f_equal.
  replace (Z.to_nat (Z.of_nat (List.length A) + k))
    with (List.length A + Z.to_nat k)%nat by lia.
  by rewrite drop_app_add'.
Qed.

Lemma index_assign_app A R (i : nat) b :
  (i < List.length R)%nat ->
  index_assign (A ++ R) (len A + Z.of_nat i) b = Some (A ++ <[i := b]> R).
Proof.
  intros. unfold index_assign. rewrite len_app. unfold len.
  destruct (Z.leb_spec 0 (Z.of_nat (List.length A) + Z.of_nat i)); [|lia].
  destruct (Z.ltb_spec (Z.of_nat (List.length A) + Z.of_nat i)
              (Z.of_nat (List.length A) + Z.of_nat (List.length R))); [|lia].
  simpl. f_equal.
  replace (Z.to_nat (Z.of_nat (List.length A) + Z.of_nat i))
    with (List.length A + i)%nat by lia.
  by rewrite insert_app_r.
Qed.

(** A round at a date-of-birth tag of declared length at least 4 with
    four bytes of value in the buffer writes 1900-01-01 over them. *)
Lemma tags_body_dob s tag_length :
  tag_header s = Some (10, tag_length) ->
  4 <= tag_length ->
  SCPAnonymizer.tag_pointer s + 3 + 4
  <= len (SCPAnonymizer.data (SCPAnonymizer.tag_self s)) ->
  exists self',
    SCPAnonymizer.tags_body s
    = Next (SCPAnonymizer.mkTags self'
              (SCPAnonymizer.tag_pointer s + (3 + tag_length))) /\
    SCPAnonymizer.data self'
    = slice_assign (SCPAnonymizer.data (SCPAnonymizer.tag_self s))
        (SCPAnonymizer.tag_pointer s + 3) (SCPAnonymizer.tag_pointer s + 3 + 4)
        [x07; x6c; x01; x01].
Proof.
  intros (b & Hi & Hb & Hu & Htl)%tag_header_Some H4 Hin.
  pose proof (index_Some _ _ _ Hi) as Hp.
  unfold SCPAnonymizer.tags_body. cbv zeta. rewrite Hi, Hb, Hu.
  change (10 =? 255) with false. cbv iota.
  change (SCPAnonymizer.sensitive_name 10) with (Some "Date of birth"%string).
  cbv iota. change (10 =? 2) with false.
  change (existsb (Z.eqb 10) [6; 7; 8; 9]) with false.
  change (10 =? 10) with true. cbv iota.
  destruct (Z.leb_spec 4 tag_length); [|lia].
  set (d := SCPAnonymizer.data (SCPAnonymizer.tag_self s)) in *.
  set (p := SCPAnonymizer.tag_pointer s) in *.
  set (A := take (Z.to_nat (p + 3)) d).
  assert (len A = p + 3) as HA
    by (unfold A, len in *; rewrite length_take; lia).
  destruct (drop (Z.to_nat (p + 3)) d) as [|x0 [|x1 [|x2 [|x3 B]]]] eqn:HR;
    try (apply (f_equal List.length) in HR; rewrite length_drop in HR;
         unfold len in *; simpl in HR; lia).
  assert (d = A ++ [x0; x1; x2; x3] ++ B) as Hd
    by (unfold A; cbn [app]; rewrite <- HR; by rewrite take_drop).
  rewrite Hd, <- HA.
  rewrite (slice_assign_app A _ 2) by lia.
  change (drop (Z.to_nat 2) ([x0; x1; x2; x3] ++ B)) with (x2 :: x3 :: B).
  change (pack_be_H 1900 ++ x2 :: x3 :: B) with (x07 :: x6c :: x2 :: x3 :: B).
  rewrite (index_assign_app A _ 2) by (simpl; lia).
  cbn [list_insert insert].
  replace (len A + 3) with (len A + Z.of_nat 3) by lia.
  rewrite (index_assign_app A _ 3) by (simpl; lia).
  eexists. split; [done|]. simpl.
  rewrite (slice_assign_app A _ 4) by lia. done.
Qed.

Lemma tags_body_dob_short s tag_length :
  tag_header s = Some (10, tag_length) ->
  tag_length < 4 ->
  SCPAnonymizer.tags_body s
  = Next (SCPAnonymizer.mkTags (SCPAnonymizer.tag_self s)
            (SCPAnonymizer.tag_pointer s + (3 + tag_length))).
Proof.
  intros (b & Hi & Hb & Hu & Htl)%tag_header_Some H4.
  unfold SCPAnonymizer.tags_body. cbv zeta. rewrite Hi, Hb, Hu.
  change (10 =? 255) with false. cbv iota.
  change (SCPAnonymizer.sensitive_name 10) with (Some "Date of birth"%string).
  cbv iota. change (10 =? 2) with false.
  change (existsb (Z.eqb 10) [6; 7; 8; 9]) with false.
  change (10 =? 10) with true. cbv iota.
  by destruct (Z.leb_spec 4 tag_length); [lia|].
Qed.

(** X10: a date-of-birth tag (10) that the tag walk meets with a declared
    length of at least 4 and four bytes of value in the buffer has, when
    the walk returns, the date 1900-01-01 (year big-endian, month, day) in
    these four bytes, and the rest of its value as it was; with a declared
    length below 4 the tag is left as it was. *)
Theorem date_of_birth_overwritten self start_offset length s tag_length :
  0 <= start_offset ->
  s ∈ tags_trace self start_offset length ->
  tag_header s = Some (10, tag_length) ->
  (4 <= tag_length ->
   SCPAnonymizer.tag_pointer s + 3 + 4
   <= len (SCPAnonymizer.data (SCPAnonymizer.tag_self s)) ->
   exists out,
     SCPAnonymizer._anonymize_section_1_tags self start_offset length
     = Some out /\
     slice (SCPAnonymizer.data out) (SCPAnonymizer.tag_pointer s + 3)
       (SCPAnonymizer.tag_pointer s + 3 + 4)
     = pack_be_H 1900 ++ [x01; x01] /\
     (SCPAnonymizer.tag_pointer s + 3 + tag_length
      <= len (SCPAnonymizer.data (SCPAnonymizer.tag_self s)) ->
      slice (SCPAnonymizer.data out) (SCPAnonymizer.tag_pointer s + 3 + 4)
        (SCPAnonymizer.tag_pointer s + 3 + tag_length)
      = slice (SCPAnonymizer.data (SCPAnonymizer.tag_self s))
          (SCPAnonymizer.tag_pointer s + 3 + 4)
          (SCPAnonymizer.tag_pointer s + 3 + tag_length))) /\
  (tag_length < 4 ->
   SCPAnonymizer.tag_pointer s + 3 + tag_length
   <= len (SCPAnonymizer.data (SCPAnonymizer.tag_self s)) ->
   exists out,
     SCPAnonymizer._anonymize_section_1_tags self start_offset length
     = Some out /\
     slice (SCPAnonymizer.data out) (SCPAnonymizer.tag_pointer s)
       (SCPAnonymizer.tag_pointer s + 3 + tag_length)
     = slice (SCPAnonymizer.data (SCPAnonymizer.tag_self s))
         (SCPAnonymizer.tag_pointer s)
         (SCPAnonymizer.tag_pointer s + 3 + tag_length)).
Proof.
  intros Hstart Hs Hh.
  destruct (tag_header_Some _ _ _ Hh) as (_ & _ & _ & _ & Htl & _).
  pose proof (tags_trace_pointer _ _ _ _ Hs) as Hp.
  set (d := SCPAnonymizer.data (SCPAnonymizer.tag_self s)) in *.
  set (p := SCPAnonymizer.tag_pointer s) in *.
  split.
  - intros H4 Hin.
    destruct (tags_body_dob s tag_length Hh H4 Hin) as (self' & Hb & Hd).
    fold d p in Hb, Hd.
    destruct (tag_walk_after_round self start_offset length s _ Hstart Hs Hb)
      as (out & sfin & fuel & Hout & -> & Hrun & Hend & Hc).
    exists (SCPAnonymizer.tag_self sfin). split; [done|].
    pose proof (tags_loop_frame _ fuel _ sfin
                  (Z.to_nat (p + 3 + tag_length)) Hend
                  ltac:(simpl; lia) Hrun) as Hfr.
    simpl in Hfr. rewrite Hd in Hfr.
    split.
    + rewrite <- (slice_take _ _ _ (Z.to_nat (p + 3 + tag_length))) by lia.
      rewrite Hfr, slice_take by lia.
      rewrite slice_slice_assign_same; [done|lia|lia|lia|].
      unfold len. simpl. lia.
    + intros Hall.
      rewrite <- (slice_take _ _ _ (Z.to_nat (p + 3 + tag_length))) by lia.
      rewrite Hfr, slice_take by lia.
      rewrite (slice_of_slice_from _ (p + 3 + 4)) by lia.
      rewrite (slice_from_slice_assign_before d (p + 3) (p + 3 + 4));
        [|lia|lia|lia|lia|unfold len; simpl; lia].
      by rewrite <- slice_of_slice_from by lia.
  - intros H4 Hin.
    pose proof (tags_body_dob_short s tag_length Hh H4) as Hb.
    destruct (tag_walk_after_round self start_offset length s _ Hstart Hs Hb)
      as (out & sfin & fuel & Hout & -> & Hrun & Hend & Hc).
    exists (SCPAnonymizer.tag_self sfin). split; [done|].
    rewrite <- (slice_take _ _ _ (Z.to_nat (p + 3 + tag_length))) by lia.
    rewrite (tags_loop_frame _ fuel _ sfin
               (Z.to_nat (p + 3 + tag_length)) Hend
               ltac:(simpl; lia) Hrun).
    simpl. by rewrite slice_take by lia.
Qed.

Lemma date_of_birth_overwritten_witness :
  exists out,
    SCPAnonymizer._anonymize_section_1_tags
      (SCPAnonymizer.read_file (SCPAnonymizer.init None) truncated_dob_file)
      14 8
    = Some out /\
    slice truncated_dob_file 17 21 = bytes_of [7; 178; 5; 20] /\
    slice (SCPAnonymizer.data out) 17 21 = bytes_of [7; 108; 1; 1].
Proof.
  set (self := SCPAnonymizer.read_file (SCPAnonymizer.init None)
                 truncated_dob_file).
  destruct (proj1 (date_of_birth_overwritten self 14 8
                     (SCPAnonymizer.mkTags self 14) 40 ltac:(lia)
                     ltac:(apply list_elem_of_In; vm_compute; left;
                           reflexivity)
                     ltac:(vm_compute; reflexivity)))
    as (out & Hout & Hv & _).
  - lia.
  - vm_compute. discriminate.
  - exists out. split; [exact Hout|]. split; [reflexivity|exact Hv].
Defined.

(** ** The Section 1 locator *)

Lemma _anonymize_section_1_tags_prefix self start_offset length out (q : nat) :
  (q <= Z.to_nat (start_offset + 3))%nat ->
  SCPAnonymizer._anonymize_section_1_tags self start_offset length = Some out ->
  take q (SCPAnonymizer.data out) = take q (SCPAnonymizer.data self).
Proof.
  intros Hq Hout.
  unfold SCPAnonymizer._anonymize_section_1_tags in Hout. cbv zeta in Hout.
  destruct (while_loop _ _ _ _) as [sfin|] eqn:Hrun; [|done].
  injection Hout as <-.
  apply (tags_loop_frame
           (Z.min (start_offset + length) (len (SCPAnonymizer.data self)))
           (S (List.length (SCPAnonymizer.data self)))
           (SCPAnonymizer.mkTags self start_offset) sfin q);
    [simpl; lia|simpl; lia|done].
Qed.

(** X11: [_anonymize_section_1] returns on every buffer; it leaves the
    first 17 bytes (the file header, the first section header and the
    header of its first tag) as they were, and it does nothing at all to a
    buffer of at most 16 bytes. *)
Theorem section_1_locator self :
  exists out,
    SCPAnonymizer._anonymize_section_1 self = Some out /\
    take 17 (SCPAnonymizer.data out) = take 17 (SCPAnonymizer.data self) /\
    (len (SCPAnonymizer.data self) <= 16 -> out = self).
Proof.
  destruct (_anonymize_section_1_total self) as [out Hout].
  exists out. split; [done|].
  unfold SCPAnonymizer._anonymize_section_1 in Hout. cbv zeta in Hout.
  destruct (while_loop _ _ _ _) as [sfin|] eqn:Hrun; [|done].
  injection Hout as <-. split.
  - revert Hrun.
    apply (while_loop_post _ _
             (fun s => SCPAnonymizer.tag_self s = self /\
                       6 <= SCPAnonymizer.tag_pointer s)
             (fun s => take 17 (SCPAnonymizer.data (SCPAnonymizer.tag_self s))
                       = take 17 (SCPAnonymizer.data self))).
    + intros t s1 [Hself Hp] _ Hb.
      destruct (section_1_body_facts t Hp) as (c & Hb' & _ & _ & _ & Hn).
      rewrite Hb in Hb'. injection Hb' as <-.
      destruct (Hn _ eq_refl) as [-> ?]. split; [done|lia].
    + intros [t p] s1 [Hself Hp] _. simpl in Hself, Hp. subst t.
      unfold SCPAnonymizer.section_1_body. simpl.
      destruct (unpack_le_H _) as [section_id|]; [|done].
      destruct (unpack_le_I _) as [section_size|]; [|done].
      destruct (_ && _); [|by destruct (_ && _)].
      destruct (SCPAnonymizer._anonymize_section_1_tags _ _ _) as [o|] eqn:E;
        [|done].
      simpl. intros [= <-]. simpl.
      apply (_anonymize_section_1_tags_prefix _ _ _ _ 17) in E; [done|lia].
    + by intros t [-> _] _.
    + by split.
  - intros Hshort. destruct (List.length (SCPAnonymizer.data self)) eqn:El;
      simpl in Hrun.
    + unfold SCPAnonymizer.section_1_cond in Hrun. simpl in Hrun.
      destruct (Z.ltb_spec 6 (len (SCPAnonymizer.data self) - 10)); [lia|].
      by injection Hrun as <-.
    + unfold SCPAnonymizer.section_1_cond in Hrun at 1. simpl in Hrun.
      destruct (Z.ltb_spec 6 (len (SCPAnonymizer.data self) - 10)); [lia|].
      by injection Hrun as <-.
Qed.

Lemma section_1_locator_witness :
  SCPAnonymizer._anonymize_section_1
    (SCPAnonymizer.read_file (SCPAnonymizer.init None) short_file)
  = Some (SCPAnonymizer.read_file (SCPAnonymizer.init None) short_file).
Proof.
  destruct (section_1_locator
              (SCPAnonymizer.read_file (SCPAnonymizer.init None) short_file))
    as (out & Hout & _ & Hsame).
  rewrite Hout. f_equal. apply Hsame. vm_compute. discriminate.
Defined.

(** * Further properties of the reader *)

Lemma samples16_lookup rest (j : nat) :
  (2 * j + 2 <= List.length rest)%nat ->
  exists b0 b1,
    rest !! (2 * j)%nat = Some b0 /\ rest !! (2 * j + 1)%nat = Some b1 /\
    samples16 rest !! j = Some (signed16 b0 b1).
Proof.
  revert rest. induction j as [|j IH]; intros rest Hl.
  - destruct rest as [|b0 [|b1 rest]]; simpl in Hl; try lia.
    by exists b0, b1.
  - destruct rest as [|b0 [|b1 rest]]; simpl in Hl; try lia.
    destruct (IH rest) as (c0 & c1 & H0 & H1 & Hs); [lia|].
    exists c0, c1.
    replace (2 * S j)%nat with (S (S (2 * j))) by lia.
    replace (S (S (2 * j)) + 1)%nat with (S (S (2 * j + 1))) by lia.
    done.
Qed.

Lemma length_samples16 rest :
  List.length (samples16 rest) = (List.length rest / 2)%nat.
Proof.
  induction rest as [rest IH] using (induction_ltof1 _ (@List.length byte)).
  unfold ltof in IH.
  destruct rest as [|b0 [|b1 rest]]; [done|done|].
  cbn [samples16 List.length]. rewrite IH by (simpl; lia).
  change (S (S (List.length rest))) with (2 + List.length rest)%nat.
  replace (2 + List.length rest)%nat with (List.length rest + 1 * 2)%nat by lia.
  rewrite Nat.div_add by lia. lia.
Qed.

Lemma slice_two d i b0 b1 :
  0 <= i ->
  d !! Z.to_nat i = Some b0 -> d !! S (Z.to_nat i) = Some b1 ->
  slice d i (i + 2) = [b0; b1].
Proof.
  intros Hi H0 H1. unfold slice.
  rewrite (drop_S _ _ _ H0), (drop_S _ _ _ H1).
  replace (Z.to_nat (i + 2) - Z.to_nat i)%nat with 2%nat by lia. done.
Qed.

(** The loop over the raw samples of one lead, after [k] rounds *)
Lemma raw_rounds (front rest : list byte) (k : nat) :
  (2 * k <= List.length rest)%nat ->
  for_range (Z.of_nat k) (SCPReader.raw_sample_body (front ++ rest))
    (len front, [])
  = Some (len front + 2 * Z.of_nat k, take k (samples16 rest)).
Proof.
  unfold for_range. rewrite Nat2Z.id.
  induction k as [|k IH]; intros Hk.
  - simpl. by rewrite Z.add_0_r.
  - rewrite Nat.iter_succ, IH by lia. cbn [mbind option_bind].
    destruct (samples16_lookup rest k) as (b0 & b1 & H0 & H1 & Hs); [lia|].
    unfold SCPReader.raw_sample_body.
    assert ((len front + 2 * Z.of_nat k + 2 <=? len (front ++ rest)) = true)
      as ->.
    { apply Z.leb_le. rewrite len_app. unfold len. lia. }
    rewrite <- Z.add_assoc, slice_app_after by lia.
    rewrite (slice_two _ _ b0 b1); [|lia| |].
    + cbn [unpack_le_h unpack_le_H mbind option_bind].
      fold (le16 b0 b1). fold (signed16 b0 b1).
      rewrite (take_S_r _ _ _ Hs). do 2 f_equal. lia.
    + by replace (Z.to_nat (2 * Z.of_nat k)) with (2 * k)%nat by lia.
    + by replace (S (Z.to_nat (2 * Z.of_nat k))) with (2 * k + 1)%nat by lia.
Qed.

(** X12: in raw mode (compression flag 0) a lead whose four count bytes
    declare [n] samples is decoded as the first [k] consecutive signed
    16-bit little-endian samples after the count, where [k] is [n] cut to
    the number of whole samples left in the buffer; the pointer moves past
    the count and these [k] samples, and a lead without any sample is not
    added. *)
Theorem raw_lead_decoded (front rest : list byte) (c0 c1 c2 c3 : byte)
    (lead_data : list (list Z)) :
  let k := Z.to_nat (Z.min (le32 c0 c1 c2 c3) (len rest / 2)) in
  SCPReader.lead_body (front ++ [c0; c1; c2; c3] ++ rest) 0
    (len front, lead_data)
  = Some (len front + 4 + 2 * Z.of_nat k,
          if bool_decide (k = O) then lead_data
          else lead_data ++ [take k (samples16 rest)]) /\
  List.length (take k (samples16 rest)) = k.
Proof.
  intros k.
  pose proof (len_nonneg front). pose proof (len_nonneg rest).
  assert (0 <= le32 c0 c1 c2 c3) as Hn.
  { unfold le32. pose proof (byte_to_Z_range c0).
    pose proof (byte_to_Z_range c1). pose proof (byte_to_Z_range c2).
    pose proof (byte_to_Z_range c3). lia. }
  assert (2 * k <= List.length rest)%nat as Hk.
  { unfold k, len in *. Z.div_mod_to_equations. lia. }
  assert (List.length (take k (samples16 rest)) = k) as Hlen.
  { rewrite length_take, length_samples16.
    pose proof (Nat.div_le_lower_bound (List.length rest) 2 k). lia. }
  split; [|done].
  set (d := front ++ [c0; c1; c2; c3] ++ rest).
  assert (len d = len front + 4 + len rest) as Hd.
  { unfold d. rewrite !len_app. unfold len. simpl. lia. }
  unfold SCPReader.lead_body. fold d.
  destruct (Z.leb_spec (len front + 4) (len d)); [|lia].
  assert (unpack_le_I (slice d (len front) (len front + 4))
          = Some (le32 c0 c1 c2 c3)) as ->
    by (unfold d; rewrite slice_app_at; reflexivity).
  cbn [mbind option_bind]. change (0 =? 0) with true. cbv iota.
  replace (Z.min (le32 c0 c1 c2 c3) ((len d - (len front + 4)) / 2))
    with (Z.of_nat k).
  2: { unfold k. rewrite Hd.
       replace (len front + 4 + len rest - (len front + 4)) with (len rest)
         by lia.
       rewrite Z2Nat.id; [done|]. Z.div_mod_to_equations. lia. }
  replace d with ((front ++ [c0; c1; c2; c3]) ++ rest)
    by (unfold d; by rewrite <- app_assoc).
  replace (len front + 4) with (len (front ++ [c0; c1; c2; c3]))
    by (rewrite len_app; unfold len; simpl; lia).
  rewrite raw_rounds by done. cbn [mbind option_bind].
  do 2 f_equal.
  destruct (decide (k = O)) as [->|Hk0].
  - by rewrite take_0.
  - rewrite (bool_decide_eq_false_2 (k = O)) by done.
    rewrite bool_decide_eq_false_2; [done|].
    intros Hnil. rewrite Hnil in Hlen. simpl in Hlen. lia.
Qed.

(** X13: in delta mode a lead whose count bytes declare [n] samples and
    whose two reference bytes are in the buffer is decoded as the
    reference followed by the running sums of the first [k] delta bytes,
    where [k] is [n-1] cut to the bytes left in the buffer and to 0 from
    below: a declared count of 0 still gives the reference sample. *)
Theorem delta_lead_truncated (front rest : list byte)
    (c0 c1 c2 c3 r0 r1 : byte) (compression : Z)
    (lead_data : list (list Z)) :
  compression <> 0 ->
  let k := Z.to_nat (Z.min (le32 c0 c1 c2 c3 - 1) (len rest)) in
  SCPReader.lead_body (front ++ [c0; c1; c2; c3] ++ [r0; r1] ++ rest)
    compression (len front, lead_data)
  = Some (len front + 4 + 2 + Z.of_nat k,
          lead_data
          ++ [delta_decode (signed16 r0 r1) (map signed8 (take k rest))]).
Proof.
  intros Hc k.
  pose proof (len_nonneg front). pose proof (len_nonneg rest).
  assert (k <= List.length rest)%nat as Hk by (unfold k, len in *; lia).
  set (d := front ++ [c0; c1; c2; c3] ++ [r0; r1] ++ rest).
  assert (len d = len front + 6 + len rest) as Hd.
  { unfold d. rewrite !len_app. unfold len. simpl. lia. }
  unfold SCPReader.lead_body. fold d.
  destruct (Z.leb_spec (len front + 4) (len d)); [|lia].
  assert (unpack_le_I (slice d (len front) (len front + 4))
          = Some (le32 c0 c1 c2 c3)) as ->
    by (unfold d; rewrite slice_app_at; reflexivity).
  cbn [mbind option_bind].
  destruct (Z.eqb_spec compression 0); [done|].
  destruct (Z.leb_spec (len front + 4 + 2) (len d)); [|lia].
  assert (unpack_le_h (slice d (len front + 4) (len front + 4 + 2))
          = Some (signed16 r0 r1)) as ->
    by (unfold d; rewrite <- Z.add_assoc, slice_app_after by lia;
        reflexivity).
  cbn [mbind option_bind].
  assert (for_range (Z.min (le32 c0 c1 c2 c3 - 1) (len d - (len front + 4 + 2)))
            (SCPReader.delta_body d) (len front + 4 + 2, [signed16 r0 r1])
          = Some (len front + 4 + 2 + Z.of_nat k,
                  delta_decode (signed16 r0 r1) (map signed8 (take k rest))))
    as ->.
  { replace (len d - (len front + 4 + 2)) with (len rest) by lia.
    assert (for_range (Z.min (le32 c0 c1 c2 c3 - 1) (len rest))
            = for_range (S:=Z * list Z) (Z.of_nat k)) as ->.
    { unfold for_range, k. by rewrite Nat2Z.id. }
    replace d with ((front ++ [c0; c1; c2; c3; r0; r1]) ++ rest ++ [])
      by (unfold d; by rewrite app_nil_r, <- !app_assoc).
    replace (len front + 4 + 2) with (len (front ++ [c0; c1; c2; c3; r0; r1]))
      by (rewrite len_app; unfold len; simpl; lia).
    by rewrite delta_rounds by done. }
  cbn [mbind option_bind]. done.
Qed.

Lemma delta_lead_truncated_witness :
  SCPReader.lead_body
    (bytes_of [0; 0; 0; 0] ++ bytes_of [100; 0] ++ bytes_of [5; 246]) 1 (0, [])
  = Some (6, [[100]]) /\
  SCPReader.lead_body
    (bytes_of [9; 0; 0; 0] ++ bytes_of [100; 0] ++ bytes_of [5; 246]) 1 (0, [])
  = Some (8, [[100; 105; 95]]).
Proof.
  split.
  - exact (delta_lead_truncated [] (bytes_of [5; 246]) x00 x00 x00 x00 x64 x00
             1 [] ltac:(lia)).
  - exact (delta_lead_truncated [] (bytes_of [5; 246]) x09 x00 x00 x00 x64 x00
             1 [] ltac:(lia)).
Defined.

(** ** The shape of the decoded waveform *)

Lemma lead_body_appends data compression s s' :
  SCPReader.lead_body data compression s = Some s' ->
  snd s' = snd s \/ exists l, l <> [] /\ snd s' = snd s ++ [l].
Proof.
  destruct s as [pointer lead_data]. unfold SCPReader.lead_body.
  destruct (if pointer + 4 <=? len data then _ else _) as [[n p1]|]; [|done].
  cbn [mbind option_bind].
  destruct (if compression =? 0 then _ else _) as [[p2 samples]|]; [|done].
  cbn [mbind option_bind]. intros [= <-]. simpl.
  case_bool_decide; [by left|right; by eexists].
Qed.

Lemma for_range_leads data compression (n : Z) s s' :
  for_range n (SCPReader.lead_body data compression) s = Some s' ->
  (List.length (snd s') <= List.length (snd s) + Z.to_nat n)%nat /\
  (Forall (fun l => l <> []) (snd s) -> Forall (fun l => l <> []) (snd s')).
Proof.
  unfold for_range. revert s'.
  induction (Z.to_nat n) as [|k IH]; intros s'.
  - simpl. intros [= <-]. split; [lia|done].
  - rewrite Nat.iter_succ.
    destruct (Nat.iter k _ _) as [s1|]; [|done]. cbn [mbind option_bind].
    intros Hb. destruct (IH s1 eq_refl) as [Hl Hf].
    destruct (lead_body_appends _ _ _ _ Hb) as [->|(l & Hl' & ->)].
    + split; [lia|done].
    + rewrite length_app. simpl. split; [lia|].
      intros H. apply Forall_app. split; [by apply Hf|by constructor].
Qed.

Lemma ecg_matrix_shape (num_leads : Z) (lead_data : list (list Z)) :
  let width := foldr (fun ld m => Nat.max (List.length ld) m) O lead_data in
  Forall (fun row => List.length row = width)
    (SCPReader.ecg_matrix num_leads lead_data) /\
  List.length (SCPReader.ecg_matrix num_leads lead_data)
  = Nat.max (List.length lead_data) (Z.to_nat num_leads) /\
  (lead_data <> [] -> Forall (fun l => l <> []) lead_data -> (1 <= width)%nat).
Proof.
  intros width. unfold SCPReader.ecg_matrix. fold width.
  assert (Forall (fun l => (List.length l <= width)%nat) lead_data) as Hle.
  { unfold width. induction lead_data as [|l ld IH]; [done|].
    simpl. constructor; [lia|].
    eapply Forall_impl; [exact IH|]. simpl. intros. lia. }
  split_and!.
  - apply Forall_app. split.
    + apply Forall_map. eapply Forall_impl; [exact Hle|].
      simpl. intros l Hl. rewrite length_app, length_replicate. lia.
    + apply Forall_replicate. by rewrite length_replicate.
  - rewrite length_app, length_map, length_replicate. lia.
  - intros Hne Hall. destruct lead_data as [|l ld]; [done|].
    apply Forall_cons in Hall as [Hl _]. unfold width. simpl.
    destruct l; [done|]. simpl. lia.
Qed.

Lemma _parse_rhythm_data_facts self data :
  let self' := SCPReader._parse_rhythm_data self data in
  (SCPReader.ecg_data self' = SCPReader.ecg_data self \/
   SCPReader.ecg_data self'
   = Some (SCPReader.SampleData 12 (10 * SCPReader.sampling_rate self')) \/
   exists rows width,
     SCPReader.ecg_data self' = Some (SCPReader.Matrix rows) /\
     (1 <= List.length rows <= 12)%nat /\ (1 <= width)%nat /\
     Forall (fun row => List.length row = width) rows) /\
  (SCPReader.sampling_rate self' = SCPReader.sampling_rate self \/
   15 <= SCPReader.sampling_rate self' <= 1000000) /\
  SCPReader.data self' = SCPReader.data self /\
  SCPReader.sections self' = SCPReader.sections self.
Proof.
  cbv zeta. split_and!; [..|apply _parse_rhythm_data_keeps
                           |apply _parse_rhythm_data_keeps].
  - unfold SCPReader._parse_rhythm_data.
    assert (forall r : SCPReader.reader,
              SCPReader.ecg_data (SCPReader._generate_sample_data r)
              = Some (SCPReader.SampleData 12
                        (10 * SCPReader.sampling_rate
                                (SCPReader._generate_sample_data r)))) as Hgen.
    { intros r. unfold SCPReader._generate_sample_data. cbv zeta.
      by case_bool_decide. }
    destruct (unpack_le_H (slice data 0 2)) as [amplitude|];
      [|right; left; apply Hgen].
    destruct (unpack_le_H (slice data 2 4)) as [interval|];
      [|right; left; apply Hgen].
    cbv zeta.
    set (self1 := if 0 <? interval then _ else self).
    assert (SCPReader.ecg_data self1 = SCPReader.ecg_data self) as H1
      by (unfold self1; by case_match).
    destruct (index data 4) as [encoding|]; [|right; left; apply Hgen].
    destruct (index data 5) as [compression|]; [|right; left; apply Hgen].
    destruct (unpack_le_H (slice data 6 8)) as [n|] eqn:Hn;
      [|right; left; apply Hgen].
    pose proof (unpack_le_H_range _ _ Hn) as Hnr.
    set (num_leads := if (n =? 0) || (12 <? n) then 12 else n).
    assert (1 <= num_leads <= 12) as Hnl.
    { unfold num_leads. destruct (Z.eqb_spec n 0); simpl; [lia|].
      destruct (Z.ltb_spec 12 n); lia. }
    destruct (if 8 + 2 <=? len data then _ else _) as [bps|];
      [|right; left; apply Hgen].
    destruct (for_range num_leads _ _) as [[p lead_data]|] eqn:Hloop;
      [|right; left; apply Hgen].
    apply for_range_leads in Hloop as [Hlen Hne]. simpl in Hlen, Hne.
    case_bool_decide as Hld; [by left|].
    right; right.
    destruct (ecg_matrix_shape num_leads lead_data) as (Hrows & Hcount & Hw).
    eexists _, _. split; [done|]. split_and!.
    + rewrite Hcount. lia.
    + rewrite Hcount. lia.
    + apply Hw; [done|]. by apply Hne.
    + exact Hrows.
  - unfold SCPReader._parse_rhythm_data.
    assert (forall r : SCPReader.reader,
              SCPReader.sampling_rate (SCPReader._generate_sample_data r)
              = SCPReader.sampling_rate r) as Hgen.
    { intros r. unfold SCPReader._generate_sample_data. cbv zeta.
      by case_bool_decide. }
    destruct (unpack_le_H (slice data 0 2)) as [amplitude|];
      [|left; apply Hgen].
    destruct (unpack_le_H (slice data 2 4)) as [interval|] eqn:Hi;
      [|left; apply Hgen].
    pose proof (unpack_le_H_range _ _ Hi) as Hir.
    cbv zeta.
    set (self1 := if 0 <? interval then _ else self).
    assert (SCPReader.sampling_rate self1 = SCPReader.sampling_rate self \/
            15 <= SCPReader.sampling_rate self1 <= 1000000) as H1.
    { unfold self1. destruct (Z.ltb_spec 0 interval); [|by left].
      right.
      assert (15 <= 1000000 / interval <= 1000000) as Hb
        by (split; [apply Z.div_le_lower_bound|apply Z.div_le_upper_bound];
            lia).
      exact Hb. }
    repeat case_match; rewrite ?Hgen; done.
Qed.

Lemma _parse_rhythm_data_rate self data :
  SCPReader.sampling_rate (SCPReader._parse_rhythm_data self data)
  = match unpack_le_H (slice data 2 4) with
    | Some interval =>
        if 0 <? interval then 1000000 / interval
        else SCPReader.sampling_rate self
    | None => SCPReader.sampling_rate self
    end.
Proof.
  unfold SCPReader._parse_rhythm_data.
  assert (forall r : SCPReader.reader,
            SCPReader.sampling_rate (SCPReader._generate_sample_data r)
            = SCPReader.sampling_rate r) as Hgen.
  { intros r. unfold SCPReader._generate_sample_data. cbv zeta.
    by case_bool_decide. }
  destruct (unpack_le_H (slice data 0 2)) as [amplitude|] eqn:H0.
  - destruct (unpack_le_H (slice data 2 4)) as [interval|]; [|apply Hgen].
    cbv zeta.
    set (self1 := if 0 <? interval then _ else self).
    assert (SCPReader.sampling_rate self1
            = if 0 <? interval then 1000000 / interval
              else SCPReader.sampling_rate self) as H1
      by (unfold self1; by destruct (0 <? interval)).
    rewrite <- H1. clearbody self1.
    repeat case_match; rewrite ?Hgen; done.
  - destruct data as [|b0 [|b1 rest]]; [by rewrite Hgen..|done].
Qed.

Lemma _parse_rhythm_data_rows self data rows :
  SCPReader.ecg_data (SCPReader._parse_rhythm_data self data)
  = Some (SCPReader.Matrix rows) ->
  SCPReader.ecg_data (SCPReader._parse_rhythm_data self data)
  = SCPReader.ecg_data self \/
  exists declared,
    unpack_le_H (slice data 6 8) = Some declared /\
    List.length rows
    = Z.to_nat (if (declared =? 0) || (12 <? declared) then 12 else declared).
Proof.
  unfold SCPReader._parse_rhythm_data.
  assert (forall r : SCPReader.reader,
            SCPReader.ecg_data (SCPReader._generate_sample_data r)
            <> Some (SCPReader.Matrix rows)) as Hgen.
  { intros r. unfold SCPReader._generate_sample_data. cbv zeta.
    by case_bool_decide. }
  destruct (unpack_le_H (slice data 0 2)) as [amplitude|];
    [|by intros ?%Hgen].
  destruct (unpack_le_H (slice data 2 4)) as [interval|];
    [|by intros ?%Hgen].
  cbv zeta.
  set (self1 := if 0 <? interval then _ else self).
  assert (SCPReader.ecg_data self1 = SCPReader.ecg_data self) as H1
    by (unfold self1; by case_match).
  destruct (index data 4) as [encoding|]; [|by intros ?%Hgen].
  destruct (index data 5) as [compression|]; [|by intros ?%Hgen].
  destruct (unpack_le_H (slice data 6 8)) as [n|] eqn:Hn;
    [|by intros ?%Hgen].
  pose proof (unpack_le_H_range _ _ Hn) as Hnr.
  set (num_leads := if (n =? 0) || (12 <? n) then 12 else n).
  destruct (if 8 + 2 <=? len data then _ else _) as [bps|];
    [|by intros ?%Hgen].
  destruct (for_range num_leads _ _) as [[p lead_data]|] eqn:Hloop;
    [|by intros ?%Hgen].
  apply for_range_leads in Hloop as [Hlen _]. simpl in Hlen.
  case_bool_decide as Hld; [by left|].
  simpl. intros [= <-]. right. exists n. split; [done|].
  destruct (ecg_matrix_shape num_leads lead_data) as (_ & -> & _). lia.
Qed.

(** X14: whatever the bytes of a Section 6, [_parse_rhythm_data] leaves
    the waveform as it was, or sets the placeholder of 12 leads and ten
    seconds of samples, or sets a rectangular matrix that has one row for
    each lead of the declared count (12 when the count is 0 or above 12),
    so between 1 and 12 rows, all of one width of at least one sample. The
    sampling rate becomes [1000000 // interval], a value between 15 and
    1000000, when the two bytes of the interval are in the section and
    the interval is positive, and stays as it was otherwise. The bytes of
    the file and the section table are not touched. *)
Theorem rhythm_data_shape self data :
  let self' := SCPReader._parse_rhythm_data self data in
  (SCPReader.ecg_data self' = SCPReader.ecg_data self \/
   SCPReader.ecg_data self'
   = Some (SCPReader.SampleData 12 (10 * SCPReader.sampling_rate self')) \/
   exists rows width declared,
     SCPReader.ecg_data self' = Some (SCPReader.Matrix rows) /\
     unpack_le_H (slice data 6 8) = Some declared /\
     List.length rows
     = Z.to_nat (if (declared =? 0) || (12 <? declared) then 12
                 else declared) /\
     (1 <= List.length rows <= 12)%nat /\ (1 <= width)%nat /\
     Forall (fun row => List.length row = width) rows) /\
  SCPReader.sampling_rate self'
  = match unpack_le_H (slice data 2 4) with
    | Some interval =>
        if 0 <? interval then 1000000 / interval
        else SCPReader.sampling_rate self
    | None => SCPReader.sampling_rate self
    end /\
  (SCPReader.sampling_rate self' = SCPReader.sampling_rate self \/
   15 <= SCPReader.sampling_rate self' <= 1000000) /\
  SCPReader.data self' = SCPReader.data self /\
  SCPReader.sections self' = SCPReader.sections self.
Proof.
  cbv zeta.
  destruct (_parse_rhythm_data_facts self data) as (Hshape & Hrate & Hd & Hs).
  cbv zeta in Hshape, Hrate.
  split_and!; [|apply _parse_rhythm_data_rate|done..].
  destruct Hshape as [H|[H|(rows & width & H & Hr & Hw & Hall)]];
    [by left|right; by left|].
  destruct (_parse_rhythm_data_rows self data rows H)
    as [Hsame|(declared & Hdecl & Hlen)]; [by left|].
  right; right. by exists rows, width, declared.
Qed.

(** ** What a finished read has established *)

Lemma _parse_lead_info_keeps_ecg self d :
  SCPReader.ecg_data (SCPReader._parse_lead_info self d)
  = SCPReader.ecg_data self /\
  SCPReader.sampling_rate (SCPReader._parse_lead_info self d)
  = SCPReader.sampling_rate self.
Proof.
  unfold SCPReader._parse_lead_info. cbv zeta.
  repeat case_match; done.
Qed.

Lemma _generate_sample_data_well_formed r :
  SCPReader.sampling_rate r = 500 \/
  15 <= SCPReader.sampling_rate r <= 1000000 ->
  SCPReader.sampling_rate (SCPReader._generate_sample_data r)
  = SCPReader.sampling_rate r /\
  exists e, SCPReader.ecg_data (SCPReader._generate_sample_data r) = Some e /\
            well_formed_ecg e.
Proof.
  intros Hr. unfold SCPReader._generate_sample_data. cbv zeta.
  case_bool_decide; simpl; (split; [done|]); eexists; (split; [done|]);
    simpl; lia.
Qed.

Lemma _parse_rhythm_data_inv file r d :
  reader_inv file r -> reader_inv file (SCPReader._parse_rhythm_data r d).
Proof.
  intros (Hd & Hr & He).
  destruct (_parse_rhythm_data_facts r d) as (Hshape & Hrate & Hdata & _).
  cbv zeta in Hshape, Hrate.
  assert (SCPReader.sampling_rate (SCPReader._parse_rhythm_data r d) = 500 \/
          15 <= SCPReader.sampling_rate (SCPReader._parse_rhythm_data r d)
          <= 1000000) as Hr'.
  { destruct Hrate as [->|?]; [done|by right]. }
  split_and!; [congruence|done|].
  destruct Hshape as [->|[->|(rows & width & -> & ? & ? & ?)]]; [done|..].
  - right. eexists. split; [done|]. simpl. lia.
  - right. eexists. split; [done|]. simpl. by exists width.
Qed.

Lemma _parse_lead_info_inv file r d :
  reader_inv file r -> reader_inv file (SCPReader._parse_lead_info r d).
Proof.
  intros (Hd & Hr & He). unfold reader_inv.
  destruct (_parse_lead_info_keeps r d) as [-> _].
  destruct (_parse_lead_info_keeps_ecg r d) as [-> ->]. done.
Qed.

Lemma sections_body_inv file s c :
  reader_inv file (SCPReader.walk_self s) ->
  SCPReader.sections_body s = Some c ->
  reader_inv file (SCPReader.walk_self (ctl_state c)).
Proof.
  intros Hinv. unfold SCPReader.sections_body. cbv zeta.
  destruct (unpack_le_H _) as [sid|]; [|by intros [= <-]].
  destruct (unpack_le_I _) as [size|]; [|by intros [= <-]].
  destruct (index _ _) as [v|]; [|by intros [= <-]].
  destruct (index _ _) as [pr|]; [|by intros [= <-]].
  destruct (sid =? 0); [by intros [= <-]|].
  intros [= <-]. cbn [ctl_state SCPReader.walk_self].
  set (r1 := SCPReader.mkReader _ _ _ _ _).
  assert (reader_inv file r1) as H1 by exact Hinv.
  destruct (sid =? 1); [done|].
  destruct (sid =? 3); [by apply _parse_lead_info_inv|].
  destruct (sid =? 6); [|done].
  by apply _parse_rhythm_data_inv.
Qed.

Lemma _extract_ecg_data_inv file r :
  reader_inv file r ->
  SCPReader.data (SCPReader._extract_ecg_data r) = file /\
  (SCPReader.sampling_rate (SCPReader._extract_ecg_data r) = 500 \/
   15 <= SCPReader.sampling_rate (SCPReader._extract_ecg_data r)
   <= 1000000) /\
  exists e, SCPReader.ecg_data (SCPReader._extract_ecg_data r) = Some e /\
            well_formed_ecg e.
Proof.
  intros (Hd & Hr & He).
  assert (SCPReader.data (SCPReader._generate_sample_data r) = file /\
          (SCPReader.sampling_rate (SCPReader._generate_sample_data r) = 500 \/
           15 <= SCPReader.sampling_rate (SCPReader._generate_sample_data r)
           <= 1000000) /\
          exists e,
            SCPReader.ecg_data (SCPReader._generate_sample_data r) = Some e /\
            well_formed_ecg e) as Hgen.
  { destruct (_generate_sample_data_well_formed r Hr) as [-> ?].
    destruct (_generate_sample_data_keeps r) as [-> _]. done. }
  unfold SCPReader._extract_ecg_data.
  destruct (SCPReader.ecg_data r) as [[[|[|z row] rows]|n m]|] eqn:Hecg;
    try exact Hgen.
  - split_and!; [done..|]. destruct He as [?|(e & [= <-] & ?)]; [done|].
    by eexists.
  - split_and!; [done..|]. destruct He as [?|(e & [= <-] & ?)]; [done|].
    by eexists.
Qed.

Lemma read_file_raises_cases (fuel : nat) (file : list byte) :
  SCPReader.read_file fuel file = Raises <-> len file < 6.
Proof.
  unfold SCPReader.read_file. cbv zeta.
  destruct file as [|h0 [|h1 [|h2 [|h3 [|h4 [|h5 rest]]]]]];
    try (split; [intros _; unfold len; simpl; lia|intros _; reflexivity]).
  assert (6 <= len (h0 :: h1 :: h2 :: h3 :: h4 :: h5 :: rest)) as Hlen.
  { unfold len. simpl. lia. }
  split; [|lia].
  change (slice (h0 :: h1 :: h2 :: h3 :: h4 :: h5 :: rest) 0 2)
    with [h0; h1].
  change (slice (h0 :: h1 :: h2 :: h3 :: h4 :: h5 :: rest) 2 6)
    with [h2; h3; h4; h5].
  simpl. by destruct (SCPReader._parse_sections fuel _).
Qed.

(** X15: [read_file] raises exactly on the files shorter than the six
    bytes of the header, whatever follows them. *)
Theorem read_file_raises_iff_short (fuel : nat) (file : list byte) :
  SCPReader.read_file fuel file = Raises <-> len file < 6.
Proof. apply read_file_raises_cases. Qed.

(** X16: when [read_file] returns, the reader holds the bytes of the
    file, a sampling rate that is the default 500 or a value between 15
    and 1000000, and a waveform that is never missing or empty: the
    placeholder with 12 leads or a rectangular matrix with 1 to 12 rows
    of at least one sample. *)
Theorem read_file_postcondition (fuel : nat) (file : list byte) self :
  SCPReader.read_file fuel file = Returns self ->
  6 <= len file /\
  SCPReader.data self = file /\
  (SCPReader.sampling_rate self = 500 \/
   15 <= SCPReader.sampling_rate self <= 1000000) /\
  exists e, SCPReader.ecg_data self = Some e /\ well_formed_ecg e.
Proof.
  intros Hrun. split.
  { destruct (Z.lt_ge_cases (len file) 6) as [Hlt|]; [|done].
    apply (read_file_raises_cases fuel) in Hlt. congruence. }
  revert Hrun. unfold SCPReader.read_file, SCPReader._parse_sections.
  cbv zeta.
  destruct (unpack_le_H _); [|done]. destruct (unpack_le_I _); [|done].
  destruct (while_loop _ _ _ _) as [w|] eqn:Hloop; [|done].
  simpl. intros [= <-].
  apply _extract_ecg_data_inv.
  revert Hloop.
  apply (while_loop_inv SCPReader.sections_cond SCPReader.sections_body
           (fun s => reader_inv file (SCPReader.walk_self s))).
  - intros s c Hs _ Hb. by apply (sections_body_inv file s c).
  - simpl. split_and!; [done|by left|by left].
Qed.

Lemma read_file_postcondition_witness :
  exists self,
    SCPReader.read_file 10 delta_file = Returns self /\
    6 <= len delta_file /\
    SCPReader.data self = delta_file /\
    (SCPReader.sampling_rate self = 500 \/
     15 <= SCPReader.sampling_rate self <= 1000000) /\
    exists e, SCPReader.ecg_data self = Some e /\ well_formed_ecg e.
Proof.
  destruct (SCPReader.read_file 10 delta_file) as [self| |] eqn:E;
    [|vm_compute in E; discriminate..].
  exists self. split; [done|].
  exact (read_file_postcondition 10 delta_file self E).
Defined.

(** ** The names of the leads *)

Lemma lead_names_prefix (c L : Z) (m : nat) :
  (m <= 12)%nat ->
  flat_map
    (fun i : nat =>
       if c + Z.of_nat i <? L then
         match SCPReader.lead_names !! i with
         | Some name => [name]
         | None => []
         end
       else [])
    (seq 0 m)
  = take (Nat.min m (Z.to_nat (L - c))) SCPReader.lead_names.
Proof.
  induction m as [|m IH]; intros Hm; [done|].
  rewrite seq_S, flat_map_app, IH by lia.
  cbn [flat_map]. change (0 + m)%nat with m. rewrite app_nil_r.
  destruct (lookup_lt_is_Some_2 SCPReader.lead_names m) as [x Hx];
    [unfold SCPReader.lead_names; cbn [length]; lia|].
  rewrite Hx.
  destruct (Z.ltb_spec (c + Z.of_nat m) L).
  - replace (Nat.min m (Z.to_nat (L - c))) with m by lia.
    replace (Nat.min (S m) (Z.to_nat (L - c))) with (S m) by lia.
    by rewrite (take_S_r _ _ x).
  - rewrite app_nil_r. f_equal. lia.
Qed.

Lemma _parse_lead_info_leads self (n : byte) (rest : list byte) :
  let k := Z.to_nat (Z.min (Z.min (byte_to_Z n) 12)
                       (len rest - 2 * byte_to_Z n)) in
  let named := SCPReader.leads self ++ take k SCPReader.lead_names in
  SCPReader.leads (SCPReader._parse_lead_info self (n :: rest))
  = if bool_decide (named = []) then
      SCPReader.numbered_leads (Z.min (byte_to_Z n) 12)
    else named.
Proof.
  cbv zeta. unfold SCPReader._parse_lead_info.
  change (index (n :: rest) 0) with (Some n). cbv beta iota zeta.
  pose proof (byte_to_Z_range n) as Hn.
  rewrite lead_names_prefix by lia.
  replace (len (n :: rest) - (1 + byte_to_Z n * 2))
    with (len rest - 2 * byte_to_Z n) by (unfold len; simpl; lia).
  replace (Nat.min (Z.to_nat (Z.min (byte_to_Z n) 12))
             (Z.to_nat (len rest - 2 * byte_to_Z n)))
    with (Z.to_nat (Z.min (Z.min (byte_to_Z n) 12)
                      (len rest - 2 * byte_to_Z n))) by lia.
  simpl. by case_bool_decide.
Qed.

(** X17: on a Section 3 that starts with the count byte [n],
    [_parse_lead_info] appends to the leads the first [k] canonical names,
    [k] being [min n 12] cut down to the number of bytes the section has
    after the [2 n] bytes that follow the count; the bytes themselves are
    never looked at. When no name is held after that, the leads become
    ["Lead 1"] to ["Lead (min n 12)"]. On an empty section the leads are
    replaced by the twelve canonical names. *)
Theorem lead_names_by_position self (n : byte) (rest : list byte) :
  let k := Z.to_nat (Z.min (Z.min (byte_to_Z n) 12)
                       (len rest - 2 * byte_to_Z n)) in
  let named := SCPReader.leads self ++ take k SCPReader.lead_names in
  SCPReader.leads (SCPReader._parse_lead_info self (n :: rest))
  = (if bool_decide (named = []) then
       SCPReader.numbered_leads (Z.min (byte_to_Z n) 12)
     else named) /\
  SCPReader.leads (SCPReader._parse_lead_info self []) = SCPReader.lead_names.
Proof. split; [apply _parse_lead_info_leads|reflexivity]. Qed.

(** ** The section table *)

Lemma sections_body_step (s : SCPReader.walk) c :
  SCPReader.sections_body s = Some c ->
  c = Break s \/
  exists sid size v pr r',
    unpack_le_H (slice (SCPReader.data (SCPReader.walk_self s))
                   (SCPReader.walk_pointer s)
                   (SCPReader.walk_pointer s + 2)) = Some sid /\
    unpack_le_I (slice (SCPReader.data (SCPReader.walk_self s))
                   (SCPReader.walk_pointer s + 2)
                   (SCPReader.walk_pointer s + 6)) = Some size /\
    sid <> 0 /\
    c = Next (SCPReader.mkWalk r' (SCPReader.walk_pointer s + size)) /\
    SCPReader.data r' = SCPReader.data (SCPReader.walk_self s) /\
    SCPReader.sections r'
    = <[sid := SCPReader.mkSection size v pr (SCPReader.walk_pointer s + 8)
                 (slice (SCPReader.data (SCPReader.walk_self s))
                    (SCPReader.walk_pointer s + 8)
                    (SCPReader.walk_pointer s + size))]>
        (SCPReader.sections (SCPReader.walk_self s)).
Proof.
  unfold SCPReader.sections_body. cbv zeta.
  destruct (unpack_le_H _) as [sid|]; [|intros [= <-]; by left].
  destruct (unpack_le_I _) as [size|]; [|intros [= <-]; by left].
  destruct (index _ _) as [v|]; [|intros [= <-]; by left].
  destruct (index _ _) as [pr|]; [|intros [= <-]; by left].
  destruct (Z.eqb_spec sid 0) as [|Hsid]; [intros [= <-]; by left|].
  intros [= <-]. right.
  set (r1 := SCPReader.mkReader _ _ _ _ _).
  set (r' := if sid =? 1 then _ else _).
  assert (SCPReader.data r' = SCPReader.data r1 /\
          SCPReader.sections r' = SCPReader.sections r1) as [Hd Hs].
  { unfold r'. repeat case_match; try done.
    - apply _parse_lead_info_keeps.
    - apply _parse_rhythm_data_keeps. }
  exists sid, size, v, pr, r'. by split_and!.
Qed.

Lemma _extract_ecg_data_keeps r :
  SCPReader.data (SCPReader._extract_ecg_data r) = SCPReader.data r /\
  SCPReader.sections (SCPReader._extract_ecg_data r) = SCPReader.sections r.
Proof.
  unfold SCPReader._extract_ecg_data.
  repeat case_match; try done; apply _generate_sample_data_keeps.
Qed.

(** X18: when [read_file] returns, every entry of the section table
    describes a place in the file: its id is not 0, its data start at
    least at offset 14 and before the last two bytes of the file, and its
    data are the bytes of the file from there to the declared end of the
    section (none when the declared size is below 8). *)
Theorem section_table_entries (fuel : nat) (file : list byte) self
    (id : Z) (e : SCPReader.section) :
  SCPReader.read_file fuel file = Returns self ->
  SCPReader.sections self !! id = Some e ->
  1 <= id <= 65535 /\
  0 <= SCPReader.size e < 2 ^ 32 /\
  14 <= SCPReader.data_start e < len file - 2 /\
  SCPReader.section_data e
  = slice file (SCPReader.data_start e)
      (SCPReader.data_start e - 8 + SCPReader.size e).
Proof.
  unfold SCPReader.read_file, SCPReader._parse_sections. cbv zeta.
  destruct (unpack_le_H _); [|done]. destruct (unpack_le_I _); [|done].
  destruct (while_loop _ _ _ _) as [w|] eqn:Hloop; [|done].
  simpl. intros [= <-].
  destruct (_extract_ecg_data_keeps (SCPReader.walk_self w)) as [_ ->].
  revert id e.
  apply (while_loop_inv SCPReader.sections_cond SCPReader.sections_body
           (fun s =>
              SCPReader.data (SCPReader.walk_self s) = file /\
              6 <= SCPReader.walk_pointer s /\
              forall id e,
                SCPReader.sections (SCPReader.walk_self s) !! id = Some e ->
                1 <= id <= 65535 /\
                0 <= SCPReader.size e < 2 ^ 32 /\
                14 <= SCPReader.data_start e < len file - 2 /\
                SCPReader.section_data e
                = slice file (SCPReader.data_start e)
                    (SCPReader.data_start e - 8 + SCPReader.size e)))
    in Hloop as (_ & _ & H); [exact H| |].
  - intros s c (Hd & Hp & Hs) Hc Hb.
    apply sections_body_step in Hb
      as [->|(sid & size & v & pr & r' & Hsid & Hsize & Hne & -> & Hd' & Hs')];
      [done|].
    apply unpack_le_H_range in Hsid. apply unpack_le_I_range in Hsize.
    unfold SCPReader.sections_cond in Hc. apply Z.ltb_lt in Hc.
    cbn [ctl_state SCPReader.walk_self SCPReader.walk_pointer].
    split_and!; [congruence|lia|].
    intros id e. rewrite Hs'.
    intros [[<- <-]|[_ He]]%lookup_insert_Some; [|by apply Hs].
    cbn [SCPReader.size SCPReader.data_start SCPReader.section_data].
    rewrite Hd in *. split_and!; try lia.
    f_equal. lia.
  - simpl. split_and!; [done|lia|]. intros id e. by rewrite lookup_empty.
Qed.

Lemma section_table_entries_witness :
  exists self e,
    SCPReader.read_file 10 delta_file = Returns self /\
    SCPReader.sections self !! 6 = Some e /\
    1 <= 6 <= 65535 /\
    0 <= SCPReader.size e < 2 ^ 32 /\
    14 <= SCPReader.data_start e < len delta_file - 2 /\
    SCPReader.section_data e
    = slice delta_file (SCPReader.data_start e)
        (SCPReader.data_start e - 8 + SCPReader.size e).
Proof.
  destruct (SCPReader.read_file 10 delta_file) as [self| |] eqn:E;
    [|vm_compute in E; discriminate..].
  destruct (SCPReader.sections self !! 6) as [e|] eqn:He.
  - exists self, e. split; [done|]. split; [done|].
    exact (section_table_entries 10 delta_file self 6 e E He).
  - exfalso. vm_compute in E. injection E as <-. vm_compute in He.
    discriminate.
Defined.

(** ** Termination of the reader's walk *)

(** X19: on a file of at least six bytes in which no four bytes at a
    possible place of a size field are all zero, [read_file] returns
    within [len file] rounds of the walk over the sections. *)
Theorem read_file_returns (file : list byte) :
  6 <= len file ->
  (forall p, 6 <= p < len file - 10 ->
             unpack_le_I (slice file (p + 2) (p + 6)) <> Some 0) ->
  exists self,
    SCPReader.read_file (S (Z.to_nat (len file))) file = Returns self.
Proof.
  intros Hlen Hsize.
  destruct (SCPReader.read_file _ file) as [self| |] eqn:E; [by eexists|..].
  { apply read_file_raises_cases in E. lia. }
  exfalso. revert E.
  unfold SCPReader.read_file, SCPReader._parse_sections. cbv zeta.
  destruct (unpack_le_H _); [|done]. destruct (unpack_le_I _); [|done].
  set (r0 := SCPReader.mkReader _ _ _ _ _).
  destruct (while_loop_terminates SCPReader.sections_cond
              SCPReader.sections_body
              (fun s => SCPReader.data (SCPReader.walk_self s) = file /\
                        6 <= SCPReader.walk_pointer s)
              (fun s => Z.to_nat (len file - SCPReader.walk_pointer s))
              (S (Z.to_nat (len file))) (SCPReader.mkWalk r0 6))
    as [w ->]; [..|done].
  - intros s c [Hd Hp] Hc Hb.
    apply sections_body_step in Hb
      as [->|(sid & size & v & pr & r' & Hsid & Hs & Hne & -> & Hd' & _)];
      [done|].
    apply unpack_le_I_range in Hs. simpl. split; [congruence|lia].
  - intros s _ _. unfold SCPReader.sections_body. cbv zeta.
    repeat case_match; done.
  - intros s s' [Hd Hp] Hc Hb.
    apply sections_body_step in Hb
      as [[=]|(sid & size & v & pr & r' & Hsid & Hs & Hne & [= ->] & Hd' & _)].
    unfold SCPReader.sections_cond in Hc. apply Z.ltb_lt in Hc.
    rewrite Hd in *.
    pose proof (unpack_le_I_range _ _ Hs).
    assert (size <> 0) by (intros ->; by apply (Hsize (SCPReader.walk_pointer s))).
    simpl. lia.
  - done.
  - simpl. lia.
Qed.

Lemma read_file_returns_witness :
  exists self,
    SCPReader.read_file (S (Z.to_nat (len delta_file))) delta_file
    = Returns self.
Proof.
  apply read_file_returns.
  - vm_compute. discriminate.
  - intros p Hp.
    assert (len delta_file = 32) as Hl by reflexivity.
    rewrite Hl in Hp.
    assert (p = 6 \/ p = 7 \/ p = 8 \/ p = 9 \/ p = 10 \/ p = 11 \/ p = 12 \/
            p = 13 \/ p = 14 \/ p = 15 \/ p = 16 \/ p = 17 \/ p = 18 \/
            p = 19 \/ p = 20 \/ p = 21) as Hcases by lia.
    repeat (destruct Hcases as [->|Hcases]; [vm_compute; discriminate|]).
    subst p. vm_compute. discriminate.
Defined.

(** ** The verifier's walks over the sections *)

Lemma unpack_le_H_slice d a :
  0 <= a -> a + 2 <= len d -> is_Some (unpack_le_H (slice d a (a + 2))).
Proof.
  intros Ha Hb. pose proof (len_slice d a (a + 2) Ha ltac:(lia) Hb) as Hl.
  unfold len in Hl.
  destruct (slice d a (a + 2)) as [|x [|y [|z l]]]; simpl in Hl; try lia.
  by eexists.
Qed.

Lemma unpack_le_I_slice d a :
  0 <= a -> a + 4 <= len d -> is_Some (unpack_le_I (slice d a (a + 4))).
Proof.
  intros Ha Hb. pose proof (len_slice d a (a + 4) Ha ltac:(lia) Hb) as Hl.
  unfold len in Hl.
  destruct (slice d a (a + 4)) as [|x [|y [|z [|t [|u l]]]]];
    simpl in Hl; try lia.
  by eexists.
Qed.

Lemma read_header_Some d p :
  0 <= p -> p + 8 <= len d ->
  exists sid size,
    AnonymizationVerifier.read_header d p = Some (sid, size) /\
    0 <= size < 2 ^ 32.
Proof.
  intros Hp Hl. unfold AnonymizationVerifier.read_header.
  destruct (unpack_le_H_slice d (p + 2)) as [sid Hsid]; [lia..|].
  destruct (unpack_le_I_slice d (p + 4)) as [size Hsize]; [lia..|].
  replace (p + 2 + 2) with (p + 4) in Hsid by lia.
  replace (p + 4 + 4) with (p + 8) in Hsize by lia.
  rewrite Hsid, Hsize. simpl. exists sid, size. split; [done|].
  by apply unpack_le_I_range in Hsize.
Qed.

Lemma _find_section_facts (data : list byte) (section_id : Z) :
  exists r,
    AnonymizationVerifier._find_section data section_id = Some r /\
    forall found, r = Some found ->
      exists pointer size,
        6 <= pointer < len data - 16 /\
        AnonymizationVerifier.read_header data pointer
        = Some (section_id, size) /\
        size < len data /\
        found = slice data pointer (pointer + size).
Proof.
  unfold AnonymizationVerifier._find_section.
  destruct (while_loop_terminates (AnonymizationVerifier.find_cond data)
              (AnonymizationVerifier.find_body data section_id)
              (fun s => 6 <= fst s)
              (fun s => Z.to_nat (len data - fst s))
              (S (length data)) (6, None)) as [[p r] Hrun].
  - intros s c Hs Hc. unfold AnonymizationVerifier.find_body.
    destruct (AnonymizationVerifier.read_header data (fst s))
      as [[sid size]|] eqn:Hh; [|done].
    destruct (read_header_Some data (fst s)) as (? & ? & Hh' & ?).
    { lia. }
    { unfold AnonymizationVerifier.find_cond in Hc. apply Z.ltb_lt in Hc. lia. }
    rewrite Hh' in Hh. injection Hh as -> ->.
    repeat case_match; intros [= <-]; simpl; lia.
  - intros s Hs Hc. unfold AnonymizationVerifier.find_body.
    destruct (read_header_Some data (fst s)) as (? & ? & -> & ?).
    { lia. }
    { unfold AnonymizationVerifier.find_cond in Hc. apply Z.ltb_lt in Hc. lia. }
    repeat case_match; done.
  - intros s s' Hs Hc. unfold AnonymizationVerifier.find_body.
    unfold AnonymizationVerifier.find_cond in Hc. apply Z.ltb_lt in Hc.
    destruct (AnonymizationVerifier.read_header data (fst s))
      as [[sid size]|]; [|done].
    destruct ((sid =? section_id) && (size <? len data)); [done|].
    destruct (Z.ltb_spec 0 size); [|done].
    intros [= <-]. simpl. lia.
  - simpl. lia.
  - simpl. unfold len. lia.
  - rewrite Hrun. simpl. exists r. split; [done|].
    intros found ->.
    apply (while_loop_post (AnonymizationVerifier.find_cond data)
             (AnonymizationVerifier.find_body data section_id)
             (fun s => 6 <= fst s /\ snd s = None)
             (fun s => forall found, snd s = Some found ->
                exists pointer size,
                  6 <= pointer < len data - 16 /\
                  AnonymizationVerifier.read_header data pointer
                  = Some (section_id, size) /\
                  size < len data /\
                  found = slice data pointer (pointer + size))
             _ _ _) with (found := found) in Hrun; [done| | | |done..].
    + intros s s1 [Hs Hn] Hc. unfold AnonymizationVerifier.find_body.
      destruct (AnonymizationVerifier.read_header data (fst s))
        as [[sid size]|] eqn:Hh; [|done].
      destruct ((sid =? section_id) && (size <? len data)); [done|].
      destruct (Z.ltb_spec 0 size); [|done].
      intros [= <-]. simpl. split; [lia|done].
    + intros s s1 [Hs Hn] Hc. unfold AnonymizationVerifier.find_body.
      unfold AnonymizationVerifier.find_cond in Hc. apply Z.ltb_lt in Hc.
      destruct (AnonymizationVerifier.read_header data (fst s))
        as [[sid size]|] eqn:Hh; [|done].
      destruct ((sid =? section_id) && (size <? len data)) eqn:Hm.
      * apply andb_true_iff in Hm as [->%Z.eqb_eq ?%Z.ltb_lt].
        intros [= <-] found' [= <-]. exists (fst s), size. by split_and!.
      * destruct (0 <? size); [done|]. intros [= <-] found' Hf.
        simpl in Hf. done.
    + intros s [_ ->] _ ? [=].
Qed.

(** X20: [_find_section] always returns: the walk raises nowhere and
    ends within [len data] rounds. What it returns, when it is not
    [None], is the slice of the data at an offset of the walk whose header
    carries the requested id and a size below the length of the data. *)
Theorem find_section_returns (data : list byte) (section_id : Z) :
  exists r,
    AnonymizationVerifier._find_section data section_id = Some r /\
    forall found, r = Some found ->
      exists pointer size,
        6 <= pointer < len data - 16 /\
        AnonymizationVerifier.read_header data pointer
        = Some (section_id, size) /\
        size < len data /\
        found = slice data pointer (pointer + size).
Proof. apply _find_section_facts. Qed.

(** X21: the count of sections of [check_file_structure] always ends,
    within [len data] rounds and without raising; every section it counts
    lies inside the file, so the count is at most the number of bytes that
    follow the six bytes of the header. *)
Theorem count_sections_returns (data : list byte) :
  exists n,
    AnonymizationVerifier.count_sections data = Some n /\
    0 <= n /\ (n = 0 \/ 6 + n <= len data).
Proof.
  unfold AnonymizationVerifier.count_sections.
  set (cond := fun s : Z * Z => fst s <? len data - 16).
  destruct (while_loop_terminates cond
              (AnonymizationVerifier.count_body data)
              (fun s => 6 <= fst s)
              (fun s => Z.to_nat (len data - fst s))
              (S (length data)) (6, 0)) as [[p n] Hrun].
  - intros [p n] c Hs Hc. unfold AnonymizationVerifier.count_body.
    unfold cond in Hc. apply Z.ltb_lt in Hc. simpl in Hs, Hc.
    destruct (read_header_Some data p) as (sid & size & -> & Hsz); [lia..|].
    destruct (Z.eqb_spec size 0); simpl; [by intros [= <-]|].
    destruct (Z.ltb_spec (len data - p) size); intros [= <-]; simpl; lia.
  - intros [p n] Hs Hc. unfold AnonymizationVerifier.count_body.
    unfold cond in Hc. apply Z.ltb_lt in Hc. simpl in Hs, Hc.
    destruct (read_header_Some data p) as (sid & size & -> & Hsz); [lia..|].
    repeat case_match; done.
  - intros [p n] [p' n'] Hs Hc. unfold AnonymizationVerifier.count_body.
    unfold cond in Hc. apply Z.ltb_lt in Hc. simpl in Hs, Hc.
    destruct (read_header_Some data p) as (sid & size & -> & Hsz); [lia..|].
    destruct (Z.eqb_spec size 0); simpl; [done|].
    destruct (Z.ltb_spec (len data - p) size); intros [= <- <-]; simpl; lia.
  - simpl. lia.
  - simpl. unfold len. lia.
  - rewrite Hrun. simpl. exists n. split; [done|].
    apply (while_loop_inv cond (AnonymizationVerifier.count_body data)
             (fun s => 0 <= snd s /\ 6 + snd s <= fst s /\
                       (snd s = 0 \/ fst s <= len data))) in Hrun.
    + simpl in Hrun. lia.
    + intros [p1 n1] c (Hn & Hp & Hb) Hc.
      unfold AnonymizationVerifier.count_body.
      unfold cond in Hc. apply Z.ltb_lt in Hc. simpl in Hn, Hp, Hb, Hc.
      destruct (read_header_Some data p1) as (sid & size & -> & Hsz);
        [lia..|].
      destruct (Z.eqb_spec size 0); simpl;
        [intros [= <-]; simpl; lia|].
      destruct (Z.ltb_spec (len data - p1) size); intros [= <-]; simpl; lia.
    + simpl. lia.
Qed.

(** ** The verifier's verdicts on what the anonymizer writes *)

Lemma rstrip_nul_cons (b : byte) (l : list byte) :
  b <> x00 ->
  AnonymizationVerifier.rstrip_nul (b :: l)
  = b :: AnonymizationVerifier.rstrip_nul l.
Proof.
  intros Hb. unfold AnonymizationVerifier.rstrip_nul. cbn [foldr].
  by rewrite (bool_decide_eq_false_2 _ Hb).
Qed.

Lemma decode_ascii_ignore_cons (b : byte) (l : list byte) :
  b <> x00 -> byte_to_Z b < 128 ->
  AnonymizationVerifier.decode_ascii_ignore (b :: l)
  = b :: AnonymizationVerifier.decode_ascii_ignore l.
Proof.
  intros Hb Hlt. unfold AnonymizationVerifier.decode_ascii_ignore.
  cbn [List.filter]. destruct (Z.ltb_spec (byte_to_Z b) 128); [|lia].
  by apply rstrip_nul_cons.
Qed.

Lemma bytes_repeat_succ (unit : list byte) (k : Z) :
  0 <= k -> bytes_repeat unit (k + 1) = unit ++ bytes_repeat unit k.
Proof.
  intros Hk. unfold bytes_repeat.
  replace (Z.to_nat (k + 1)) with (S (Z.to_nat k)) by lia. done.
Qed.

Lemma removed_bytes_long (tl : Z) :
  7 <= tl ->
  exists rest,
    SCPAnonymizer.removed_bytes tl = list_byte_of_string "REMOVED" ++ rest.
Proof.
  intros Htl. unfold SCPAnonymizer.removed_bytes.
  rewrite bytes_repeat_succ by (apply Z.div_pos; lia).
  unfold slice. rewrite drop_0.
  replace (Z.to_nat tl - Z.to_nat 0)%nat with (7 + Z.to_nat (tl - 7))%nat
    by lia.
  eexists. unfold SCPAnonymizer.removed_unit.
  rewrite <- app_assoc. rewrite take_app_add'; [|done]. done.
Qed.

Lemma starts_with_prefix (sub t : list byte) :
  starts_with (sub ++ t) sub = true.
Proof.
  induction sub as [|x sub IH]; [by destruct t|].
  cbn [app starts_with]. rewrite IH.
  unfold byte_eqb. by rewrite Byte.byte_dec_lb.
Qed.

Lemma find_in_prefix (sub t : list byte) (pos : Z) :
  find_in (sub ++ t) sub pos = pos.
Proof.
  pose proof (starts_with_prefix sub t) as H.
  destruct (sub ++ t); cbn [find_in]; by rewrite H.
Qed.

Lemma names_marker_verdict_cases (current_year tag tl : Z) :
  existsb (Z.eqb tag) [0; 1; 6; 7; 8; 9] = true -> 0 <= tl ->
  AnonymizationVerifier._verify_tag current_year tag
    (SCPAnonymizer.removed_bytes tl)
  = if tl =? 0 then AnonymizationVerifier.Clean
    else if tl <? 3 then AnonymizationVerifier.Warning
    else if tl <? 7 then AnonymizationVerifier.Issue
    else AnonymizationVerifier.Clean.
Proof.
  intros Htag Htl.
  assert ((tag =? 2) = false) as H2.
  { destruct (Z.eqb_spec tag 2) as [->|]; [|done]. by vm_compute in Htag. }
  unfold AnonymizationVerifier._verify_tag. cbv zeta. rewrite H2, Htag.
  destruct (Z.lt_ge_cases tl 7) as [Hlt|Hge].
  - assert (tl = 0 \/ tl = 1 \/ tl = 2 \/ tl = 3 \/ tl = 4 \/ tl = 5 \/ tl = 6)
      as Hc by lia.
    repeat (destruct Hc as [->|Hc]; [by vm_compute|]).
    subst tl. by vm_compute.
  - destruct (removed_bytes_long tl Hge) as [rest ->].
    destruct (Z.eqb_spec tl 0); [lia|].
    destruct (Z.ltb_spec tl 3); [lia|].
    destruct (Z.ltb_spec tl 7); [lia|].
    change (list_byte_of_string "REMOVED" ++ rest)
      with (x52 :: x45 :: x4d :: x4f :: x56 :: x45 :: x44 :: rest).
    rewrite !decode_ascii_ignore_cons by (done || (vm_compute; done)).
    change (list_byte_of_string "REMOVED")
      with [x52; x45; x4d; x4f; x56; x45; x44].
    pose proof (find_in_prefix [x52; x45; x4d; x4f; x56; x45; x44]
                  (AnonymizationVerifier.decode_ascii_ignore rest) 0) as Hf.
    cbn [app] in Hf. rewrite Hf. done.
Qed.

(** X22: on the marker the anonymizer writes into a name field of
    declared length [tl], the verifier's verdict depends on [tl] alone:
    clean for an empty field and from 7 bytes on, where the whole word
    REMOVED fits; an issue ("possible real name") for 3 to 6 bytes, where
    the truncated marker is REM, REMO, REMOV or REMOVE; a warning for 1
    or 2 bytes. *)
Theorem names_marker_verdict (current_year tag tl : Z) :
  In tag [0; 1; 6; 7; 8; 9] -> 0 <= tl ->
  AnonymizationVerifier._verify_tag current_year tag
    (SCPAnonymizer.removed_bytes tl)
  = if tl =? 0 then AnonymizationVerifier.Clean
    else if tl <? 3 then AnonymizationVerifier.Warning
    else if tl <? 7 then AnonymizationVerifier.Issue
    else AnonymizationVerifier.Clean.
Proof.
  intros Htag. apply names_marker_verdict_cases.
  simpl in Htag. destruct Htag as [<-|[<-|[<-|[<-|[<-|[<-|[]]]]]]]; done.
Qed.

Lemma names_marker_verdict_witness :
  AnonymizationVerifier._verify_tag 2026 8 (SCPAnonymizer.removed_bytes 5)
  = AnonymizationVerifier.Issue.
Proof.
  apply (names_marker_verdict 2026 8 5); [simpl; tauto|lia].
Defined.

(** X23: on the value the anonymizer writes into the patient-ID field of
    declared length [tl] from an anonymous id that starts with ANON, the
    verifier's verdict is clean when the field is empty or has room for
    the four letters, and an issue ("contains real ID") for a field of 1
    to 3 bytes, which holds A, AN or ANO. *)
Theorem patient_id_marker_verdict (current_year tl : Z) (rest : list byte) :
  0 <= tl ->
  AnonymizationVerifier._verify_tag current_year 2
    (SCPAnonymizer.anon_bytes (list_byte_of_string "ANON" ++ rest) tl)
  = if (0 <? tl) && (tl <? 4) then AnonymizationVerifier.Issue
    else AnonymizationVerifier.Clean.
Proof.
  intros Htl.
  change (list_byte_of_string "ANON" ++ rest)
    with (x41 :: x4e :: x4f :: x4e :: rest).
  unfold AnonymizationVerifier._verify_tag. cbv zeta.
  change (2 =? 2) with true. cbv iota.
  destruct (Z.lt_ge_cases tl 4) as [Hlt|Hge].
  - assert (tl = 0 \/ tl = 1 \/ tl = 2 \/ tl = 3) as Hc by lia.
    unfold SCPAnonymizer.anon_bytes. cbv zeta.
    destruct Hc as [->|[->|[->| ->]]]; by vm_compute.
  - destruct (Z.ltb_spec tl 4); [lia|]. rewrite andb_false_r.
    unfold SCPAnonymizer.anon_bytes. cbv zeta.
    unfold slice at 1. rewrite drop_0.
    replace (Z.to_nat tl - Z.to_nat 0)%nat with (4 + Z.to_nat (tl - 4))%nat
      by lia.
    cbn [take Nat.add]. unfold slice. rewrite drop_0.
    replace (Z.to_nat tl - Z.to_nat 0)%nat with (4 + Z.to_nat (tl - 4))%nat
      by lia.
    cbn [take Nat.add app].
    rewrite !decode_ascii_ignore_cons by (done || (vm_compute; done)).
    change (list_byte_of_string "ANON") with [x41; x4e; x4f; x4e].
    match goal with
    | |- context [starts_with (x41 :: x4e :: x4f :: x4e :: ?t) _] =>
        pose proof (starts_with_prefix [x41; x4e; x4f; x4e] t) as Hs
    end.
    cbn [app] in Hs. rewrite Hs. done.
Qed.

Lemma patient_id_marker_verdict_witness :
  AnonymizationVerifier._verify_tag 2026 2
    (SCPAnonymizer.anon_bytes
       (list_byte_of_string "ANON" ++ list_byte_of_string "000000") 3)
  = AnonymizationVerifier.Issue.
Proof.
  apply (patient_id_marker_verdict 2026 3 (list_byte_of_string "000000")).
  lia.
Defined.

Lemma byte_to_Z_zero (b : byte) : byte_to_Z b = 0 -> b = x00.
Proof.
  unfold byte_to_Z. intros H.
  assert (Byte.to_N b = 0%N) as H0 by lia.
  pose proof (Byte.of_to_N b) as Hb. rewrite H0 in Hb.
  by injection Hb.
Qed.

Lemma all_zero_cons (b : byte) (l : list byte) :
  AnonymizationVerifier.all_zero (b :: l) = true ->
  b = x00 /\ AnonymizationVerifier.all_zero l = true.
Proof.
  unfold AnonymizationVerifier.all_zero. cbn [forallb].
  intros [Hb Hl]%andb_true_iff. split; [|done].
  apply byte_to_Z_zero. by apply Z.eqb_eq.
Qed.

Lemma decode_ascii_ignore_zero (value : list byte) :
  AnonymizationVerifier.all_zero value = true ->
  AnonymizationVerifier.decode_ascii_ignore value = [].
Proof.
  induction value as [|b l IH]; [done|].
  intros [-> Hl]%all_zero_cons. specialize (IH Hl).
  unfold AnonymizationVerifier.decode_ascii_ignore in *.
  cbn [List.filter]. change (byte_to_Z x00 <? 128) with true. cbv iota.
  unfold AnonymizationVerifier.rstrip_nul in *. cbn [foldr].
  by rewrite IH.
Qed.

Lemma date_of_zero (value : list byte) :
  AnonymizationVerifier.all_zero value = true -> 4 <= len value ->
  AnonymizationVerifier.date_of value = Some (0, 0, 0).
Proof.
  intros Hz Hl.
  destruct value as [|b0 [|b1 [|b2 [|b3 rest]]]];
    try (unfold len in Hl; simpl in Hl; lia).
  apply all_zero_cons in Hz as [-> Hz]. apply all_zero_cons in Hz as [-> Hz].
  apply all_zero_cons in Hz as [-> Hz]. apply all_zero_cons in Hz as [-> Hz].
  unfold AnonymizationVerifier.date_of.
  change (slice (x00 :: x00 :: x00 :: x00 :: rest) 0 2) with [x00; x00].
  rewrite (index_lookup _ 2 x00), (index_lookup _ 3 x00) by (done || lia).
  reflexivity.
Qed.

(** X24: a value of zero bytes only, of any length, is never reported as
    an issue, whatever the tag: the verdict is clean, except for the
    acquisition date (tag 25) of four bytes or more, where the date
    0000-00-00 is not the expected 2000-01-01 and gives a warning. *)
Theorem zeroed_value_verdict (current_year tag : Z) (value : list byte) :
  AnonymizationVerifier.all_zero value = true ->
  AnonymizationVerifier._verify_tag current_year tag value
  = if (tag =? 25) && (4 <=? len value) then AnonymizationVerifier.Warning
    else AnonymizationVerifier.Clean.
Proof.
  intros Hz. unfold AnonymizationVerifier._verify_tag. cbv zeta.
  rewrite (decode_ascii_ignore_zero value Hz), Hz.
  destruct (Z.eqb_spec tag 25) as [->|Hne].
  - change (25 =? 2) with false.
    change (existsb (Z.eqb 25) [0; 1; 6; 7; 8; 9]) with false.
    change (existsb (Z.eqb 25) [5; 10]) with false. cbv iota.
    change (25 =? 25) with true. cbv iota. rewrite andb_true_l.
    destruct (Z.leb_spec 4 (len value)); [|done].
    by rewrite date_of_zero.
  - rewrite andb_false_l.
    destruct (tag =? 2); [done|].
    destruct (existsb (Z.eqb tag) [0; 1; 6; 7; 8; 9]); [done|].
    destruct (existsb (Z.eqb tag) [5; 10]).
    { destruct (Z.leb_spec 4 (len value)); [|done].
      by rewrite date_of_zero. }
    destruct (Z.eqb_spec tag 25); [done|].
    destruct (tag =? 26).
    { destruct (3 <=? len value); [|done].
      destruct value as [|h [|m [|s rest]]]; try done.
      apply all_zero_cons in Hz as [-> Hz].
      apply all_zero_cons in Hz as [-> Hz].
      apply all_zero_cons in Hz as [-> Hz]. done. }
    destruct (existsb (Z.eqb tag) [21; 22]); [done|].
    destruct (existsb (Z.eqb tag) [30; 31]); done.
Qed.

Lemma zeroed_value_verdict_witness :
  AnonymizationVerifier._verify_tag 2026 21 [x00; x00; x00]
  = AnonymizationVerifier.Clean.
Proof.
  apply (zeroed_value_verdict 2026 21 [x00; x00; x00]). reflexivity.
Defined.

(** ** The reader's walk over the tags of Section 1 *)

Lemma patient_round_pointer data s s' :
  SCPReader.patient_round data s = Some s' -> snd s + 3 <= snd s'.
Proof.
  destruct s as [self pointer]. unfold SCPReader.patient_round.
  destruct (index data pointer) as [tag|]; [|done]. cbn [mbind option_bind].
  destruct (unpack_le_H _) as [l|] eqn:Hl; [|done]. cbn [mbind option_bind].
  apply unpack_le_H_range in Hl. cbv zeta.
  destruct (if byte_to_Z tag =? 2 then _ else _) as [self'|]; [|done].
  cbn [mbind option_bind]. intros [= <-]. simpl. lia.
Qed.

Lemma _parse_patient_data_total data self :
  is_Some (SCPReader._parse_patient_data data self).
Proof.
  unfold SCPReader._parse_patient_data.
  destruct (while_loop_terminates (SCPReader.patient_cond data)
              (SCPReader.patient_body data)
              (fun s => 0 <= snd s)
              (fun s => Z.to_nat (len data - snd s))
              (S (length data)) (self, 0)) as [r ->]; [..|done].
  - intros s c Hs _. unfold SCPReader.patient_body.
    destruct (SCPReader.patient_round data s) as [s'|] eqn:Hr;
      intros [= <-]; [|done].
    apply patient_round_pointer in Hr. simpl. lia.
  - intros s _ _. unfold SCPReader.patient_body. by case_match.
  - intros s s' Hs Hc. unfold SCPReader.patient_body.
    unfold SCPReader.patient_cond in Hc. apply Z.ltb_lt in Hc.
    destruct (SCPReader.patient_round data s) as [s1|] eqn:Hr;
      intros [= <-].
    apply patient_round_pointer in Hr. lia.
  - simpl. lia.
  - simpl. unfold len. lia.
Qed.

Lemma patient_round_short data self pointer (tag : byte) (length_ : Z) :
  index data pointer = Some tag ->
  unpack_le_H (slice data (pointer + 1) (pointer + 3)) = Some length_ ->
  len (slice data (pointer + 3) (pointer + 3 + length_))
  < bytes_read (byte_to_Z tag) ->
  SCPReader.patient_round data (self, pointer) = None.
Proof.
  intros Ht Hl Hshort. unfold SCPReader.patient_round.
  rewrite Ht. cbn [mbind option_bind]. rewrite Hl. cbn [mbind option_bind].
  cbv zeta. revert Hshort. unfold bytes_read.
  generalize (slice data (pointer + 3) (pointer + 3 + length_)).
  intros value Hshort.
  destruct (Z.eqb_spec (byte_to_Z tag) 10) as [E|N10].
  { rewrite E. simpl in Hshort.
    change (10 =? 2) with false. change (10 =? 8) with false.
    change (10 =? 9) with false. change (10 =? 10) with true. cbv iota.
    destruct value as [|v0 [|v1 [|v2 [|v3 rest]]]]; try done.
    unfold len in Hshort. simpl in Hshort. lia. }
  destruct (Z.eqb_spec (byte_to_Z tag) 25) as [E|N25].
  { rewrite E. simpl in Hshort.
    change (25 =? 2) with false. change (25 =? 8) with false.
    change (25 =? 9) with false. change (25 =? 10) with false.
    change (25 =? 14) with false. change (25 =? 25) with true. cbv iota.
    destruct value as [|v0 [|v1 [|v2 [|v3 rest]]]]; try done.
    unfold len in Hshort. simpl in Hshort. lia. }
  destruct (Z.eqb_spec (byte_to_Z tag) 14) as [E|N14].
  { rewrite E. simpl in Hshort.
    change (14 =? 2) with false. change (14 =? 8) with false.
    change (14 =? 9) with false. change (14 =? 10) with false.
    change (14 =? 14) with true. cbv iota.
    destruct value as [|v0 [|v1 [|v2 rest]]]; try done.
    unfold len in Hshort. simpl in Hshort. lia. }
  destruct (Z.eqb_spec (byte_to_Z tag) 26) as [E|N26].
  { rewrite E. simpl in Hshort.
    change (26 =? 2) with false. change (26 =? 8) with false.
    change (26 =? 9) with false. change (26 =? 10) with false.
    change (26 =? 14) with false. change (26 =? 25) with false.
    change (26 =? 26) with true. cbv iota.
    destruct value as [|v0 [|v1 [|v2 rest]]]; try done.
    unfold len in Hshort. simpl in Hshort. lia. }
  simpl in Hshort. unfold len in Hshort. lia.
Qed.

(** X25: [_parse_patient_data] always returns: every exception of a
    round is caught, and the walk ends within [len data] rounds, each
    round moving the pointer by three bytes at least. *)
Theorem parse_patient_data_returns (data : list byte) (self : SCPReader.infos) :
  exists self', SCPReader._parse_patient_data data self = Some self'.
Proof.
  destruct (_parse_patient_data_total data self) as [r Hr]. by exists r.
Qed.

(** X26: when the walk reaches a tag whose value, as far as it lies in
    the data, has fewer bytes than the round reads from it (four of a
    date, three of a device or of a time), the parse ends there: the
    result is what was recorded before this tag, and no later tag is
    read. *)
Theorem parse_stops_at_short_field (data : list byte)
    (self : SCPReader.infos) (s : SCPReader.infos * Z)
    (tag : byte) (length_ : Z) :
  s ∈ while_trace (SCPReader.patient_cond data) (SCPReader.patient_body data)
        (S (length data)) (self, 0) ->
  index data (snd s) = Some tag ->
  unpack_le_H (slice data (snd s + 1) (snd s + 3)) = Some length_ ->
  len (slice data (snd s + 3) (snd s + 3 + length_))
  < bytes_read (byte_to_Z tag) ->
  SCPReader._parse_patient_data data self = Some (fst s).
Proof.
  intros Hin Ht Hl Hshort.
  destruct (_parse_patient_data_total data self) as [r Hr].
  rewrite Hr. f_equal. revert Hr. unfold SCPReader._parse_patient_data.
  destruct (while_loop _ _ _ _) as [w|] eqn:Hrun; [|done].
  simpl. intros [= <-].
  pose proof (while_trace_resume _ _ _ _ _ _ Hin Hrun) as Hres.
  destruct (while_trace_inv (SCPReader.patient_cond data)
              (SCPReader.patient_body data) (fun _ => True)
              (S (length data)) (self, 0) s) as [_ Hc]; [done..|].
  cbn [while_loop] in Hres. rewrite Hc in Hres.
  unfold SCPReader.patient_body in Hres.
  destruct s as [info pointer]. simpl in Ht, Hl, Hshort.
  rewrite (patient_round_short data info pointer tag length_ Ht Hl Hshort)
    in Hres.
  by injection Hres as <-.
Qed.

Lemma parse_stops_at_short_field_witness :
  SCPReader._parse_patient_data short_dob_section
    (SCPReader.mkInfos ∅ ∅)
  = Some (SCPReader.set_patient (SCPReader.mkInfos ∅ ∅) "id"
            (SCPReader.Text [x41])).
Proof.
  apply (parse_stops_at_short_field short_dob_section
           (SCPReader.mkInfos ∅ ∅)
           (SCPReader.set_patient (SCPReader.mkInfos ∅ ∅) "id"
              (SCPReader.Text [x41]), 4)
           x0a 2).
  - apply list_elem_of_In. vm_compute. right. left. reflexivity.
  - reflexivity.
  - reflexivity.
  - vm_compute. reflexivity.
Defined.
